(** * Video editor front end: crop geometry, overlay synchronisation, jobs

    A shallow embedding of the React components under [frontend/src]:
    [CropOverlay], [PropertyPanel], [OverlayVideo], the upload handlers of
    [MaterialPanel] and [MainVideoUploader], and the [Editor] page.

    Event handlers are functions from the component's props and state to
    the values they hand to their callbacks; React state is a record that
    the handlers of [Editor] transform. *)

From Stdlib Require Import QArith Qround Qminmax Qabs ZArith Lia Lqa.
From Stdlib Require Import String Ascii List Bool DecimalString.
From Stdlib Require DecimalPos DecimalN.
From ExtLib Require Import Structures.Monad Data.Monads.OptionMonad.
Import ListNotations.
Import MonadNotation.
Local Open Scope monad_scope.
Local Open Scope Q_scope.

(** ** JavaScript numbers

    A [number] is modelled by its exact value in [Q]: every finite double
    is a rational, and comparison, [Math.min], [Math.max], [Math.abs] and
    [Math.round] are exact on doubles.  Sums, differences and products are
    taken exactly (the rounding of double arithmetic is not modelled).  A
    quotient with a zero divisor leaves the finite numbers (JavaScript
    yields an infinity or NaN); [div] reports it as [None]. *)
Module Js.

Definition number := Q.

Definition Math_round (v : number) : number := inject_Z (Qfloor (v + (1 # 2))).
Definition Math_max (a b : number) : number := Qmax a b.
Definition Math_min (a b : number) : number := Qmin a b.
Definition Math_abs (a : number) : number := Qabs a.

(** [a > b] and [a < b] and [a >= b] as JavaScript evaluates them. *)
Definition gt (a b : number) : bool := negb (Qle_bool a b).
Definition lt (a b : number) : bool := negb (Qle_bool b a).
Definition ge (a b : number) : bool := Qle_bool b a.

Definition div (a b : number) : option number :=
  if Qeq_bool b 0 then None else Some (a / b).

(** [v || d] on numbers: zero is falsy. *)
Definition or_number (v d : number) : number :=
  if Qeq_bool v 0 then d else v.

(** [s || d] on strings: the empty string is falsy. *)
Definition or_string (s d : string) : string :=
  match s with EmptyString => d | _ => s end.

(** *** Numbers that need not be finite

    Where the source computes with a value that can be NaN or an infinity
    (the result of [parseTimeInput]), the value is an [xnumber] and the
    operations below are JavaScript's on such values. *)
Inductive xnumber :=
| Fin (v : number)
| PosInfinity
| NegInfinity
| NaN.

(** [Math.min(a, b)] and [Math.max(a, b)]: NaN if either argument is. *)
Definition xMath_min (a b : xnumber) : xnumber :=
  match a, b with
  | NaN, _ | _, NaN => NaN
  | NegInfinity, _ | _, NegInfinity => NegInfinity
  | PosInfinity, c | c, PosInfinity => c
  | Fin u, Fin v => Fin (Math_min u v)
  end.

Definition xMath_max (a b : xnumber) : xnumber :=
  match a, b with
  | NaN, _ | _, NaN => NaN
  | PosInfinity, _ | _, PosInfinity => PosInfinity
  | NegInfinity, c | c, NegInfinity => c
  | Fin u, Fin v => Fin (Math_max u v)
  end.

(** [a + b]: the sum of opposite infinities is NaN. *)
Definition xadd (a b : xnumber) : xnumber :=
  match a, b with
  | NaN, _ | _, NaN => NaN
  | PosInfinity, NegInfinity | NegInfinity, PosInfinity => NaN
  | PosInfinity, _ | _, PosInfinity => PosInfinity
  | NegInfinity, _ | _, NegInfinity => NegInfinity
  | Fin u, Fin v => Fin (u + v)
  end.

(** [a > b]: false whenever an argument is NaN. *)
Definition xgt (a b : xnumber) : bool :=
  match a, b with
  | NaN, _ | _, NaN => false
  | PosInfinity, PosInfinity => false
  | PosInfinity, _ => true
  | _, PosInfinity => false
  | NegInfinity, _ => false
  | _, NegInfinity => true
  | Fin u, Fin v => gt u v
  end.

End Js.
Import Js.

Notation "a /? b" := (Js.div a b) (at level 40, left associativity).

(** ** types/video.ts

    The [width] and [height] of a [VideoFile] are [vwidth] and [vheight]
    here, the plain names being those of a [CropArea].  The optional
    [thumbnailUrl] and [resultUrl], which no handler below reads, are left
    out. *)
Module Video.

(** [CropArea] and [OverlayPosition] are the same shape. *)
Record CropArea := mkArea {
  x : number;
  y : number;
  width : number;
  height : number
}.

Definition OverlayPosition := CropArea.

Inductive SourceType := upload | crop_src | merge_src.

Inductive EditorMode := crop | merge.

Record VideoFile := mkVideo {
  id : string;
  name : string;
  size : number;
  duration : number;
  vwidth : number;
  vheight : number;
  fps : number;
  frameCount : number;
  format : string;
  url : string;
  isMain : option bool;
  sourceType : option SourceType;
  parentId : option string
}.

Inductive TaskStatus := pending | processing | completed | failed.

Record ProcessTask := mkTask {
  taskId : string;
  status : TaskStatus;
  progress : number;
  resultFileId : option string;
  error : option string
}.

End Video.
Import Video.

(** ** components/CropOverlay *)
Module CropOverlay.

Inductive ResizeHandle := nw | n | ne | e | se | s | sw | w.

Record Layout := mkLayout {
  displayWidth : number;
  displayHeight : number;
  offsetX : number;
  offsetY : number;
  scale : number
}.

(** The body of the component up to [const scale = ...]. *)
Definition layout (videoWidth videoHeight containerWidth containerHeight : number)
  : option Layout :=
  videoAspect <- videoWidth /? videoHeight ;;
  containerAspect <- containerWidth /? containerHeight ;;
  if gt videoAspect containerAspect then
    let displayWidth := containerWidth in
    displayHeight <- containerWidth /? videoAspect ;;
    let offsetX := 0 in
    let offsetY := (containerHeight - displayHeight) / 2 in
    scale <- displayWidth /? videoWidth ;;
    ret (mkLayout displayWidth displayHeight offsetX offsetY scale)
  else
    let displayHeight := containerHeight in
    let displayWidth := containerHeight * videoAspect in
    let offsetX := (containerWidth - displayWidth) / 2 in
    let offsetY := 0 in
    scale <- displayWidth /? videoWidth ;;
    ret (mkLayout displayWidth displayHeight offsetX offsetY scale).

Definition toContainerCoords (l : Layout) (area : CropArea) : CropArea :=
  {| x := x area * scale l + offsetX l;
     y := y area * scale l + offsetY l;
     width := width area * scale l;
     height := height area * scale l |}.

Definition toVideoCoords (l : Layout) (containerArea : CropArea) : option CropArea :=
  cx <- (x containerArea - offsetX l) /? scale l ;;
  cy <- (y containerArea - offsetY l) /? scale l ;;
  cw <- width containerArea /? scale l ;;
  ch <- height containerArea /? scale l ;;
  ret {| x := Math_round cx; y := Math_round cy;
         width := Math_round cw; height := Math_round ch |}.

Definition minSize : number := 20.

Definition clampArea (videoWidth videoHeight : number) (area : CropArea) : CropArea :=
  let x0 := Math_round (x area) in
  let y0 := Math_round (y area) in
  let width0 := Math_round (width area) in
  let height0 := Math_round (height area) in
  let width1 := Math_max minSize (Math_min width0 videoWidth) in
  let height1 := Math_max minSize (Math_min height0 videoHeight) in
  let x1 := Math_max 0 (Math_min x0 (videoWidth - width1)) in
  let y1 := Math_max 0 (Math_min y0 (videoHeight - height1)) in
  {| x := x1; y := y1; width := width1; height := height1 |}.

(** The [switch (resizing)] of [handleMouseMove]: the edges a handle owns. *)
Definition resizeBy (h : ResizeHandle) (initialArea : CropArea) (dx dy : number)
  : CropArea :=
  let a := initialArea in
  match h with
  | nw => {| x := x a + dx; y := y a + dy; width := width a - dx; height := height a - dy |}
  | n  => {| x := x a; y := y a + dy; width := width a; height := height a - dy |}
  | ne => {| x := x a; y := y a + dy; width := width a + dx; height := height a - dy |}
  | e  => {| x := x a; y := y a; width := width a + dx; height := height a |}
  | se => {| x := x a; y := y a; width := width a + dx; height := height a + dy |}
  | s  => {| x := x a; y := y a; width := width a; height := height a + dy |}
  | sw => {| x := x a + dx; y := y a; width := width a - dx; height := height a + dy |}
  | w  => {| x := x a + dx; y := y a; width := width a - dx; height := height a |}
  end.

(** The gesture state of the component. *)
Record Gesture := mkGesture {
  dragging : bool;
  resizing : option ResizeHandle;
  dragStart : number * number;
  initialArea : option CropArea
}.

(** The update of a gesture once the pointer delta is in video pixels:
    the area passed to [onChange], or [None] when the handler returns
    without calling it. *)
Definition updateGesture (videoWidth videoHeight : number) (g : Gesture)
  (dx dy : number) : option CropArea :=
  match initialArea g with
  | None => None
  | Some a =>
    if dragging g then
      Some (clampArea videoWidth videoHeight
              {| x := x a + dx; y := y a + dy; width := width a; height := height a |})
    else
      match resizing g with
      | Some h => Some (clampArea videoWidth videoHeight (resizeBy h a dx dy))
      | None => None
      end
  end.

(** [handleMouseMove]; the outer [option] is the division by [scale]. *)
Definition handleMouseMove (videoWidth videoHeight : number) (l : Layout)
  (g : Gesture) (clientX clientY : number) : option (option CropArea) :=
  match initialArea g with
  | None => Some None
  | Some _ =>
    dx <- (clientX - fst (dragStart g)) /? scale l ;;
    dy <- (clientY - snd (dragStart g)) /? scale l ;;
    ret (updateGesture videoWidth videoHeight g dx dy)
  end.

(** [handleMouseDown] and [handleMouseUp] on the gesture state; [cropArea]
    is the prop the component currently shows. *)
Definition handleMouseDown (enabled : bool) (cropArea : option CropArea)
  (clientX clientY : number) (handle : option ResizeHandle) (g : Gesture) : Gesture :=
  match enabled, cropArea with
  | true, Some a =>
    match handle with
    | Some h => {| dragging := dragging g; resizing := Some h;
                   dragStart := (clientX, clientY); initialArea := Some a |}
    | None => {| dragging := true; resizing := resizing g;
                 dragStart := (clientX, clientY); initialArea := Some a |}
    end
  | _, _ => g
  end.

Definition handleMouseUp (g : Gesture) : Gesture :=
  {| dragging := false; resizing := None;
     dragStart := dragStart g; initialArea := None |}.

(** [handleOverlayClick]: the default region a click creates; the click is
    given relative to the overlay element. *)
Definition handleOverlayClick (enabled : bool) (cropArea : option CropArea)
  (videoWidth videoHeight : number) (l : Layout) (clickX clickY : number)
  : option CropArea :=
  if negb enabled || (match cropArea with Some _ => true | None => false end) then None
  else if lt clickX (offsetX l) || gt clickX (offsetX l + displayWidth l)
       || lt clickY (offsetY l) || gt clickY (offsetY l + displayHeight l)
  then None
  else
    let defaultWidth := videoWidth / 2 in
    let defaultHeight := videoHeight / 2 in
    let defaultX := (videoWidth - defaultWidth) / 2 in
    let defaultY := (videoHeight - defaultHeight) / 2 in
    Some {| x := Math_round defaultX; y := Math_round defaultY;
            width := Math_round defaultWidth; height := Math_round defaultHeight |}.

End CropOverlay.

(** The Rectangle invariant of a region inside a [boundsWidth] by
    [boundsHeight] frame. *)
Definition within_bounds (boundsWidth boundsHeight : number) (r : CropArea) : Prop :=
  CropOverlay.minSize <= width r /\ CropOverlay.minSize <= height r /\
  0 <= x r /\ 0 <= y r /\
  x r + width r <= boundsWidth /\ y r + height r <= boundsHeight.

(** Field-wise equality of rectangles as numbers. *)
Definition area_eq (a b : CropArea) : Prop :=
  x a == x b /\ y a == y b /\ width a == width b /\ height a == height b.

(** ** components/PropertyPanel *)
Module PropertyPanel.

(** [parseInt(s, 10)]: leading white space, an optional sign, then the
    longest run of decimal digits; [None] is NaN (no digit).  White space
    is the ASCII one. *)
Definition is_space (c : ascii) : bool :=
  let k := nat_of_ascii c in
  (k =? 32)%nat || ((9 <=? k)%nat && (k <=? 13)%nat).

Definition digit_of (c : ascii) : option Z :=
  let k := Z.of_nat (nat_of_ascii c) in
  if ((48 <=? k) && (k <=? 57))%Z then Some (k - 48)%Z else None.

Fixpoint skip_space (s : string) : string :=
  match s with
  | String c r => if is_space c then skip_space r else s
  | EmptyString => s
  end.

(** The digits of [s] read after the accumulator [acc]; [seen] tells
    whether a digit was read. *)
Fixpoint digits (s : string) (seen : bool) (acc : Z) : option Z :=
  match s with
  | String c r =>
    match digit_of c with
    | Some d => digits r true (10 * acc + d)%Z
    | None => if seen then Some acc else None
    end
  | EmptyString => if seen then Some acc else None
  end.

Definition parseInt (s : string) : option number :=
  match skip_space s with
  | String "-" r => option_map (fun v => inject_Z (- v)) (digits r false 0%Z)
  | String "+" r => option_map inject_Z (digits r false 0%Z)
  | r => option_map inject_Z (digits r false 0%Z)
  end.

Inductive Field := fx | fy | fwidth | fheight.

(** [String(n)] for a natural number [n] below 2^53, which a double holds
    exactly and JavaScript prints with all its decimal digits: the text
    [handleCropInputChange] keeps for a number the widget reports. *)
Definition String_of_N (k : N) : string :=
  NilEmpty.string_of_uint (N.to_uint k).

(** The value an [InputNumber] reports: [number | string | undefined]. *)
Inductive InputValue :=
| VNumber (v : number)
| VString (s : string)
| VUndefined.

(** [handleCropInputBlur]: the area passed to [onCropAreaChange], or [None]
    when the handler only clears the draft.  [inputValue] is
    [cropInputs[field]]. *)
Definition handleCropInputBlur (cropArea : option CropArea)
  (mainVideo : option VideoFile) (field : Field) (inputValue : option string)
  : option CropArea :=
  match cropArea, mainVideo with
  | Some a, Some m =>
    match inputValue with
    | None => None
    | Some EmptyString => None
    | Some str =>
      match parseInt str with
      | None => None
      | Some parsed =>
        let numValue := Math_round parsed in
        Some
          match field with
          | fx => {| x := Math_max 0 (Math_min numValue (vwidth m - width a));
                     y := y a; width := width a; height := height a |}
          | fy => {| x := x a;
                     y := Math_max 0 (Math_min numValue (vheight m - height a));
                     width := width a; height := height a |}
          | fwidth => {| x := x a; y := y a;
                         width := Math_max 20 (Math_min numValue (vwidth m - x a));
                         height := height a |}
          | fheight => {| x := x a; y := y a; width := width a;
                          height := Math_max 20 (Math_min numValue (vheight m - y a)) |}
          end
      end
    end
  | _, _ => None
  end.

Definition set_field (field : Field) (v : number) (a : CropArea) : CropArea :=
  match field with
  | fx => {| x := v; y := y a; width := width a; height := height a |}
  | fy => {| x := x a; y := v; width := width a; height := height a |}
  | fwidth => {| x := x a; y := y a; width := v; height := height a |}
  | fheight => {| x := x a; y := y a; width := width a; height := v |}
  end.

(** [handleOverlayChange]: the placement passed to
    [onOverlayPositionChange], or [None] when the handler returns early. *)
Definition handleOverlayChange (overlayPosition : option OverlayPosition)
  (mainVideo : option VideoFile) (field : Field) (value : InputValue)
  : option OverlayPosition :=
  match overlayPosition, mainVideo with
  | Some pos, Some _ =>
    let numValue :=
      match value with
      | VNumber v => Some v
      | VString str => parseInt str
      | VUndefined => parseInt "undefined"
      end in
    match numValue with
    | None => None
    | Some v => Some (set_field field (Math_max 0 v) pos)
    end
  | _, _ => None
  end.

(** [handleResetCrop]. *)
Definition handleResetCrop (mainVideo : option VideoFile) : option CropArea :=
  match mainVideo with
  | None => None
  | Some m => Some {| x := 0; y := 0; width := vwidth m; height := vheight m |}
  end.

(** *** The job poll *)

(** [ApiResponse<ProcessTask>]. *)
Record ApiResponse := mkResponse {
  success : bool;
  data : option ProcessTask;
  resp_error : option string
}.

(** What one run of [pollTaskStatus] does, in order. *)
Inductive Effect :=
| SetTask (t : option ProcessTask)
| SetProcessing (b : bool)
| SetTimeout (ms : number)
| OnVideoExported (v : VideoFile)
| MessageSuccess
| MessageError (msg : string)
| ConsoleError.

Definition API_BASE : string := "http://localhost:5001/api".

(** [getVideoUrl] of services/videoApi.ts. *)
Definition getVideoUrl (fileId : string) : string :=
  (API_BASE ++ "/video/file/" ++ fileId)%string.

Section Poll.

(** The synthesised file name: a template over the edit kind, the top-left
    corner, the wall-clock time, the start time and the format.  Its text
    depends on the clock and is left abstract. *)
Variable fileNameOf : SourceType -> number -> number -> number -> string -> string.

(** The props [pollTaskStatus] closes over when the job is submitted. *)
Record Submitted := mkSubmitted {
  mainVideo : option VideoFile;
  startTime : number;
  endTime : number;
  cropArea : option CropArea;
  overlayPosition : option OverlayPosition
}.

Definition corner (r : option CropArea) : number * number :=
  match r with
  | Some a => (or_number (x a) 0, or_number (y a) 0)
  | None => (0, 0)
  end.

(** The [newVideo] object literal; [mainVideo!] is [m]. *)
Definition newVideo (p : Submitted) (m : VideoFile) (fileId format : string)
  (kind : SourceType) : VideoFile :=
  let xy := match kind with
            | crop_src => corner (cropArea p)
            | _ => corner (overlayPosition p)
            end in
  {| id := fileId;
     name := fileNameOf kind (fst xy) (snd xy) (startTime p) format;
     size := 0;
     duration := endTime p - startTime p;
     vwidth := match cropArea p with
               | Some a => or_number (width a) (vwidth m)
               | None => vwidth m
               end;
     vheight := match cropArea p with
                | Some a => or_number (height a) (vheight m)
                | None => vheight m
                end;
     fps := fps m;
     frameCount := Math_round ((endTime p - startTime p) * fps m);
     format := format;
     url := getVideoUrl fileId;
     isMain := Some false;
     sourceType := Some kind;
     parentId := Some (id m) |}.

(** [pollTaskStatus] run on the answer of [getTaskStatus]; [None] is a
    rejected promise (the [catch] branch).  [kind] is ['crop'] or
    ['merge']. *)
Definition pollTaskStatus (p : Submitted) (taskId format : string)
  (kind : SourceType) (result : option ApiResponse) : list Effect :=
  match result with
  | None => [ConsoleError; SetProcessing false; SetTask None]
  | Some r =>
    match success r, data r with
    | true, Some d =>
      SetTask (Some d) ::
      match status d with
      | processing | pending => [SetTimeout 1000]
      | completed =>
        SetProcessing false ::
        let fileId := match resultFileId d with
                      | Some f => or_string f taskId
                      | None => taskId
                      end in
        match mainVideo p with
        | Some m =>
          [OnVideoExported (newVideo p m fileId format kind);
           SetTask None; MessageSuccess]
        | None => [ConsoleError; SetProcessing false; SetTask None]
        end
      | failed =>
        [SetProcessing false; SetTask None;
         MessageError (match error d with
                       | Some msg => or_string msg "处理失败"
                       | None => "处理失败"
                       end)]
      end
    | _, _ => [ConsoleError]
    end
  end.

Definition is_timer (ef : Effect) : bool :=
  match ef with SetTimeout _ => true | _ => false end.

(** The self re-arming loop over the successive answers of the service:
    the next poll runs only if this one set its timer. *)
Fixpoint pollLoop (p : Submitted) (taskId format : string) (kind : SourceType)
  (answers : list (option ApiResponse)) : list Effect :=
  match answers with
  | [] => []
  | a :: rest =>
    let efs := pollTaskStatus p taskId format kind a in
    efs ++ (if existsb is_timer efs then pollLoop p taskId format kind rest else [])
  end.

End Poll.

(** *** Time fields *)

(** The literal [0.1], the least length of an edit range. *)
Definition minGap : number := 1 # 10.

(** What a time handler passes to [onStartTimeChange] and
    [onEndTimeChange]; [None] is no call.  The value passed can be NaN. *)
Record TimeChange := mkTimeChange {
  newStartTime : option xnumber;
  newEndTime : option xnumber
}.

Definition noTimeChange : TimeChange :=
  {| newStartTime := None; newEndTime := None |}.

(** The time fields of the panel's props. *)
Record TimeProps := mkTimeProps {
  tp_mainVideo : option VideoFile;
  tp_selectedMaterial : option VideoFile;
  tp_startTime : number;
  tp_endTime : number
}.

(** In the four handlers below [parsed] is the local constant of the
    source, the value [parseTimeInput] returned for the text of the
    field.  [parseTimeInput] reads the pieces of the text with [Number]
    and [parseInt] and sums their products in doubles; what it returns is
    some value of type number, NaN (as for the text "1.x", whose
    fraction has no digit) and the infinities included, and the handlers
    are given for every such value.  The props are finite. *)
Definition handleStartTimeBlur (p : TimeProps) (parsed : xnumber) : TimeChange :=
  match tp_mainVideo p with
  | None => noTimeChange
  | Some _ =>
    {| newStartTime :=
         Some (xMath_max (Fin 0) (xMath_min parsed (Fin (tp_endTime p - minGap))));
       newEndTime := None |}
  end.

Definition handleEndTimeBlur (p : TimeProps) (parsed : xnumber) : TimeChange :=
  match tp_mainVideo p with
  | None => noTimeChange
  | Some m =>
    {| newStartTime := None;
       newEndTime := Some (xMath_max (Fin (tp_startTime p + minGap))
                                     (xMath_min parsed (Fin (Video.duration m)))) |}
  end.

Definition handleDurationBlur (p : TimeProps) (parsed : xnumber) : TimeChange :=
  match tp_mainVideo p with
  | None => noTimeChange
  | Some m =>
    if xgt parsed (Fin 0) then
      {| newStartTime := None;
         newEndTime := Some (xMath_min (xadd (Fin (tp_startTime p)) parsed)
                                       (Fin (Video.duration m))) |}
    else noTimeChange
  end.

(** [selectedMaterial?.duration || 0]. *)
Definition overlayDuration (p : TimeProps) : number :=
  match tp_selectedMaterial p with
  | Some v => or_number (Video.duration v) 0
  | None => 0
  end.

(** [blank] is [!startTimeInput.trim()]. *)
Definition handleMergeStartTimeBlur (p : TimeProps) (blank : bool) (parsed : xnumber)
  : TimeChange :=
  match tp_mainVideo p with
  | None => noTimeChange
  | Some m =>
    if blank then noTimeChange
    else
      let newStart :=
        xMath_max (Fin 0) (xMath_min parsed (Fin (Video.duration m - minGap))) in
      {| newStartTime := Some newStart;
         newEndTime :=
           if gt (overlayDuration p) 0
           then Some (xMath_min (xadd newStart (Fin (overlayDuration p)))
                                (Fin (Video.duration m)))
           else None |}
  end.

(** *** Submission *)

(** [CropRequest] and [OverlayRequest] of types/video.ts. *)
Record CropRequest := mkCropRequest {
  file_id : string;
  start_time : number;
  end_time : number;
  crop_area : option CropArea;
  output_format : option string
}.

Record OverlayRequest := mkOverlayRequest {
  main_file_id : string;
  overlay_file_id : string;
  o_start_time : number;
  o_end_time : number;
  o_position : OverlayPosition;
  o_output_format : option string
}.

(** What a confirm handler does before and after its request. *)
Inductive Submission :=
| NothingSent
| Warned
| SentCrop (req : CropRequest)
| SentOverlay (req : OverlayRequest).

(** The request [handleConfirmCrop] sends. *)
Definition handleConfirmCrop (p : Submitted) : Submission :=
  match mainVideo p with
  | None => NothingSent
  | Some m =>
    SentCrop {| file_id := id m;
                start_time := startTime p;
                end_time := endTime p;
                crop_area := cropArea p;
                output_format := Some (format m) |}
  end.

(** The request [handleConfirmOverlay] sends, or the warning it shows. *)
Definition handleConfirmOverlay (p : Submitted) (selectedMaterial : option VideoFile)
  : Submission :=
  match mainVideo p, selectedMaterial, overlayPosition p with
  | Some m, Some sel, Some pos =>
    SentOverlay {| main_file_id := id m;
                   overlay_file_id := id sel;
                   o_start_time := startTime p;
                   o_end_time := endTime p;
                   o_position := pos;
                   o_output_format := Some (format m) |}
  | _, _, _ => Warned
  end.

(** What follows the answer to a submission: the effects of the handler
    and, when the job was accepted, the arguments of the first
    [pollTaskStatus]. *)
Definition afterSubmit (m : VideoFile) (kind : SourceType) (result : ApiResponse)
  : list Effect * option (string * string * SourceType) :=
  match success result, data result with
  | true, Some d => ([SetTask (Some d)], Some (taskId d, format m, kind))
  | _, _ =>
    ([SetProcessing false; SetTask None;
      MessageError (match resp_error result with
                    | Some msg => or_string msg "提交任务失败"
                    | None => "提交任务失败"
                    end)],
     None)
  end.

End PropertyPanel.

(** ** components/OverlayVideo *)
Module OverlayVideo.

(** The props the synchroniser reads. *)
Record Props := mkProps {
  video : VideoFile;
  position : OverlayPosition;
  mainVideoWidth : number;
  mainVideoHeight : number;
  mainVideoTime : number;
  mainVideoDuration : number;
  overlayStartTime : number
}.

Definition overlayEndTime (p : Props) : number :=
  Math_min (overlayStartTime p + duration (video p)) (mainVideoDuration p).

Definition shouldShow (p : Props) : bool :=
  ge (mainVideoTime p) (overlayStartTime p) && lt (mainVideoTime p) (overlayEndTime p).

(** The inline style the visibility decides. *)
Inductive PointerEvents := pe_auto | pe_none.

Definition opacity (p : Props) : number := if shouldShow p then 1 else 0.
Definition pointerEvents (p : Props) : PointerEvents :=
  if shouldShow p then pe_auto else pe_none.

(** The secondary [<video>] element, as far as the component drives it. *)
Record VideoEl := mkEl {
  currentTime : number;
  paused : bool
}.

(** The calls the sync effect makes on the element. *)
Inductive Op :=
| SetCurrentTime (t : number)
| Play
| Pause.

Definition apply_op (el : VideoEl) (o : Op) : VideoEl :=
  match o with
  | SetCurrentTime t => {| currentTime := t; paused := paused el |}
  | Play => {| currentTime := currentTime el; paused := false |}
  | Pause => {| currentTime := currentTime el; paused := true |}
  end.

Definition run (ops : list Op) (el : VideoEl) : VideoEl :=
  fold_left apply_op ops el.

(** The literal [0.3]; its double differs from 3/10 by less than 1e-16. *)
Definition tolerance : number := 3 # 10.

(** The [useEffect] that synchronises the element: the calls it makes,
    in order, on the element [videoRef.current]. *)
Definition syncOps (p : Props) (isPlaying : bool) (el : VideoEl) : list Op :=
  if shouldShow p then
    let expectedOverlayTime := mainVideoTime p - overlayStartTime p in
    (if negb isPlaying then [SetCurrentTime expectedOverlayTime]
     else
       let currentOverlayTime := currentTime el in
       if gt (Math_abs (currentOverlayTime - expectedOverlayTime)) tolerance
       then [SetCurrentTime expectedOverlayTime] else [])
    ++
    (if isPlaying && paused el then [Play]
     else if negb isPlaying && negb (paused el) then [Pause]
     else [])
  else
    if negb (paused el) then [Pause] else [].

(** The effect on [videoRef]; an unset ref is left alone. *)
Definition syncEffect (p : Props) (isPlaying : bool) (ref : option VideoEl)
  : option VideoEl :=
  match ref with
  | None => None
  | Some el => Some (run (syncOps p isPlaying el) el)
  end.

Definition is_seek (o : Op) : bool :=
  match o with SetCurrentTime _ => true | _ => false end.

(** Whether the effect assigned [currentTime]. *)
Definition seeks (ops : list Op) : bool := existsb is_seek ops.

(** *** Pointer gestures on the overlay box *)

(** The [isDragging] branch of [handleMouseMove]; [deltaX], [deltaY] are
    the pointer delta divided by the scale; [dragStart] holds [posX], [posY]. *)
Definition dragTo (p : Props) (posX posY deltaX deltaY : number) : OverlayPosition :=
  let newX := Math_round (posX + deltaX) in
  let newY := Math_round (posY + deltaY) in
  let newX := Math_max 0 (Math_min newX (mainVideoWidth p - width (position p))) in
  let newY := Math_max 0 (Math_min newY (mainVideoHeight p - height (position p))) in
  {| x := newX; y := newY;
     width := width (position p); height := height (position p) |}.

(** The [isResizing] branch; [resizeStart] holds [width0], [height0]. *)
Definition resizeTo (p : Props) (width0 height0 deltaX deltaY : number)
  : OverlayPosition :=
  let newWidth := Math_round (width0 + deltaX) in
  let newHeight := Math_round (height0 + deltaY) in
  let newWidth := Math_max 50 newWidth in
  let newHeight := Math_max 50 newHeight in
  let newWidth := Math_min newWidth (mainVideoWidth p - x (position p)) in
  let newHeight := Math_min newHeight (mainVideoHeight p - y (position p)) in
  {| x := x (position p); y := y (position p);
     width := newWidth; height := newHeight |}.

(** *** The gesture state and its handlers *)

Record DragStart := mkDragStart {
  ds_x : number; ds_y : number; posX : number; posY : number
}.

Record ResizeStart := mkResizeStart {
  rs_x : number; rs_y : number; rs_width : number; rs_height : number
}.

Record Gesture := mkGesture {
  isDragging : bool;
  isResizing : bool;
  dragStart : DragStart;
  resizeStart : ResizeStart
}.

(** [handleMouseDown]; [onHandle] tells whether the target is a resize
    handle. *)
Definition handleMouseDown (p : Props) (onHandle : bool) (clientX clientY : number)
  (g : Gesture) : Gesture :=
  if onHandle then g
  else {| isDragging := true; isResizing := isResizing g;
          dragStart := {| ds_x := clientX; ds_y := clientY;
                          posX := x (position p); posY := y (position p) |};
          resizeStart := resizeStart g |}.

Definition handleResizeMouseDown (p : Props) (clientX clientY : number)
  (g : Gesture) : Gesture :=
  {| isDragging := isDragging g; isResizing := true;
     dragStart := dragStart g;
     resizeStart := {| rs_x := clientX; rs_y := clientY;
                       rs_width := width (position p);
                       rs_height := height (position p) |} |}.

Definition handleMouseUp (g : Gesture) : Gesture :=
  {| isDragging := false; isResizing := false;
     dragStart := dragStart g; resizeStart := resizeStart g |}.

(** [handleMouseMove]: the placements passed to [onPositionChange], in
    order; the [option] is the divisions by the scales
    [containerWidth / mainVideoWidth] and [containerHeight / mainVideoHeight]. *)
Definition handleMouseMove (p : Props) (containerWidth containerHeight : number)
  (g : Gesture) (clientX clientY : number) : option (list OverlayPosition) :=
  scaleX <- containerWidth /? mainVideoWidth p ;;
  scaleY <- containerHeight /? mainVideoHeight p ;;
  moved <-
    (if isDragging g then
       deltaX <- (clientX - ds_x (dragStart g)) /? scaleX ;;
       deltaY <- (clientY - ds_y (dragStart g)) /? scaleY ;;
       ret [dragTo p (posX (dragStart g)) (posY (dragStart g)) deltaX deltaY]
     else ret []) ;;
  resized <-
    (if isResizing g then
       deltaX <- (clientX - rs_x (resizeStart g)) /? scaleX ;;
       deltaY <- (clientY - rs_y (resizeStart g)) /? scaleY ;;
       ret [resizeTo p (rs_width (resizeStart g)) (rs_height (resizeStart g))
                     deltaX deltaY]
     else ret []) ;;
  ret (moved ++ resized).

(** The handle the parent holds on the overlay: its play flag and its
    element. *)
Record Handle := mkHandle {
  isPlaying : bool;
  element : option VideoEl
}.

(** [play], [pause] and [reset] of [useImperativeHandle]. *)
Definition play (h : Handle) : Handle :=
  {| isPlaying := true; element := element h |}.

Definition pause (h : Handle) : Handle :=
  {| isPlaying := false; element := element h |}.

Definition reset (h : Handle) : Handle :=
  {| isPlaying := isPlaying h;
     element := option_map (fun el => apply_op el (SetCurrentTime 0)) (element h) |}.

(** A freshly mounted overlay: [useState(false)] for its play flag. *)
Definition mount (el : VideoEl) : Handle :=
  {| isPlaying := false; element := Some el |}.

(** The sync effect of a mounted overlay: the [isPlaying] it reads is the
    component's own flag. *)
Definition sync (p : Props) (h : Handle) : Handle :=
  {| isPlaying := isPlaying h;
     element := syncEffect p (isPlaying h) (element h) |}.

End OverlayVideo.

(** ** components/VideoPlayer *)
Module VideoPlayer.

(** The state of the player: its flags, the primary [<video>] element
    behind [videoRef] and the overlay behind [overlayVideoRef]. *)
Record Player := mkPlayer {
  playing : bool;
  currentTime : number;
  duration : number;
  videoSize : number * number;
  videoRef : option OverlayVideo.VideoEl;
  overlayVideoRef : option OverlayVideo.Handle
}.

Definition effectiveStartTime : number := 0.
Definition effectiveEndTime (pl : Player) : number := duration pl.

(** [v && c] on a number [v]: zero is falsy. *)
Definition truthy (v : number) : bool := negb (Qeq_bool v 0).

(** [1 / 30]. *)
Definition frameTime : number := 1 # 30.

Definition set_time (t : number) (el : OverlayVideo.VideoEl) : OverlayVideo.VideoEl :=
  OverlayVideo.apply_op el (OverlayVideo.SetCurrentTime t).

Definition togglePlay (pl : Player) : Player :=
  match videoRef pl with
  | None => pl
  | Some el =>
    if playing pl then
      {| playing := false; currentTime := currentTime pl; duration := duration pl;
         videoSize := videoSize pl;
         videoRef := Some (OverlayVideo.apply_op el OverlayVideo.Pause);
         overlayVideoRef := option_map OverlayVideo.pause (overlayVideoRef pl) |}
    else
      let rewind :=
        lt (OverlayVideo.currentTime el) effectiveStartTime ||
        (truthy (effectiveEndTime pl) &&
         ge (OverlayVideo.currentTime el) (effectiveEndTime pl)) in
      let el1 := if rewind then set_time effectiveStartTime el else el in
      let ov1 := if rewind then option_map OverlayVideo.reset (overlayVideoRef pl)
                 else overlayVideoRef pl in
      {| playing := true; currentTime := currentTime pl; duration := duration pl;
         videoSize := videoSize pl;
         videoRef := Some (OverlayVideo.apply_op el1 OverlayVideo.Play);
         overlayVideoRef := option_map OverlayVideo.play ov1 |}
  end.

(** One animation frame of [updateProgress]: the new state, the time given
    to [onTimeUpdate] and whether the next frame was requested. *)
Definition updateProgress (pl : Player) : Player * option number * bool :=
  match videoRef pl with
  | Some el =>
    if playing pl then
      let time := OverlayVideo.currentTime el in
      if truthy (effectiveEndTime pl) && ge time (effectiveEndTime pl) then
        ({| playing := false; currentTime := time; duration := duration pl;
            videoSize := videoSize pl;
            videoRef := Some (OverlayVideo.apply_op (set_time effectiveStartTime el)
                                                    OverlayVideo.Pause);
            overlayVideoRef :=
              option_map (fun h => OverlayVideo.reset (OverlayVideo.pause h))
                         (overlayVideoRef pl) |},
         Some time, false)
      else
        ({| playing := true; currentTime := time; duration := duration pl;
            videoSize := videoSize pl;
            videoRef := videoRef pl; overlayVideoRef := overlayVideoRef pl |},
         Some time, true)
    else (pl, None, false)
  | None => (pl, None, false)
  end.

(** [handleTimeUpdate]: the state and the time given to [onTimeUpdate]. *)
Definition handleTimeUpdate (pl : Player) : Player * option number :=
  match videoRef pl with
  | Some el =>
    if playing pl then (pl, None)
    else
      ({| playing := playing pl; currentTime := OverlayVideo.currentTime el;
          duration := duration pl; videoSize := videoSize pl;
          videoRef := videoRef pl; overlayVideoRef := overlayVideoRef pl |},
       Some (OverlayVideo.currentTime el))
  | None => (pl, None)
  end.

Definition handleSeek (time : number) (pl : Player) : Player :=
  match videoRef pl with
  | Some el =>
    {| playing := playing pl; currentTime := time; duration := duration pl;
       videoSize := videoSize pl;
       videoRef := Some (set_time time el); overlayVideoRef := overlayVideoRef pl |}
  | None => pl
  end.

Inductive Direction := forward | backward.

Definition stepFrame (direction : Direction) (pl : Player) : Player :=
  match videoRef pl with
  | None => pl
  | Some el =>
    let el1 := if playing pl then OverlayVideo.apply_op el OverlayVideo.Pause else el in
    let ov1 := if playing pl then option_map OverlayVideo.pause (overlayVideoRef pl)
               else overlayVideoRef pl in
    let currentT := OverlayVideo.currentTime el1 in
    let newTime :=
      match direction with
      | forward => Math_min (currentT + frameTime)
                            (or_number (effectiveEndTime pl) (duration pl))
      | backward => Math_max (currentT - frameTime) effectiveStartTime
      end in
    {| playing := false; currentTime := newTime; duration := duration pl;
       videoSize := videoSize pl;
       videoRef := Some (set_time newTime el1); overlayVideoRef := ov1 |}
  end.

(** [onEnded]. *)
Definition onEnded (pl : Player) : Player :=
  {| playing := false; currentTime := currentTime pl; duration := duration pl;
     videoSize := videoSize pl;
     videoRef := videoRef pl; overlayVideoRef := overlayVideoRef pl |}.

(** The browser's clock: the position of the primary element moves by
    [dt] while the element is not paused. *)
Definition clock (dt : number) (pl : Player) : Player :=
  {| playing := playing pl; currentTime := currentTime pl; duration := duration pl;
     videoSize := videoSize pl;
     videoRef :=
       option_map (fun el => if OverlayVideo.paused el then el
                             else OverlayVideo.mkEl (OverlayVideo.currentTime el + dt)
                                                    false)
                  (videoRef pl);
     overlayVideoRef := overlayVideoRef pl |}.

(** The props [<OverlayVideo>] is rendered with: [video] is the video the
    player shows, [startTime] the start of the edit range. *)
Definition overlayProps (video overlayVideo : VideoFile)
  (overlayPosition : OverlayPosition) (startTime : number) (pl : Player)
  : OverlayVideo.Props :=
  {| OverlayVideo.video := overlayVideo;
     OverlayVideo.position := overlayPosition;
     OverlayVideo.mainVideoWidth := vwidth video;
     OverlayVideo.mainVideoHeight := vheight video;
     OverlayVideo.mainVideoTime := currentTime pl;
     OverlayVideo.mainVideoDuration := duration pl;
     OverlayVideo.overlayStartTime := startTime |}.

(** A render in which a dependency of the overlay's sync effect changed:
    the effect runs on the mounted overlay. *)
Definition syncOverlay (video overlayVideo : VideoFile)
  (overlayPosition : OverlayPosition) (startTime : number) (pl : Player) : Player :=
  {| playing := playing pl; currentTime := currentTime pl; duration := duration pl;
     videoSize := videoSize pl; videoRef := videoRef pl;
     overlayVideoRef :=
       option_map (OverlayVideo.sync
                     (overlayProps video overlayVideo overlayPosition startTime pl))
                  (overlayVideoRef pl) |}.

(** The render that mounts the overlay on the element [el]: the ref is
    set and the sync effect runs for the first time. *)
Definition mountOverlay (video overlayVideo : VideoFile)
  (overlayPosition : OverlayPosition) (startTime : number)
  (el : OverlayVideo.VideoEl) (pl : Player) : Player :=
  syncOverlay video overlayVideo overlayPosition startTime
    {| playing := playing pl; currentTime := currentTime pl; duration := duration pl;
       videoSize := videoSize pl; videoRef := videoRef pl;
       overlayVideoRef := Some (OverlayVideo.mount el) |}.

(** [handleDrop]: the arguments of [onOverlayDrop], or [None] when it is
    not called; the outer [option] is the divisions by the rendered size.
    [videoId] is the id carried by the drag, [dropX], [dropY] the pointer
    relative to the container, [draggedVideo] the global the drag left. *)
Definition handleDrop (mode : EditorMode) (video : option VideoFile)
  (videoId : string) (dropX dropY : number) (videoSize : number * number)
  (draggedVideo : option VideoFile)
  : option (option (VideoFile * OverlayPosition)) :=
  match mode, video with
  | merge, Some v =>
    match videoId with
    | EmptyString => Some None
    | _ =>
      scaleX <- vwidth v /? fst videoSize ;;
      scaleY <- vheight v /? snd videoSize ;;
      let videoX := Math_round (dropX * scaleX) in
      let videoY := Math_round (dropY * scaleY) in
      match draggedVideo with
      | Some dv =>
        if String.eqb (id dv) videoId then
          let overlayWidth := vwidth dv in
          let overlayHeight := vheight dv in
          ret (Some (dv,
                 {| x := Math_max 0 (Math_min (videoX - overlayWidth / 2)
                                              (vwidth v - overlayWidth));
                    y := Math_max 0 (Math_min (videoY - overlayHeight / 2)
                                              (vheight v - overlayHeight));
                    width := overlayWidth; height := overlayHeight |}))
        else ret None
      | None => ret None
      end
    end
  | _, _ => Some None
  end.

End VideoPlayer.

(** ** pages/Editor *)
Module Editor.

Record State := mkState {
  allVideos : list VideoFile;
  mainVideo : option VideoFile;
  previewVideo : option VideoFile;
  selectedMaterial : option VideoFile;
  mode : EditorMode;
  duration : number;
  startTime : number;
  endTime : number;
  currentTime : number;
  cropArea : option CropArea;
  overlayPosition : option OverlayPosition;
  videoDisplaySize : number * number
}.

(** The first render. *)
Definition initial : State :=
  {| allVideos := []; mainVideo := None; previewVideo := None;
     selectedMaterial := None; mode := crop;
     duration := 0; startTime := 0; endTime := 0; currentTime := 0;
     cropArea := None; overlayPosition := None; videoDisplaySize := (0, 0) |}.

(** [o?.id === v.id]. *)
Definition same_id (o : option VideoFile) (v : VideoFile) : bool :=
  match o with
  | Some m => String.eqb (Video.id m) (Video.id v)
  | None => false
  end.

(** The effect with dependency [mainVideo?.id]. *)
Definition mainVideoEffect (st : State) : State :=
  match mainVideo st with
  | Some m =>
    {| allVideos := allVideos st; mainVideo := mainVideo st;
       previewVideo := Some m; selectedMaterial := None; mode := mode st;
       duration := Video.duration m; startTime := 0; endTime := Video.duration m;
       currentTime := currentTime st;
       cropArea := None; overlayPosition := None;
       videoDisplaySize := videoDisplaySize st |}
  | None => st
  end.

Definition main_id (st : State) : option string :=
  option_map Video.id (mainVideo st).

Definition dep_eqb (a b : option string) : bool :=
  match a, b with
  | Some i, Some j => String.eqb i j
  | None, None => true
  | _, _ => false
  end.

(** A handler followed by the effects of the render it causes. *)
Definition on (handler : State -> State) (st : State) : State :=
  let st' := handler st in
  if dep_eqb (main_id st) (main_id st') then st' else mainVideoEffect st'.

(** [handleMainVideoUpload].  The uploaders call it, as [onUpload], after
    [await uploadVideo], from the render in which the upload began:
    [seen] is the [mainVideo] of that render, which the test [!mainVideo]
    reads, while the updater of [setAllVideos] gets the library as it is. *)
Definition handleMainVideoUpload (seen : option VideoFile) (video : VideoFile)
  (st : State) : State :=
  {| allVideos :=
       (let prev := allVideos st in
        match find (fun v => String.eqb (Video.id v) (Video.id video)) prev with
        | Some _ => prev
        | None => video :: prev
        end);
     mainVideo := match seen with
                  | None => Some video
                  | Some _ => mainVideo st
                  end;
     previewVideo := previewVideo st; selectedMaterial := selectedMaterial st;
     mode := mode st; duration := duration st;
     startTime := startTime st; endTime := endTime st;
     currentTime := currentTime st;
     cropArea := cropArea st; overlayPosition := overlayPosition st;
     videoDisplaySize := videoDisplaySize st |}.

Definition handleSetMainVideo (video : VideoFile) (st : State) : State :=
  {| allVideos := allVideos st; mainVideo := Some video;
     previewVideo := previewVideo st; selectedMaterial := selectedMaterial st;
     mode := mode st; duration := duration st;
     startTime := startTime st; endTime := endTime st;
     currentTime := currentTime st;
     cropArea := cropArea st; overlayPosition := overlayPosition st;
     videoDisplaySize := videoDisplaySize st |}.

Definition handleVideoExported (video : VideoFile) (st : State) : State :=
  {| allVideos := allVideos st ++ [video]; mainVideo := mainVideo st;
     previewVideo := previewVideo st; selectedMaterial := selectedMaterial st;
     mode := mode st; duration := duration st;
     startTime := startTime st; endTime := endTime st;
     currentTime := currentTime st;
     cropArea := cropArea st; overlayPosition := overlayPosition st;
     videoDisplaySize := videoDisplaySize st |}.

Definition is_crop (m : EditorMode) : bool :=
  match m with crop => true | merge => false end.

Definition handleModeChange (newMode : EditorMode) (st : State) : State :=
  {| allVideos := allVideos st; mainVideo := mainVideo st;
     previewVideo := match mainVideo st with
                     | Some m => Some m
                     | None => previewVideo st
                     end;
     selectedMaterial := if is_crop newMode then None else selectedMaterial st;
     mode := newMode; duration := duration st;
     startTime := startTime st; endTime := endTime st;
     currentTime := currentTime st;
     cropArea :=
       (if is_crop newMode then
          match mainVideo st, cropArea st with
          | Some m, None =>
            Some {| x := 0; y := 0; width := vwidth m; height := vheight m |}
          | _, _ => cropArea st
          end
        else cropArea st);
     overlayPosition := if is_crop newMode then None else overlayPosition st;
     videoDisplaySize := videoDisplaySize st |}.

Definition handleMaterialSelect (video : VideoFile) (st : State) : State :=
  if negb (is_crop (mode st)) && negb (same_id (mainVideo st) video) then
    {| allVideos := allVideos st; mainVideo := mainVideo st;
       previewVideo := previewVideo st; selectedMaterial := Some video;
       mode := mode st; duration := duration st;
       startTime := startTime st; endTime := endTime st;
       currentTime := currentTime st;
       cropArea := cropArea st;
       overlayPosition :=
         match mainVideo st with
         | Some m =>
           Some {| x := 0; y := 0;
                   width := Math_min (vwidth video) (Math_round (vwidth m / 4));
                   height := Math_min (vheight video) (Math_round (vheight m / 4)) |}
         | None => overlayPosition st
         end;
       videoDisplaySize := videoDisplaySize st |}
  else st.

Definition handleOverlayRemove (st : State) : State :=
  {| allVideos := allVideos st; mainVideo := mainVideo st;
     previewVideo := previewVideo st; selectedMaterial := None;
     mode := mode st; duration := duration st;
     startTime := startTime st; endTime := endTime st;
     currentTime := currentTime st;
     cropArea := cropArea st; overlayPosition := None;
     videoDisplaySize := videoDisplaySize st |}.

(** [setCropArea] and [setOverlayPosition], the callbacks the panels and
    overlays are given. *)
Definition setCropArea (a : option CropArea) (st : State) : State :=
  {| allVideos := allVideos st; mainVideo := mainVideo st;
     previewVideo := previewVideo st; selectedMaterial := selectedMaterial st;
     mode := mode st; duration := duration st;
     startTime := startTime st; endTime := endTime st;
     currentTime := currentTime st;
     cropArea := a; overlayPosition := overlayPosition st;
     videoDisplaySize := videoDisplaySize st |}.

Definition setOverlayPosition (a : option OverlayPosition) (st : State) : State :=
  {| allVideos := allVideos st; mainVideo := mainVideo st;
     previewVideo := previewVideo st; selectedMaterial := selectedMaterial st;
     mode := mode st; duration := duration st;
     startTime := startTime st; endTime := endTime st;
     currentTime := currentTime st;
     cropArea := cropArea st; overlayPosition := a;
     videoDisplaySize := videoDisplaySize st |}.

(** [displayVideo = previewVideo || mainVideo]. *)
Definition displayVideo (st : State) : option VideoFile :=
  match previewVideo st with
  | Some v => Some v
  | None => mainVideo st
  end.

(** The condition under which the page renders [<CropOverlay>]. *)
Definition cropOverlayMounted (st : State) : bool :=
  is_crop (mode st) && gt (fst (videoDisplaySize st)) 0 &&
  match displayVideo st, mainVideo st with
  | Some d, Some m => String.eqb (Video.id d) (Video.id m)
  | _, _ => false
  end.

(** The props [<CropOverlay>] gets when it is rendered:
    [videoWidth], [videoHeight], [containerWidth], [containerHeight]. *)
Definition cropOverlayProps (st : State) : option (number * number * number * number) :=
  if cropOverlayMounted st then
    match displayVideo st with
    | Some d => Some (vwidth d, vheight d,
                      fst (videoDisplaySize st), snd (videoDisplaySize st))
    | None => None
    end
  else None.

(** *** The remaining handlers *)

Definition setStartTime (t : number) (st : State) : State :=
  {| allVideos := allVideos st; mainVideo := mainVideo st;
     previewVideo := previewVideo st; selectedMaterial := selectedMaterial st;
     mode := mode st; duration := duration st;
     startTime := t; endTime := endTime st;
     currentTime := currentTime st;
     cropArea := cropArea st; overlayPosition := overlayPosition st;
     videoDisplaySize := videoDisplaySize st |}.

Definition setEndTime (t : number) (st : State) : State :=
  {| allVideos := allVideos st; mainVideo := mainVideo st;
     previewVideo := previewVideo st; selectedMaterial := selectedMaterial st;
     mode := mode st; duration := duration st;
     startTime := startTime st; endTime := t;
     currentTime := currentTime st;
     cropArea := cropArea st; overlayPosition := overlayPosition st;
     videoDisplaySize := videoDisplaySize st |}.

Definition setCurrentTime (t : number) (st : State) : State :=
  {| allVideos := allVideos st; mainVideo := mainVideo st;
     previewVideo := previewVideo st; selectedMaterial := selectedMaterial st;
     mode := mode st; duration := duration st;
     startTime := startTime st; endTime := endTime st;
     currentTime := t;
     cropArea := cropArea st; overlayPosition := overlayPosition st;
     videoDisplaySize := videoDisplaySize st |}.

Definition setVideoDisplaySize (sz : number * number) (st : State) : State :=
  {| allVideos := allVideos st; mainVideo := mainVideo st;
     previewVideo := previewVideo st; selectedMaterial := selectedMaterial st;
     mode := mode st; duration := duration st;
     startTime := startTime st; endTime := endTime st;
     currentTime := currentTime st;
     cropArea := cropArea st; overlayPosition := overlayPosition st;
     videoDisplaySize := sz |}.

Definition handleDurationChange (dur : number) (st : State) : State :=
  {| allVideos := allVideos st; mainVideo := mainVideo st;
     previewVideo := previewVideo st; selectedMaterial := selectedMaterial st;
     mode := mode st; duration := dur;
     startTime := startTime st;
     endTime := if Qeq_bool (endTime st) 0 || gt (endTime st) dur
                then dur else endTime st;
     currentTime := currentTime st;
     cropArea := cropArea st; overlayPosition := overlayPosition st;
     videoDisplaySize := videoDisplaySize st |}.

Definition handlePreviewVideo (video : VideoFile) (st : State) : State :=
  {| allVideos := allVideos st; mainVideo := mainVideo st;
     previewVideo := Some video; selectedMaterial := selectedMaterial st;
     mode := mode st; duration := duration st;
     startTime := startTime st; endTime := endTime st;
     currentTime := currentTime st;
     cropArea := cropArea st; overlayPosition := overlayPosition st;
     videoDisplaySize := videoDisplaySize st |}.

(** [handleDeleteVideo]; the setters run in the order of the source and
    read the [mainVideo] of the render the handler belongs to. *)
Definition handleDeleteVideo (video : VideoFile) (st : State) : State :=
  {| allVideos :=
       filter (fun v => negb (String.eqb (Video.id v) (Video.id video))) (allVideos st);
     mainVideo := if same_id (mainVideo st) video then None else mainVideo st;
     previewVideo :=
       if same_id (previewVideo st) video then mainVideo st
       else if same_id (mainVideo st) video then None
       else previewVideo st;
     selectedMaterial :=
       if same_id (selectedMaterial st) video then None else selectedMaterial st;
     mode := mode st; duration := duration st;
     startTime := startTime st; endTime := endTime st;
     currentTime := currentTime st;
     cropArea := cropArea st;
     overlayPosition :=
       if same_id (selectedMaterial st) video then None else overlayPosition st;
     videoDisplaySize := videoDisplaySize st |}.

Definition handleOverlayDrop (video : VideoFile) (position : OverlayPosition)
  (st : State) : State :=
  if negb (same_id (mainVideo st) video) then
    {| allVideos := allVideos st; mainVideo := mainVideo st;
       previewVideo := previewVideo st; selectedMaterial := Some video;
       mode := mode st; duration := duration st;
       startTime := startTime st; endTime := endTime st;
       currentTime := currentTime st;
       cropArea := cropArea st; overlayPosition := Some position;
       videoDisplaySize := videoDisplaySize st |}
  else st.

(** The keys the page listens to. *)
Inductive KeyCode := KeyS | KeyE | OtherKey.

(** The [keydown] listener; [inInput] tells whether the target is an input
    or a text area. *)
Definition handleKeyDown (inInput : bool) (code : KeyCode) (st : State) : State :=
  if inInput then st
  else
    match mainVideo st with
    | None => st
    | Some m =>
      match code with
      | KeyS =>
        let newStart :=
          Math_max 0 (Math_min (currentTime st) (Video.duration m - (1 # 10))) in
        let st1 := setStartTime newStart st in
        match mode st, selectedMaterial st with
        | merge, Some sel =>
          setEndTime (Math_min (newStart + Video.duration sel) (Video.duration m)) st1
        | _, _ => st1
        end
      | KeyE =>
        if is_crop (mode st) then
          let newEnd := Math_max (currentTime st) (startTime st + (1 # 10)) in
          setEndTime (Math_min newEnd (Video.duration m)) st
        else st
      | OtherKey => st
      end
    end.

(** The props [<PropertyPanel>] is rendered with, as far as the confirm
    handlers and [pollTaskStatus] read them. *)
Definition panelProps (st : State) : PropertyPanel.Submitted :=
  {| PropertyPanel.mainVideo := mainVideo st;
     PropertyPanel.startTime := startTime st;
     PropertyPanel.endTime := endTime st;
     PropertyPanel.cropArea := cropArea st;
     PropertyPanel.overlayPosition := overlayPosition st |}.

End Editor.

(** ** components/MainVideoUploader and components/MaterialPanel: uploads *)
Module Upload.

(** What the handlers read of a browser [File]. *)
Record File := mkFile {
  file_name : string;
  file_type : string;
  file_size : number
}.

Definition ALLOWED_TYPES : list string :=
  ["video/mp4"; "video/quicktime"; "video/x-msvideo"; "video/webm";
   "video/x-matroska"]%string.

Definition MAX_SIZE : number := 500 * 1024 * 1024.

(** [ALLOWED_TYPES.includes(t)]. *)
Definition includes (l : list string) (t : string) : bool :=
  existsb (String.eqb t) l.

Definition lower_ascii (c : ascii) : ascii :=
  let k := nat_of_ascii c in
  if ((65 <=? k) && (k <=? 90))%nat then ascii_of_nat (k + 32) else c.

Fixpoint lower (str : string) : string :=
  match str with
  | EmptyString => EmptyString
  | String c r => String (lower_ascii c) (lower r)
  end.

Definition ends_with (suffix str : string) : bool :=
  let k := String.length suffix in
  let len := String.length str in
  (k <=? len)%nat && String.eqb (substring (len - k) k str) suffix.

(** The alternatives of the pattern [\.(mp4|mov|avi|webm|mkv|flv|wmv)$]. *)
Definition extensions : list string :=
  ["mp4"; "mov"; "avi"; "webm"; "mkv"; "flv"; "wmv"]%string.

(** [name.match(/\.(mp4|mov|avi|webm|mkv|flv|wmv)$/i)] as a truth value:
    the pattern is anchored at the end and ignores the case of letters. *)
Definition matches_extension (name : string) : bool :=
  existsb (fun ext => ends_with ("." ++ ext)%string (lower name)) extensions.

(** What an upload handler does up to and including the network call. *)
Inductive Effect :=
| MessageError (msg : string)
| SetUploading (b : bool)
| SetProgress (loaded total percent : number)
| UploadVideo (f : File).

Definition is_network (ef : Effect) : bool :=
  match ef with UploadVideo _ => true | _ => false end.

Section Handlers.

(** [formatFileSize] of utils/timeFormat.ts, whose source is not at hand;
    only the text of a message depends on it. *)
Variable formatFileSize : number -> string.

Definition size_message : string :=
  ("文件大小超过限制（最大 " ++ formatFileSize MAX_SIZE ++ "）")%string.

(** [validateFile] of MainVideoUploader: the error text, or [None] (null)
    for an accepted file. *)
Definition validateFile (file : File) : option string :=
  if negb (includes ALLOWED_TYPES (file_type file)) &&
     negb (matches_extension (file_name file))
  then Some "不支持的文件格式，请上传 MP4、MOV、AVI、WebM、MKV 格式的视频"%string
  else if gt (file_size file) MAX_SIZE then Some size_message
  else None.

(** [handleUpload] of MainVideoUploader, up to [await uploadVideo]. *)
Definition handleUpload (file : File) : list Effect :=
  match validateFile file with
  | Some err => [MessageError err]
  | None => [SetUploading true; SetProgress 0 (file_size file) 0; UploadVideo file]
  end.

(** [handleFileChange] of MaterialPanel, up to [await uploadVideo];
    [None] is an empty selection. *)
Definition handleFileChange (selected : option File) : list Effect :=
  match selected with
  | None => []
  | Some file =>
    if negb (includes ALLOWED_TYPES (file_type file)) &&
       negb (matches_extension (file_name file))
    then [MessageError "不支持的文件格式"%string]
    else if gt (file_size file) MAX_SIZE then [MessageError size_message]
    else [SetUploading true; SetProgress 0 (file_size file) 0; UploadVideo file]
  end.

End Handlers.

(** [ProgressEvent] and the [UploadProgress] that [uploadVideo] of
    services/videoApi.ts reports for it; the [option] is the division by
    [total], [Some None] no report. *)
Record ProgressEvent := mkProgressEvent {
  lengthComputable : bool;
  loaded : number;
  total : number
}.

Definition onProgress (ev : ProgressEvent) : option (option (number * number * number)) :=
  if lengthComputable ev then
    ratio <- loaded ev /? total ev ;;
    ret (Some (loaded ev, total ev, Math_round (ratio * 100)))
  else Some None.

(** The formats the rejection message and the upload hint name. *)
Definition documented_extensions : list string :=
  ["mp4"; "mov"; "avi"; "webm"; "mkv"]%string.

End Upload.

(** ** The page as a transition system

    One event is one call of a callback the page hands to a component,
    made the way that component makes it; [step] is the handler followed
    by the effects of the render. *)
Module Session.

Inductive Event :=
(* MaterialPanel and MainVideoUploader *)
| Upload (seen : option VideoFile) (v : VideoFile)
| SetMain (v : VideoFile)
| Select (v : VideoFile)
| Preview (v : VideoFile)
| Delete (v : VideoFile)
(* VideoPlayer *)
| DurationChange (dur : number)
| TimeUpdate (t : number)
| VideoSizeChange (sz : number * number)
| Drop (videoId : string) (dropX dropY : number) (draggedVideo : option VideoFile)
| OverlayRemove
| OverlayPointer (g : OverlayVideo.Gesture) (clientX clientY : number)
(* CropOverlay *)
| CropPointer (g : CropOverlay.Gesture) (clientX clientY : number)
| CropClick (clickX clickY : number)
(* PropertyPanel *)
| ModeChange (m : EditorMode)
| StartBlur (parsed : xnumber)
| EndBlur (parsed : xnumber)
| DurationBlur (parsed : xnumber)
| MergeStartBlur (blank : bool) (parsed : xnumber)
| CropField (field : PropertyPanel.Field) (input : option string)
| CropReset
| OverlayField (field : PropertyPanel.Field) (value : PropertyPanel.InputValue)
| Exported (v : VideoFile)
(* the window *)
| KeyDown (inInput : bool) (code : Editor.KeyCode).

(** The props of the overlay as [VideoPlayer] passes them on; the time,
    duration and rendered size of the player are those it reports to the
    page. *)
Definition overlayProps (st : Editor.State) (m sel : VideoFile)
  (pos : OverlayPosition) : OverlayVideo.Props :=
  {| OverlayVideo.video := sel;
     OverlayVideo.position := pos;
     OverlayVideo.mainVideoWidth := vwidth m;
     OverlayVideo.mainVideoHeight := vheight m;
     OverlayVideo.mainVideoTime := Editor.currentTime st;
     OverlayVideo.mainVideoDuration := Editor.duration st;
     OverlayVideo.overlayStartTime := Editor.startTime st |}.

Definition timeProps (st : Editor.State) : PropertyPanel.TimeProps :=
  {| PropertyPanel.tp_mainVideo := Editor.mainVideo st;
     PropertyPanel.tp_selectedMaterial := Editor.selectedMaterial st;
     PropertyPanel.tp_startTime := Editor.startTime st;
     PropertyPanel.tp_endTime := Editor.endTime st |}.

(** [setStartTime] and [setEndTime] on a value that need not be finite:
    the state of the page holds finite times only, and a time that is not
    finite takes the page out of what is modelled ([None]). *)
Definition storeStartTime (t : xnumber) (st : Editor.State) : option Editor.State :=
  match t with
  | Fin v => Some (Editor.setStartTime v st)
  | _ => None
  end.

Definition storeEndTime (t : xnumber) (st : Editor.State) : option Editor.State :=
  match t with
  | Fin v => Some (Editor.setEndTime v st)
  | _ => None
  end.

(** [onStartTimeChange] then [onEndTimeChange], as far as they are called. *)
Definition applyTimeChange (c : PropertyPanel.TimeChange) (st : Editor.State)
  : option Editor.State :=
  st1 <- match PropertyPanel.newStartTime c with
         | Some t => storeStartTime t st
         | None => Some st
         end ;;
  match PropertyPanel.newEndTime c with
  | Some t => storeEndTime t st1
  | None => Some st1
  end.

(** The handler an event runs.  An event whose component is not rendered
    changes nothing.  The result is [None] when the handler stores a time
    that is not finite or divides by a zero size: the page is then in a
    state the model does not hold. *)
Definition handler (ev : Event) (st : Editor.State) : option Editor.State :=
  match ev with
  | Upload seen v => Some (Editor.handleMainVideoUpload seen v st)
  | SetMain v => Some (Editor.handleSetMainVideo v st)
  | Select v => Some (Editor.handleMaterialSelect v st)
  | Preview v => Some (Editor.handlePreviewVideo v st)
  | Delete v => Some (Editor.handleDeleteVideo v st)
  | DurationChange dur =>
    match Editor.mainVideo st with
    | Some _ => Some (Editor.handleDurationChange dur st)
    | None => Some st
    end
  | TimeUpdate t =>
    match Editor.mainVideo st with
    | Some _ => Some (Editor.setCurrentTime t st)
    | None => Some st
    end
  | VideoSizeChange sz =>
    match Editor.mainVideo st with
    | Some _ => Some (Editor.setVideoDisplaySize sz st)
    | None => Some st
    end
  | Drop videoId dropX dropY draggedVideo =>
    match Editor.mainVideo st with
    | Some _ =>
      dropped <- VideoPlayer.handleDrop (Editor.mode st) (Editor.displayVideo st)
                   videoId dropX dropY (Editor.videoDisplaySize st) draggedVideo ;;
      match dropped with
      | Some (dv, pos) => Some (Editor.handleOverlayDrop dv pos st)
      | None => Some st
      end
    | None => Some st
    end
  | OverlayRemove =>
    match Editor.mainVideo st, Editor.mode st,
          Editor.selectedMaterial st, Editor.overlayPosition st with
    | Some _, merge, Some _, Some _ =>
      if gt (fst (Editor.videoDisplaySize st)) 0
      then Some (Editor.handleOverlayRemove st) else Some st
    | _, _, _, _ => Some st
    end
  | OverlayPointer g clientX clientY =>
    match Editor.mainVideo st, Editor.displayVideo st, Editor.mode st,
          Editor.selectedMaterial st, Editor.overlayPosition st with
    | Some _, Some d, merge, Some sel, Some pos =>
      if gt (fst (Editor.videoDisplaySize st)) 0 then
        l <- OverlayVideo.handleMouseMove (overlayProps st d sel pos)
               (fst (Editor.videoDisplaySize st)) (snd (Editor.videoDisplaySize st))
               g clientX clientY ;;
        Some (fold_left (fun s q => Editor.setOverlayPosition (Some q) s) l st)
      else Some st
    | _, _, _, _, _ => Some st
    end
  | CropPointer g clientX clientY =>
    match Editor.cropOverlayProps st with
    | Some (videoWidth, videoHeight, containerWidth, containerHeight) =>
      l <- CropOverlay.layout videoWidth videoHeight containerWidth containerHeight ;;
      moved <- CropOverlay.handleMouseMove videoWidth videoHeight l g clientX clientY ;;
      match moved with
      | Some a => Some (Editor.setCropArea (Some a) st)
      | None => Some st
      end
    | None => Some st
    end
  | CropClick clickX clickY =>
    match Editor.cropOverlayProps st with
    | Some (videoWidth, videoHeight, containerWidth, containerHeight) =>
      l <- CropOverlay.layout videoWidth videoHeight containerWidth containerHeight ;;
      match CropOverlay.handleOverlayClick true (Editor.cropArea st)
              videoWidth videoHeight l clickX clickY with
      | Some a => Some (Editor.setCropArea (Some a) st)
      | None => Some st
      end
    | None => Some st
    end
  | ModeChange m =>
    match Editor.mainVideo st with
    | Some _ => Some (Editor.handleModeChange m st)
    | None => Some st
    end
  | StartBlur parsed =>
    if Editor.is_crop (Editor.mode st)
    then applyTimeChange (PropertyPanel.handleStartTimeBlur (timeProps st) parsed) st
    else Some st
  | EndBlur parsed =>
    if Editor.is_crop (Editor.mode st)
    then applyTimeChange (PropertyPanel.handleEndTimeBlur (timeProps st) parsed) st
    else Some st
  | DurationBlur parsed =>
    if Editor.is_crop (Editor.mode st)
    then applyTimeChange (PropertyPanel.handleDurationBlur (timeProps st) parsed) st
    else Some st
  | MergeStartBlur blank parsed =>
    if Editor.is_crop (Editor.mode st) then Some st
    else applyTimeChange
           (PropertyPanel.handleMergeStartTimeBlur (timeProps st) blank parsed) st
  | CropField field input =>
    if Editor.is_crop (Editor.mode st) then
      match PropertyPanel.handleCropInputBlur (Editor.cropArea st)
              (Editor.mainVideo st) field input with
      | Some a => Some (Editor.setCropArea (Some a) st)
      | None => Some st
      end
    else Some st
  | CropReset =>
    match Editor.is_crop (Editor.mode st), Editor.cropArea st with
    | true, Some _ =>
      match PropertyPanel.handleResetCrop (Editor.mainVideo st) with
      | Some a => Some (Editor.setCropArea (Some a) st)
      | None => Some st
      end
    | _, _ => Some st
    end
  | OverlayField field value =>
    match Editor.mode st, Editor.selectedMaterial st with
    | merge, Some _ =>
      match PropertyPanel.handleOverlayChange (Editor.overlayPosition st)
              (Editor.mainVideo st) field value with
      | Some q => Some (Editor.setOverlayPosition (Some q) st)
      | None => Some st
      end
    | _, _ => Some st
    end
  | Exported v => Some (Editor.handleVideoExported v st)
  | KeyDown inInput code => Some (Editor.handleKeyDown inInput code st)
  end.

(** An event: its handler, then the effects of the render it causes. *)
Definition step (st : Editor.State) (ev : Event) : option Editor.State :=
  st' <- handler ev st ;;
  Some (Editor.on (fun _ => st') st).

(** The page after a run of events from its first render. *)
Definition run (evs : list Event) : option Editor.State :=
  fold_left (fun acc ev => st <- acc ;; step st ev) evs (Some Editor.initial).

Definition is_NaN (v : xnumber) : bool :=
  match v with NaN => true | _ => false end.

(** The events whose handler neither divides by a rendered size nor
    stores a parsed time that is NaN, whatever the state. *)
Definition always_modelled (ev : Event) : bool :=
  match ev with
  | Drop _ _ _ _ | OverlayPointer _ _ _ | CropPointer _ _ _ | CropClick _ _ => false
  | StartBlur parsed | EndBlur parsed | MergeStartBlur _ parsed => negb (is_NaN parsed)
  | _ => true
  end.

End Session.

(** ** Region edits as the session sees them *)

(** One edit of the crop region: a pointer update of a running gesture, or
    a committed numeric field. *)
Inductive CropEdit :=
| PointerUpdate (g : CropOverlay.Gesture) (dx dy : number)
| FieldCommit (field : PropertyPanel.Field) (input : string).

(** The crop region after an edit; a handler that does not call its
    callback leaves the region as it is. *)
Definition crop_edit (m : VideoFile) (a : CropArea) (ed : CropEdit) : CropArea :=
  match ed with
  | PointerUpdate g dx dy =>
    match CropOverlay.updateGesture (vwidth m) (vheight m) g dx dy with
    | Some r => r
    | None => a
    end
  | FieldCommit field input =>
    match PropertyPanel.handleCropInputBlur (Some a) (Some m) field (Some input) with
    | Some r => r
    | None => a
    end
  end.

(** A number that is an integer. *)
Definition integral (v : number) : Prop := exists k : Z, v == inject_Z k.

(** Two numbers at most one apart. *)
Definition within_one (a b : number) : Prop := Qabs (a - b) <= 1.

(** ** Playback as a run of time updates *)

(** One time update of the primary: the secondary's own clock has moved
    its position by [drift] since the last one, then the sync effect runs
    on the new props. *)
Definition tick (isPlaying : bool) (el : OverlayVideo.VideoEl)
  (u : OverlayVideo.Props * number) : OverlayVideo.VideoEl :=
  let moved := {| OverlayVideo.currentTime := OverlayVideo.currentTime el + snd u;
                  OverlayVideo.paused := OverlayVideo.paused el |} in
  OverlayVideo.run (OverlayVideo.syncOps (fst u) isPlaying moved) moved.

(** ** Concrete inputs *)
Module Sample.

(** A 1920 x 1080 primary of two minutes at 30 frames per second. *)
Definition primary : VideoFile :=
  {| id := "main"; name := "main.mp4"; size := 1024; duration := 120;
     vwidth := 1920; vheight := 1080; fps := 30; frameCount := 3600;
     format := "mp4"; url := PropertyPanel.getVideoUrl "main";
     isMain := Some true; sourceType := Some upload; parentId := None |}.

(** A 640 x 360 secondary of fifteen seconds. *)
Definition secondary : VideoFile :=
  {| id := "sec"; name := "sec.mp4"; size := 512; duration := 15;
     vwidth := 640; vheight := 360; fps := 30; frameCount := 450;
     format := "mp4"; url := PropertyPanel.getVideoUrl "sec";
     isMain := Some false; sourceType := Some upload; parentId := None |}.

Definition region : CropArea := {| x := 100; y := 0; width := 1000; height := 500 |}.

Definition placement : OverlayPosition :=
  {| x := 0; y := 0; width := 480; height := 270 |}.

(** A resize gesture begun on the [se] handle of [region] at pointer
    position (600, 300). *)
Definition se_gesture : CropOverlay.Gesture :=
  CropOverlay.handleMouseDown true (Some region) 600 300 (Some CropOverlay.se)
    {| CropOverlay.dragging := false; CropOverlay.resizing := None;
       CropOverlay.dragStart := (0, 0); CropOverlay.initialArea := None |}.

(** A move gesture begun inside [region] at pointer position (600, 300). *)
Definition move_gesture : CropOverlay.Gesture :=
  CropOverlay.handleMouseDown true (Some region) 600 300 None
    {| CropOverlay.dragging := false; CropOverlay.resizing := None;
       CropOverlay.dragStart := (0, 0); CropOverlay.initialArea := None |}.

(** A drag of the overlay box begun at pointer position (100, 100), and a
    resize begun there. *)
Definition idle_overlay_gesture : OverlayVideo.Gesture :=
  {| OverlayVideo.isDragging := false; OverlayVideo.isResizing := false;
     OverlayVideo.dragStart := OverlayVideo.mkDragStart 0 0 0 0;
     OverlayVideo.resizeStart := OverlayVideo.mkResizeStart 0 0 0 0 |}.

(** The layout of the 1920 x 1080 frame measured at 960 x 540. *)
Definition half_scale : CropOverlay.Layout :=
  CropOverlay.mkLayout 960 540 0 0 (1 # 2).

(** The editor in crop mode on [primary], with a crop region, measured at
    960 x 540. *)
Definition cropping : Editor.State :=
  {| Editor.allVideos := [secondary; primary];
     Editor.mainVideo := Some primary;
     Editor.previewVideo := Some primary;
     Editor.selectedMaterial := None;
     Editor.mode := crop;
     Editor.duration := 120; Editor.startTime := 10; Editor.endTime := 25;
     Editor.currentTime := 10;
     Editor.cropArea := Some region;
     Editor.overlayPosition := None;
     Editor.videoDisplaySize := (960, 540) |}.

(** The synchroniser's props of the overlay scenario: primary of 120 s,
    secondary of 15 s starting at 10 s, seen at primary time [t]. *)
Definition overlay_at (t : number) : OverlayVideo.Props :=
  {| OverlayVideo.video := secondary;
     OverlayVideo.position := placement;
     OverlayVideo.mainVideoWidth := 1920;
     OverlayVideo.mainVideoHeight := 1080;
     OverlayVideo.mainVideoTime := t;
     OverlayVideo.mainVideoDuration := 120;
     OverlayVideo.overlayStartTime := 10 |}.

(** The player showing [primary], stopped at time [t], no overlay
    mounted. *)
Definition player_at (t : number) : VideoPlayer.Player :=
  {| VideoPlayer.playing := false; VideoPlayer.currentTime := t;
     VideoPlayer.duration := 120; VideoPlayer.videoSize := (960, 540);
     VideoPlayer.videoRef := Some (OverlayVideo.mkEl t true);
     VideoPlayer.overlayVideoRef := None |}.

(** The renders of the player with [secondary] placed at [placement] and
    the edit range starting at 10 s. *)
Definition with_overlay : VideoPlayer.Player -> VideoPlayer.Player :=
  VideoPlayer.syncOverlay primary secondary placement 10.

Definition mount_overlay : VideoPlayer.Player -> VideoPlayer.Player :=
  VideoPlayer.mountOverlay primary secondary placement 10 (OverlayVideo.mkEl 0 true).

(** The props of the overlay under the player [pl]. *)
Definition overlay_under (pl : VideoPlayer.Player) : OverlayVideo.Props :=
  VideoPlayer.overlayProps primary secondary placement 10 pl.

(** A three-second clip. *)
Definition clip : VideoFile :=
  {| id := "clip"; name := "clip.mp4"; size := 9; duration := 3;
     vwidth := 320; vheight := 240; fps := 25; frameCount := 75;
     format := "mp4"; url := PropertyPanel.getVideoUrl "clip";
     isMain := Some false; sourceType := Some upload; parentId := None |}.

End Sample.

(** The integer that the decimal digits [d] denote when read after [acc]. *)
Fixpoint digits_value (d : Decimal.uint) (acc : Z) : Z :=
  match d with
  | Decimal.Nil => acc
  | Decimal.D0 r => digits_value r (10 * acc + 0)
  | Decimal.D1 r => digits_value r (10 * acc + 1)
  | Decimal.D2 r => digits_value r (10 * acc + 2)
  | Decimal.D3 r => digits_value r (10 * acc + 3)
  | Decimal.D4 r => digits_value r (10 * acc + 4)
  | Decimal.D5 r => digits_value r (10 * acc + 5)
  | Decimal.D6 r => digits_value r (10 * acc + 6)
  | Decimal.D7 r => digits_value r (10 * acc + 7)
  | Decimal.D8 r => digits_value r (10 * acc + 8)
  | Decimal.D9 r => digits_value r (10 * acc + 9)
  end.

(** The range a committed crop field is clamped into. *)
Definition crop_field_range (m : VideoFile) (a : CropArea)
  (field : PropertyPanel.Field) : number * number :=
  match field with
  | PropertyPanel.fx => (0, vwidth m - width a)
  | PropertyPanel.fy => (0, vheight m - height a)
  | PropertyPanel.fwidth => (20, vwidth m - x a)
  | PropertyPanel.fheight => (20, vheight m - y a)
  end.

(** What every state of the page satisfies: overlay state exists in merge
    mode only, a placement only next to a selected secondary, the selected
    secondary is not the primary, and the range does not start before 0. *)
Definition overlay_state_only_in_merge (st : Editor.State) : Prop :=
  Editor.mode st = crop ->
  Editor.selectedMaterial st = None /\ Editor.overlayPosition st = None.

Definition placement_has_secondary (st : Editor.State) : Prop :=
  Editor.overlayPosition st <> None -> Editor.selectedMaterial st <> None.

Definition secondary_is_not_primary (st : Editor.State) : Prop :=
  forall m sel, Editor.mainVideo st = Some m ->
                Editor.selectedMaterial st = Some sel -> id sel <> id m.

Definition session_invariant (st : Editor.State) : Prop :=
  overlay_state_only_in_merge st /\ placement_has_secondary st /\
  secondary_is_not_primary st /\ 0 <= Editor.startTime st.

(** The part of the invariant that does not mention the primary. *)
Definition session_core (st : Editor.State) : Prop :=
  overlay_state_only_in_merge st /\ placement_has_secondary st /\
  0 <= Editor.startTime st.

(** Two states that agree on what the invariant reads. *)
Definition same_overlay_state (st st' : Editor.State) : Prop :=
  Editor.mode st' = Editor.mode st /\
  Editor.mainVideo st' = Editor.mainVideo st /\
  Editor.selectedMaterial st' = Editor.selectedMaterial st /\
  Editor.overlayPosition st' = Editor.overlayPosition st /\
  Editor.startTime st' = Editor.startTime st.

(** The events other than upload, change of primary and deletion leave the
    primary alone. *)
Definition keeps_primary (ev : Session.Event) : bool :=
  match ev with
  | Session.Upload _ _ | Session.SetMain _ | Session.Delete _ => false
  | _ => true
  end.

(** An answer of the service that keeps the job polled: a successful
    response whose task is still pending or processing. *)
Definition in_flight (answer : option PropertyPanel.ApiResponse) : bool :=
  match answer with
  | Some r =>
    PropertyPanel.success r &&
    match PropertyPanel.data r with
    | Some d => match status d with
                | pending | processing => true
                | _ => false
                end
    | None => false
    end
  | None => false
  end.

Definition is_export (ef : PropertyPanel.Effect) : bool :=
  match ef with PropertyPanel.OnVideoExported _ => true | _ => false end.

(** A rectangle of whole pixels inside the frame: the Rectangle invariant
    together with integer fields. *)
Definition pixel_region (boundsWidth boundsHeight : number) (r : CropArea) : Prop :=
  within_bounds boundsWidth boundsHeight r /\
  integral (x r) /\ integral (y r) /\ integral (width r) /\ integral (height r).

(** * Properties *)

(** ** Numbers *)

Ltac minmax_one :=
  match goal with
  | |- context [Qmax ?a ?b] =>
      let m := fresh "m" in let H := fresh "Hm" in
      pose proof (Q.max_spec a b) as H; set (m := Qmax a b) in *; clearbody m
  | |- context [Qmin ?a ?b] =>
      let m := fresh "m" in let H := fresh "Hm" in
      pose proof (Q.min_spec a b) as H; set (m := Qmin a b) in *; clearbody m
  | _ : context [Qmax ?a ?b] |- _ =>
      let m := fresh "m" in let H := fresh "Hm" in
      pose proof (Q.max_spec a b) as H; set (m := Qmax a b) in *; clearbody m
  | _ : context [Qmin ?a ?b] |- _ =>
      let m := fresh "m" in let H := fresh "Hm" in
      pose proof (Q.min_spec a b) as H; set (m := Qmin a b) in *; clearbody m
  end.

(** Name every [Math.max] and [Math.min] with its defining cases, then
    leave the goal to linear arithmetic. *)
Ltac minmax := unfold Math_max, Math_min in *; repeat minmax_one; lra.

Lemma Math_round_int (k : Z) : Math_round (inject_Z k) = inject_Z k.
Proof.
  unfold Math_round. f_equal.
  unfold Qfloor, Qplus, inject_Z; simpl.
  symmetry.
  apply Z.div_unique with (r := 1%Z); lia.
Qed.

Lemma Math_round_comp (a b : number) : a == b -> Math_round a = Math_round b.
Proof.
  intros E. unfold Math_round. f_equal.
  apply Qfloor_comp. rewrite E. reflexivity.
Qed.

Lemma Math_round_integral (v : number) : integral v -> Math_round v == v.
Proof.
  intros [k E]. rewrite (Math_round_comp _ _ E), Math_round_int.
  symmetry. exact E.
Qed.

Lemma Math_round_near (v : number) :
  v - (1 # 2) < Math_round v /\ Math_round v <= v + (1 # 2).
Proof.
  unfold Math_round.
  pose proof (Qfloor_le (v + (1 # 2))) as Hle.
  pose proof (Qlt_floor (v + (1 # 2))) as Hlt.
  rewrite inject_Z_plus in Hlt. change (inject_Z 1) with 1 in Hlt.
  split; lra.
Qed.

Lemma gt_true (a b : number) : gt a b = true <-> b < a.
Proof.
  unfold gt. rewrite negb_true_iff.
  split.
  - intros Hb. apply Qnot_le_lt. intros Hle.
    apply Qle_bool_iff in Hle. congruence.
  - intros Hlt. destruct (Qle_bool a b) eqn:Hb; [|reflexivity].
    apply Qle_bool_iff in Hb. lra.
Qed.

Lemma gt_false (a b : number) : gt a b = false <-> a <= b.
Proof.
  unfold gt. rewrite negb_false_iff. apply Qle_bool_iff.
Qed.

Lemma lt_true (a b : number) : lt a b = true <-> a < b.
Proof. apply (gt_true b a). Qed.

Lemma ge_true (a b : number) : ge a b = true <-> b <= a.
Proof. apply Qle_bool_iff. Qed.

Lemma div_defined (a b : number) : ~ b == 0 -> a /? b = Some (a / b).
Proof.
  intros Hb. unfold div.
  destruct (Qeq_bool b 0) eqn:E; [|reflexivity].
  apply Qeq_bool_iff in E. contradiction.
Qed.

Lemma div_by_zero (a b : number) : b == 0 -> a /? b = None.
Proof.
  intros Hb. unfold div.
  apply Qeq_bool_iff in Hb. rewrite Hb. reflexivity.
Qed.

(** ** The clamp policy *)

Lemma clampArea_within_bounds (videoWidth videoHeight : number) (a : CropArea) :
  CropOverlay.minSize <= videoWidth -> CropOverlay.minSize <= videoHeight ->
  within_bounds videoWidth videoHeight (CropOverlay.clampArea videoWidth videoHeight a).
Proof.
  unfold within_bounds, CropOverlay.clampArea, CropOverlay.minSize; simpl.
  generalize (Math_round (x a)) (Math_round (y a))
             (Math_round (width a)) (Math_round (height a)).
  intros rx ry rw rh HW HH.
  repeat split; minmax.
Qed.

(** A requested width that overshoots the right edge, but not the frame
    width, is kept, and the left edge is pulled back instead. *)
Lemma clampArea_overshoot_moves_x (videoWidth videoHeight : number) (a : CropArea) :
  integral (x a) ->
  CropOverlay.minSize <= Math_round (width a) ->
  Math_round (width a) <= videoWidth ->
  videoWidth - x a < Math_round (width a) ->
  let r := CropOverlay.clampArea videoWidth videoHeight a in
  width r == Math_round (width a) /\
  x r == videoWidth - width r /\
  x r < x a.
Proof.
  intros Hx. apply Math_round_integral in Hx. revert Hx.
  unfold CropOverlay.clampArea, CropOverlay.minSize; simpl.
  generalize (Math_round (x a)) (Math_round (width a)).
  intros rx rw Hx Hmin Hmax Hover.
  repeat split; minmax.
Qed.

Lemma updateGesture_within_bounds (videoWidth videoHeight : number)
  (g : CropOverlay.Gesture) (dx dy : number) (r : CropArea) :
  CropOverlay.minSize <= videoWidth -> CropOverlay.minSize <= videoHeight ->
  CropOverlay.updateGesture videoWidth videoHeight g dx dy = Some r ->
  within_bounds videoWidth videoHeight r.
Proof.
  intros HW HH. unfold CropOverlay.updateGesture.
  destruct (CropOverlay.initialArea g) as [a|]; [|discriminate].
  destruct (CropOverlay.dragging g).
  - intros [= <-]. now apply clampArea_within_bounds.
  - destruct (CropOverlay.resizing g) as [h|]; [|discriminate].
    intros [= <-]. now apply clampArea_within_bounds.
Qed.

Lemma handleMouseMove_within_bounds (videoWidth videoHeight : number)
  (l : CropOverlay.Layout) (g : CropOverlay.Gesture) (clientX clientY : number)
  (r : CropArea) :
  CropOverlay.minSize <= videoWidth -> CropOverlay.minSize <= videoHeight ->
  CropOverlay.handleMouseMove videoWidth videoHeight l g clientX clientY
    = Some (Some r) ->
  within_bounds videoWidth videoHeight r.
Proof.
  intros HW HH. unfold CropOverlay.handleMouseMove.
  destruct (CropOverlay.initialArea g) as [a|] eqn:Ha; [|discriminate].
  simpl.
  destruct (_ /? _) as [dx|]; [|discriminate].
  destruct (_ /? _) as [dy|]; [|discriminate].
  intros [= Hr]. eapply updateGesture_within_bounds; eauto.
Qed.

Lemma handleCropInputBlur_within_bounds (m : VideoFile) (a r : CropArea)
  (field : PropertyPanel.Field) (input : option string) :
  within_bounds (vwidth m) (vheight m) a ->
  PropertyPanel.handleCropInputBlur (Some a) (Some m) field input = Some r ->
  within_bounds (vwidth m) (vheight m) r.
Proof.
  unfold within_bounds, CropOverlay.minSize, PropertyPanel.handleCropInputBlur.
  intros Ha.
  destruct input as [[|c str]|]; try discriminate.
  destruct (PropertyPanel.parseInt _) as [parsed|]; [|discriminate].
  generalize (Math_round parsed). intros v [= <-].
  destruct field; simpl; repeat split; minmax.
Qed.

(** Crop-region edits keep the Rectangle invariant, one by one and
    therefore in any sequence. *)
Lemma crop_edit_within_bounds (m : VideoFile) (a : CropArea) (ed : CropEdit) :
  CropOverlay.minSize <= vwidth m -> CropOverlay.minSize <= vheight m ->
  within_bounds (vwidth m) (vheight m) a ->
  within_bounds (vwidth m) (vheight m) (crop_edit m a ed).
Proof.
  intros HW HH Ha. destruct ed as [g dx dy|field input]; cbn [crop_edit].
  - destruct (CropOverlay.updateGesture _ _ _ _ _) as [r|] eqn:E; [|exact Ha].
    eapply updateGesture_within_bounds; eauto.
  - destruct (PropertyPanel.handleCropInputBlur _ _ _ _) as [r|] eqn:E; [|exact Ha].
    eapply handleCropInputBlur_within_bounds; eauto.
Qed.

Lemma crop_edits_within_bounds (m : VideoFile) (eds : list CropEdit) (a : CropArea) :
  CropOverlay.minSize <= vwidth m -> CropOverlay.minSize <= vheight m ->
  within_bounds (vwidth m) (vheight m) a ->
  within_bounds (vwidth m) (vheight m) (fold_left (crop_edit m) eds a).
Proof.
  intros HW HH. revert a.
  induction eds as [|ed eds IH]; intros a Ha; simpl.
  - exact Ha.
  - apply IH. now apply crop_edit_within_bounds.
Qed.

(** The pointer gestures of the overlay box keep the invariant too. *)
Lemma dragTo_within_bounds (p : OverlayVideo.Props) (posX posY deltaX deltaY : number) :
  let W := OverlayVideo.mainVideoWidth p in
  let H := OverlayVideo.mainVideoHeight p in
  within_bounds W H (OverlayVideo.position p) ->
  within_bounds W H (OverlayVideo.dragTo p posX posY deltaX deltaY).
Proof.
  unfold within_bounds, CropOverlay.minSize, OverlayVideo.dragTo; simpl.
  generalize (Math_round (posX + deltaX)) (Math_round (posY + deltaY)).
  intros nx ny Hp. repeat split; minmax.
Qed.

Lemma resizeTo_within_bounds (p : OverlayVideo.Props) (w0 h0 deltaX deltaY : number) :
  let W := OverlayVideo.mainVideoWidth p in
  let H := OverlayVideo.mainVideoHeight p in
  within_bounds W H (OverlayVideo.position p) ->
  within_bounds W H (OverlayVideo.resizeTo p w0 h0 deltaX deltaY).
Proof.
  unfold within_bounds, CropOverlay.minSize, OverlayVideo.resizeTo; simpl.
  generalize (Math_round (w0 + deltaX)) (Math_round (h0 + deltaY)).
  intros nw nh Hp. repeat split; minmax.
Qed.

(** Numeric edits of the overlay placement only keep the edited field
    non-negative. *)
Lemma handleOverlayChange_field (pos r : OverlayPosition) (m : VideoFile)
  (field : PropertyPanel.Field) (v : number) :
  PropertyPanel.handleOverlayChange (Some pos) (Some m) field
    (PropertyPanel.VNumber v) = Some r ->
  r = PropertyPanel.set_field field (Math_max 0 v) pos.
Proof. simpl. now intros [= <-]. Qed.

(** C1 (the code at the failing input): the 1920 x 1080 primary shown at
    960 x 540, the region 1000 wide at x = 100, its [se] handle dragged
    450 viewport pixels to the right.  The requested width 1900 exceeds
    1920 - 100; [handleMouseMove] keeps the width 1900 and moves x from 100
    to 20, where the specified result is width 1820 and x 100. *)
Theorem se_resize_past_right_edge_moves_x :
  exists l r,
    CropOverlay.layout 1920 1080 960 540 = Some l /\
    CropOverlay.handleMouseMove 1920 1080 l Sample.se_gesture 1050 300
      = Some (Some r) /\
    width r == 1900 /\ x r == 20 /\
    ~ width r == 1920 - x Sample.region /\ ~ x r == x Sample.region.
Proof.
  eexists. eexists.
  split; [vm_compute; reflexivity|].
  split; [vm_compute; reflexivity|].
  vm_compute. repeat split; discriminate.
Qed.

(** C2 (the code at the failing input): the overlay placement 480 x 270 at
    the origin of the 1920 x 1080 primary satisfies the Rectangle
    invariant; committing 1900 in its X field through [handleOverlayChange]
    gives x + width = 2380 > 1920, and committing 3000 in its width field
    gives a width beyond the frame. *)
Theorem overlay_field_edit_leaves_bounds :
  within_bounds 1920 1080 Sample.placement /\
  (exists r,
     PropertyPanel.handleOverlayChange (Some Sample.placement)
       (Some Sample.primary) PropertyPanel.fx (PropertyPanel.VNumber 1900) = Some r /\
     x r + width r == 2380 /\ ~ within_bounds 1920 1080 r) /\
  (exists r,
     PropertyPanel.handleOverlayChange (Some Sample.placement)
       (Some Sample.primary) PropertyPanel.fwidth (PropertyPanel.VNumber 3000) = Some r /\
     width r == 3000 /\ ~ within_bounds 1920 1080 r).
Proof.
  split; [|split].
  - unfold within_bounds, CropOverlay.minSize; simpl. repeat split; lra.
  - eexists. split; [vm_compute; reflexivity|].
    split; [vm_compute; reflexivity|].
    unfold within_bounds; simpl. intros (_ & _ & _ & _ & H & _).
    vm_compute in H. apply H. reflexivity.
  - eexists. split; [vm_compute; reflexivity|].
    split; [vm_compute; reflexivity|].
    unfold within_bounds; simpl. intros (_ & _ & _ & _ & H & _).
    vm_compute in H. apply H. reflexivity.
Qed.

(** ** The overlay synchroniser *)

Lemma shouldShow_true (p : OverlayVideo.Props) :
  OverlayVideo.shouldShow p = true <->
  OverlayVideo.overlayStartTime p <= OverlayVideo.mainVideoTime p /\
  OverlayVideo.mainVideoTime p < OverlayVideo.overlayEndTime p.
Proof.
  unfold OverlayVideo.shouldShow.
  rewrite andb_true_iff, ge_true, lt_true. reflexivity.
Qed.

Lemma hidden_pauses (p : OverlayVideo.Props) (isPlaying : bool)
  (el : OverlayVideo.VideoEl) :
  OverlayVideo.shouldShow p = false ->
  OverlayVideo.run (OverlayVideo.syncOps p isPlaying el) el =
  {| OverlayVideo.currentTime := OverlayVideo.currentTime el;
     OverlayVideo.paused := true |}.
Proof.
  intros Hs. unfold OverlayVideo.syncOps. rewrite Hs.
  destruct el as [t [|]]; reflexivity.
Qed.

(** C3: with overlayEnd = min(overlayStart + secondaryDuration,
    primaryDuration), the overlay is visible exactly when overlayStart <=
    primaryTime < overlayEnd: it is visible at primaryTime = overlayStart
    (the window being non-empty) and not visible at primaryTime =
    overlayEnd; whenever it is not visible, the sync effect leaves the
    secondary paused, whatever the requested play state, and the box has
    opacity 0 and no pointer events. *)
Theorem overlay_visibility_window (p : OverlayVideo.Props) :
  OverlayVideo.overlayEndTime p ==
    Qmin (OverlayVideo.overlayStartTime p + duration (OverlayVideo.video p))
         (OverlayVideo.mainVideoDuration p) /\
  (OverlayVideo.shouldShow p = true <->
     OverlayVideo.overlayStartTime p <= OverlayVideo.mainVideoTime p /\
     OverlayVideo.mainVideoTime p < OverlayVideo.overlayEndTime p) /\
  (OverlayVideo.mainVideoTime p == OverlayVideo.overlayStartTime p ->
   OverlayVideo.overlayStartTime p < OverlayVideo.overlayEndTime p ->
   OverlayVideo.shouldShow p = true) /\
  (OverlayVideo.mainVideoTime p == OverlayVideo.overlayEndTime p ->
   OverlayVideo.shouldShow p = false) /\
  (OverlayVideo.shouldShow p = false ->
   forall (isPlaying : bool) (el : OverlayVideo.VideoEl),
     OverlayVideo.paused
       (OverlayVideo.run (OverlayVideo.syncOps p isPlaying el) el) = true /\
     OverlayVideo.opacity p == 0 /\
     OverlayVideo.pointerEvents p = OverlayVideo.pe_none).
Proof.
  split; [reflexivity|].
  split; [apply shouldShow_true|].
  split; [|split].
  - intros Ht Hwin. apply shouldShow_true. lra.
  - intros Ht. destruct (OverlayVideo.shouldShow p) eqn:Hs; [|reflexivity].
    apply shouldShow_true in Hs. lra.
  - intros Hs isPlaying el. rewrite hidden_pauses by exact Hs.
    unfold OverlayVideo.opacity, OverlayVideo.pointerEvents. rewrite Hs.
    repeat split.
Qed.

(** The scenario of the overlay starting at 10 s: visible at 10 s and at
    24.9 s, hidden and paused at 25 s. *)
Lemma overlay_visibility_window_witness :
  OverlayVideo.shouldShow (Sample.overlay_at 10) = true /\
  OverlayVideo.shouldShow (Sample.overlay_at (249 # 10)) = true /\
  OverlayVideo.shouldShow (Sample.overlay_at 25) = false /\
  OverlayVideo.paused
    (OverlayVideo.run
       (OverlayVideo.syncOps (Sample.overlay_at 25) true
          {| OverlayVideo.currentTime := 15; OverlayVideo.paused := false |})
       {| OverlayVideo.currentTime := 15; OverlayVideo.paused := false |}) = true.
Proof.
  destruct (overlay_visibility_window (Sample.overlay_at 10))
    as (_ & _ & Hstart & _).
  destruct (overlay_visibility_window (Sample.overlay_at (249 # 10)))
    as (_ & Hin & _).
  destruct (overlay_visibility_window (Sample.overlay_at 25))
    as (_ & _ & _ & Hend & Hhidden).
  split; [|split; [|split]].
  - apply Hstart; vm_compute; reflexivity.
  - apply Hin. split; vm_compute; [discriminate | reflexivity].
  - apply Hend. vm_compute. reflexivity.
  - apply Hhidden. apply Hend. vm_compute. reflexivity.
Defined.

(** The sync effect by the overlay's own play flag: on a run while the
    overlay is visible, a cleared flag has the secondary's position
    assigned primaryTime - overlayStart (and the secondary paused); a set
    flag has it re-assigned if and only if it is more than 0.3 s away
    from that value, and otherwise the position is left to the
    secondary's own clock, which is running. *)
Theorem sync_seek_policy (p : OverlayVideo.Props) (el : OverlayVideo.VideoEl) :
  OverlayVideo.shouldShow p = true ->
  let expected := OverlayVideo.mainVideoTime p - OverlayVideo.overlayStartTime p in
  let stepped := OverlayVideo.run (OverlayVideo.syncOps p false el) el in
  let played := OverlayVideo.run (OverlayVideo.syncOps p true el) el in
  (OverlayVideo.seeks (OverlayVideo.syncOps p false el) = true /\
   OverlayVideo.currentTime stepped = expected /\
   OverlayVideo.paused stepped = true) /\
  (OverlayVideo.seeks (OverlayVideo.syncOps p true el) = true <->
   OverlayVideo.tolerance < Qabs (OverlayVideo.currentTime el - expected)) /\
  (OverlayVideo.seeks (OverlayVideo.syncOps p true el) = true ->
   OverlayVideo.currentTime played = expected) /\
  (OverlayVideo.seeks (OverlayVideo.syncOps p true el) = false ->
   OverlayVideo.currentTime played = OverlayVideo.currentTime el) /\
  OverlayVideo.paused played = false.
Proof.
  intros Hs expected stepped played.
  subst stepped played. unfold OverlayVideo.syncOps. rewrite Hs.
  fold expected.
  assert (Hgt := gt_true (Math_abs (OverlayVideo.currentTime el - expected))
                         OverlayVideo.tolerance).
  destruct (gt _ _) eqn:Hg;
    destruct el as [t [|]]; simpl in *;
    repeat split; try reflexivity; try discriminate; intros;
    try (apply Hgt; reflexivity); try discriminate.
  - destruct Hgt as [_ Hgt]. specialize (Hgt H). discriminate.
  - destruct Hgt as [_ Hgt]. specialize (Hgt H). discriminate.
Qed.

(** With the flag cleared at 24.9 s the secondary is put at 14.9 s; with
    the flag set and 0.2 s off it is left alone; with the flag set and
    0.4 s off it is re-seeked. *)
Lemma sync_seek_policy_witness :
  OverlayVideo.shouldShow (Sample.overlay_at (249 # 10)) = true /\
  OverlayVideo.currentTime
    (OverlayVideo.run
       (OverlayVideo.syncOps (Sample.overlay_at (249 # 10)) false
          {| OverlayVideo.currentTime := 3; OverlayVideo.paused := true |})
       {| OverlayVideo.currentTime := 3; OverlayVideo.paused := true |})
  = (249 # 10) - 10 /\
  OverlayVideo.seeks
    (OverlayVideo.syncOps (Sample.overlay_at (249 # 10)) true
       {| OverlayVideo.currentTime := (147 # 10); OverlayVideo.paused := false |})
  = false /\
  OverlayVideo.seeks
    (OverlayVideo.syncOps (Sample.overlay_at (249 # 10)) true
       {| OverlayVideo.currentTime := (145 # 10); OverlayVideo.paused := false |})
  = true.
Proof.
  assert (Hs : OverlayVideo.shouldShow (Sample.overlay_at (249 # 10)) = true)
    by (vm_compute; reflexivity).
  split; [exact Hs|].
  split; [|split].
  - pose proof (sync_seek_policy (Sample.overlay_at (249 # 10))
        {| OverlayVideo.currentTime := 3; OverlayVideo.paused := true |} Hs) as W.
    cbv zeta in W. destruct W as ((_ & Hc & _) & _). exact Hc.
  - pose proof (sync_seek_policy (Sample.overlay_at (249 # 10))
        {| OverlayVideo.currentTime := (147 # 10); OverlayVideo.paused := false |}
        Hs) as W.
    cbv zeta in W. destruct W as (_ & Hiff & _).
    destruct (OverlayVideo.seeks _) eqn:E; [|reflexivity].
    destruct Hiff as [Hiff _]. specialize (Hiff eq_refl).
    vm_compute in Hiff. discriminate.
  - pose proof (sync_seek_policy (Sample.overlay_at (249 # 10))
        {| OverlayVideo.currentTime := (145 # 10); OverlayVideo.paused := false |}
        Hs) as W.
    cbv zeta in W. destruct W as (_ & Hiff & _).
    apply Hiff. vm_compute. reflexivity.
Defined.

(** C4 (the code at the failing inputs).  The sync effect follows the
    overlay's own play flag, which is cleared at mount and changed only
    by [play] and [pause] of its handle; the player keeps it equal to its
    own play state in [togglePlay], [stepFrame] and [updateProgress], but
    not when the overlay is mounted under a playing primary nor in
    [onEnded].
    Mounted while the primary plays from 10 s, the overlay has its flag
    cleared: on the next frame, a thirtieth of a second later, the
    primary is playing and the secondary is a thirtieth of a second from
    the expected position, yet the effect assigns its position and
    leaves it paused.
    After the primary has ended, the flag is still set: scrubbed to 15 s
    with the secondary at 4.8 s, the primary is not playing and the
    overlay is visible, yet the secondary is not put at the expected 5 s
    and is started. *)
Theorem sync_follows_flag_not_primary :
  (let mounted := Sample.mount_overlay (VideoPlayer.togglePlay (Sample.player_at 10)) in
   let frame :=
     fst (fst (VideoPlayer.updateProgress (VideoPlayer.clock (1 # 30) mounted))) in
   let el := OverlayVideo.mkEl (10 - 10) true in
   VideoPlayer.overlayVideoRef mounted
     = Some (OverlayVideo.mkHandle false (Some el)) /\
   VideoPlayer.overlayVideoRef frame = VideoPlayer.overlayVideoRef mounted /\
   VideoPlayer.playing frame = true /\
   OverlayVideo.shouldShow (Sample.overlay_under frame) = true /\
   Qabs (OverlayVideo.currentTime el
         - (OverlayVideo.mainVideoTime (Sample.overlay_under frame)
            - OverlayVideo.overlayStartTime (Sample.overlay_under frame)))
   == 1 # 30 /\
   OverlayVideo.seeks
     (OverlayVideo.syncOps (Sample.overlay_under frame) false el) = true /\
   exists el',
     VideoPlayer.overlayVideoRef (Sample.with_overlay frame)
       = Some (OverlayVideo.mkHandle false (Some el')) /\
     OverlayVideo.paused el' = true) /\
  (let shown := Sample.mount_overlay (Sample.player_at (148 # 10)) in
   let moved := Sample.with_overlay (VideoPlayer.handleSeek (1199 # 10) shown) in
   let started := Sample.with_overlay (VideoPlayer.togglePlay moved) in
   let ended := VideoPlayer.onEnded started in
   let scrubbed := Sample.with_overlay (VideoPlayer.handleSeek 15 ended) in
   VideoPlayer.playing started = true /\
   VideoPlayer.playing scrubbed = false /\
   OverlayVideo.shouldShow (Sample.overlay_under scrubbed) = true /\
   OverlayVideo.mainVideoTime (Sample.overlay_under scrubbed)
   - OverlayVideo.overlayStartTime (Sample.overlay_under scrubbed) == 5 /\
   exists el',
     VideoPlayer.overlayVideoRef scrubbed
       = Some (OverlayVideo.mkHandle true (Some el')) /\
     OverlayVideo.currentTime el' == 48 # 10 /\
     OverlayVideo.paused el' = false).
Proof.
  split; cbv zeta.
  - split; [reflexivity|]. split; [reflexivity|]. split; [reflexivity|].
    split; [vm_compute; reflexivity|]. split; [vm_compute; reflexivity|].
    split; [vm_compute; reflexivity|].
    eexists. split; [vm_compute; reflexivity|]. reflexivity.
  - split; [reflexivity|]. split; [reflexivity|].
    split; [vm_compute; reflexivity|]. split; [vm_compute; reflexivity|].
    eexists. split; [vm_compute; reflexivity|].
    split; [vm_compute; reflexivity | reflexivity].
Qed.

(** After any run of updates with the flag cleared, the secondary sits
    exactly where the last update expects it. *)
Lemma stepping_never_drifts (us : list (OverlayVideo.Props * number))
  (u : OverlayVideo.Props * number) (el : OverlayVideo.VideoEl) :
  OverlayVideo.shouldShow (fst u) = true ->
  OverlayVideo.currentTime (fold_left (tick false) (us ++ [u]) el)
  = OverlayVideo.mainVideoTime (fst u) - OverlayVideo.overlayStartTime (fst u).
Proof.
  intros Hs. rewrite fold_left_app. simpl.
  generalize (fold_left (tick false) us el). intros el'.
  unfold tick, OverlayVideo.syncOps. rewrite Hs.
  destruct (OverlayVideo.paused el'); reflexivity.
Qed.

(** After an update with the flag set, the secondary is within the
    tolerance of the expected position. *)
Lemma playing_within_tolerance (p : OverlayVideo.Props) (el : OverlayVideo.VideoEl) :
  OverlayVideo.shouldShow p = true ->
  Qabs (OverlayVideo.currentTime
          (OverlayVideo.run (OverlayVideo.syncOps p true el) el)
        - (OverlayVideo.mainVideoTime p - OverlayVideo.overlayStartTime p))
  <= OverlayVideo.tolerance.
Proof.
  intros Hs. unfold OverlayVideo.syncOps. rewrite Hs.
  generalize (OverlayVideo.mainVideoTime p - OverlayVideo.overlayStartTime p).
  intros expected.
  destruct (gt _ _) eqn:Hg.
  - destruct el as [t [|]];
      cbn [OverlayVideo.run fold_left app OverlayVideo.apply_op
           OverlayVideo.currentTime OverlayVideo.paused andb negb];
      apply Qabs_Qle_condition; unfold OverlayVideo.tolerance; lra.
  - apply gt_false in Hg.
    destruct el as [t [|]];
      cbn [OverlayVideo.run fold_left app OverlayVideo.apply_op
           OverlayVideo.currentTime OverlayVideo.paused andb negb] in *;
      exact Hg.
Qed.

(** ** The coordinate mapper *)

Lemma Qdiv_pos (a b : number) : 0 < a -> 0 < b -> 0 < a / b.
Proof.
  intros Ha Hb. unfold Qdiv.
  apply Qmult_lt_0_compat; [exact Ha|].
  apply Qinv_lt_0_compat. exact Hb.
Qed.

Lemma div_pos (a b : number) : 0 < b -> a /? b = Some (a / b).
Proof. intros Hb. apply div_defined. lra. Qed.

(** With positive native and viewport dimensions the layout is computed
    without a zero divisor and its scale is positive. *)
Lemma layout_positive (videoWidth videoHeight containerWidth containerHeight : number) :
  0 < videoWidth -> 0 < videoHeight ->
  0 < containerWidth -> 0 < containerHeight ->
  exists l,
    CropOverlay.layout videoWidth videoHeight containerWidth containerHeight = Some l /\
    0 < CropOverlay.scale l.
Proof.
  intros HW HH Hcw Hch.
  assert (Hva : 0 < videoWidth / videoHeight) by now apply Qdiv_pos.
  unfold CropOverlay.layout.
  rewrite (div_pos videoWidth videoHeight HH); simpl.
  rewrite (div_pos containerWidth containerHeight Hch); simpl.
  destruct (gt _ _).
  - rewrite (div_pos containerWidth _ Hva); simpl.
    rewrite (div_pos containerWidth videoWidth HW); simpl.
    eexists; split; [reflexivity|]. simpl. now apply Qdiv_pos.
  - assert (Hdw : 0 < containerHeight * (videoWidth / videoHeight))
      by now apply Qmult_lt_0_compat.
    rewrite (div_pos _ videoWidth HW); simpl.
    eexists; split; [reflexivity|]. simpl. now apply Qdiv_pos.
Qed.

Lemma toVideoCoords_defined (l : CropOverlay.Layout) (c : CropArea) :
  0 < CropOverlay.scale l ->
  CropOverlay.toVideoCoords l c =
  Some {| x := Math_round ((x c - CropOverlay.offsetX l) / CropOverlay.scale l);
          y := Math_round ((y c - CropOverlay.offsetY l) / CropOverlay.scale l);
          width := Math_round (width c / CropOverlay.scale l);
          height := Math_round (height c / CropOverlay.scale l) |}.
Proof.
  intros Hs. unfold CropOverlay.toVideoCoords.
  rewrite !(div_pos _ _ Hs). reflexivity.
Qed.

(** In exact arithmetic the two mappings are inverse on integer
    rectangles. *)
Lemma mapping_roundtrip_exact (l : CropOverlay.Layout) (R : CropArea) :
  0 < CropOverlay.scale l ->
  integral (x R) -> integral (y R) -> integral (width R) -> integral (height R) ->
  exists R',
    CropOverlay.toVideoCoords l (CropOverlay.toContainerCoords l R) = Some R' /\
    area_eq R' R.
Proof.
  intros Hs Hx Hy Hw Hh.
  eexists. split; [apply toVideoCoords_defined; exact Hs|].
  unfold area_eq, CropOverlay.toContainerCoords; simpl.
  assert (Hne : ~ CropOverlay.scale l == 0) by lra.
  repeat split.
  - rewrite <- (Math_round_integral _ Hx) at 2.
    rewrite (Math_round_comp _ (x R)); [reflexivity|]. field. exact Hne.
  - rewrite <- (Math_round_integral _ Hy) at 2.
    rewrite (Math_round_comp _ (y R)); [reflexivity|]. field. exact Hne.
  - rewrite <- (Math_round_integral _ Hw) at 2.
    rewrite (Math_round_comp _ (width R)); [reflexivity|]. field. exact Hne.
  - rewrite <- (Math_round_integral _ Hh) at 2.
    rewrite (Math_round_comp _ (height R)); [reflexivity|]. field. exact Hne.
Qed.

Lemma within_one_eq (a b : number) : a == b -> within_one a b.
Proof.
  intros E. unfold within_one. apply Qabs_Qle_condition. lra.
Qed.

Lemma inject_Z_pred (k : Z) : inject_Z (k - 1) == inject_Z k - 1.
Proof. unfold Qeq; simpl; lia. Qed.

Lemma inject_Z_succ (k : Z) : inject_Z (k + 1) == inject_Z k + 1.
Proof. unfold Qeq; simpl; lia. Qed.

(** A value computed within one of an integer still rounds to within one
    of it: the tolerance left to inexact arithmetic. *)
Lemma Math_round_within_one (v : number) (k : Z) :
  Qabs (v - inject_Z k) <= 1 -> within_one (Math_round v) (inject_Z k).
Proof.
  intros Hv. apply Qabs_Qle_condition in Hv.
  unfold within_one. apply Qabs_Qle_condition.
  assert (Hlo : inject_Z (k - 1) <= Math_round v).
  { rewrite <- (Math_round_int (k - 1)). unfold Math_round.
    rewrite <- Zle_Qle. apply Qfloor_resp_le.
    rewrite inject_Z_pred. lra. }
  assert (Hhi : Math_round v <= inject_Z (k + 1)).
  { rewrite <- (Math_round_int (k + 1)). unfold Math_round.
    rewrite <- Zle_Qle. apply Qfloor_resp_le.
    rewrite inject_Z_succ. lra. }
  rewrite inject_Z_pred in Hlo. rewrite inject_Z_succ in Hhi. lra.
Qed.

(** C5: for positive native and viewport dimensions and a native
    rectangle R with integer fields, toNative(toViewport(R)) is defined
    and each of x, y, width, height is within one unit of R's. *)
Theorem mapping_roundtrip_within_one
  (videoWidth videoHeight containerWidth containerHeight : number) (R : CropArea) :
  0 < videoWidth -> 0 < videoHeight ->
  0 < containerWidth -> 0 < containerHeight ->
  integral (x R) -> integral (y R) -> integral (width R) -> integral (height R) ->
  exists l R',
    CropOverlay.layout videoWidth videoHeight containerWidth containerHeight = Some l /\
    CropOverlay.toVideoCoords l (CropOverlay.toContainerCoords l R) = Some R' /\
    within_one (x R') (x R) /\ within_one (y R') (y R) /\
    within_one (width R') (width R) /\ within_one (height R') (height R).
Proof.
  intros HW HH Hcw Hch Hx Hy Hw Hh.
  destruct (layout_positive _ _ _ _ HW HH Hcw Hch) as (l & Hl & Hs).
  destruct (mapping_roundtrip_exact l R Hs Hx Hy Hw Hh) as (R' & HR' & Ex & Ey & Ew & Eh).
  exists l, R'. repeat split; try assumption; now apply within_one_eq.
Qed.

Lemma integral_Z (k : Z) : integral (inject_Z k).
Proof. exists k. reflexivity. Qed.

(** The 1920 x 1080 frame in an 800 x 400 viewport, and the sample region. *)
Lemma mapping_roundtrip_within_one_witness :
  exists l R',
    CropOverlay.layout 1920 1080 800 400 = Some l /\
    CropOverlay.toVideoCoords l (CropOverlay.toContainerCoords l Sample.region)
      = Some R' /\
    within_one (x R') (x Sample.region) /\ within_one (y R') (y Sample.region) /\
    within_one (width R') (width Sample.region) /\
    within_one (height R') (height Sample.region).
Proof.
  apply (mapping_roundtrip_within_one 1920 1080 800 400 Sample.region);
    try reflexivity;
    first [ apply (integral_Z 100) | apply (integral_Z 0)
          | apply (integral_Z 1000) | apply (integral_Z 500) ].
Defined.

(** The 1920 x 1080 frame in an 800 x 400 viewport is fitted by height:
    400 high, 6400/9 wide, centred with a horizontal offset of 400/9. *)
Lemma layout_scenario :
  exists l,
    CropOverlay.layout 1920 1080 800 400 = Some l /\
    CropOverlay.displayHeight l == 400 /\
    CropOverlay.displayWidth l == 6400 # 9 /\
    CropOverlay.offsetX l == 400 # 9 /\
    CropOverlay.offsetY l == 0.
Proof.
  eexists. split; [vm_compute; reflexivity|].
  vm_compute. repeat split.
Qed.

(** The full-frame region dragged outward by its [nw] handle stays the
    full frame. *)
Lemma nw_outward_scenario :
  area_eq
    (CropOverlay.clampArea 1920 1080
       (CropOverlay.resizeBy CropOverlay.nw
          {| x := 0; y := 0; width := 1920; height := 1080 |} (- 50) (- 30)))
    {| x := 0; y := 0; width := 1920; height := 1080 |}.
Proof. vm_compute. repeat split. Qed.

(** C9 (counterexample): the mapper has no branch for a zero viewport
    dimension.  With viewport height 0 the aspect ratio is a quotient by
    zero; with viewport width 0 (and height 400) the scale is 0, not 1,
    the vertical offset is 200, not 0, and mapping back divides by the
    zero scale. *)
Lemma zero_viewport_is_not_identity :
  CropOverlay.layout 1920 1080 800 0 = None /\
  exists l,
    CropOverlay.layout 1920 1080 0 400 = Some l /\
    CropOverlay.scale l == 0 /\ ~ CropOverlay.scale l == 1 /\
    CropOverlay.offsetY l == 200 /\ ~ CropOverlay.offsetY l == 0 /\
    CropOverlay.toVideoCoords l Sample.region = None.
Proof.
  split; [vm_compute; reflexivity|].
  eexists. split; [vm_compute; reflexivity|].
  vm_compute. repeat split; discriminate.
Qed.

Lemma cropOverlayProps_width (st : Editor.State)
  (videoWidth videoHeight containerWidth containerHeight : number) :
  Editor.cropOverlayProps st
    = Some (videoWidth, videoHeight, containerWidth, containerHeight) ->
  0 < containerWidth.
Proof.
  unfold Editor.cropOverlayProps, Editor.cropOverlayMounted.
  destruct (Editor.is_crop _); simpl; [|discriminate].
  destruct (gt _ 0) eqn:Hg; simpl; [|discriminate].
  apply gt_true in Hg.
  destruct (Editor.displayVideo st) as [d|]; [|discriminate].
  destruct (Editor.mainVideo st) as [m|]; [|discriminate].
  destruct (String.eqb _ _); [|discriminate].
  intros [= _ _ <- _]. exact Hg.
Qed.

(** C9 (amended): the page renders the crop overlay, and with it the
    mapper, only once the measured viewport width is positive; rendered
    with a positive viewport height and positive native dimensions, the
    mapper computes its layout without a zero divisor, its scale is
    positive, and mapping a viewport rectangle back divides by no zero. *)
Theorem mapper_rendered_without_zero_divisor (st : Editor.State)
  (videoWidth videoHeight containerWidth containerHeight : number) :
  Editor.cropOverlayProps st
    = Some (videoWidth, videoHeight, containerWidth, containerHeight) ->
  0 < videoWidth -> 0 < videoHeight -> 0 < containerHeight ->
  0 < containerWidth /\
  exists l,
    CropOverlay.layout videoWidth videoHeight containerWidth containerHeight = Some l /\
    0 < CropOverlay.scale l /\
    forall c, CropOverlay.toVideoCoords l c <> None.
Proof.
  intros Hp HW HH Hch.
  pose proof (cropOverlayProps_width _ _ _ _ _ Hp) as Hcw.
  split; [exact Hcw|].
  destruct (layout_positive _ _ _ _ HW HH Hcw Hch) as (l & Hl & Hs).
  exists l. repeat split; try assumption.
  intros c. rewrite (toVideoCoords_defined l c Hs). discriminate.
Qed.

(** The editor cropping the 1920 x 1080 primary, measured at 960 x 540. *)
Lemma mapper_rendered_without_zero_divisor_witness :
  Editor.cropOverlayProps Sample.cropping = Some (1920, 1080, 960, 540) /\
  exists l,
    CropOverlay.layout 1920 1080 960 540 = Some l /\
    0 < CropOverlay.scale l /\
    forall c, CropOverlay.toVideoCoords l c <> None.
Proof.
  assert (Hp : Editor.cropOverlayProps Sample.cropping
               = Some (1920, 1080, 960, 540)) by (vm_compute; reflexivity).
  split; [exact Hp|].
  apply (mapper_rendered_without_zero_divisor Sample.cropping 1920 1080 960 540 Hp);
    reflexivity.
Defined.

(** ** The editor session *)

Lemma dep_eqb_refl (d : option string) : Editor.dep_eqb d d = true.
Proof. destruct d as [i|]; simpl; [apply String.eqb_refl | reflexivity]. Qed.

(** A handler that keeps the primary triggers no reset. *)
Lemma on_same_primary (handler : Editor.State -> Editor.State) (st : Editor.State) :
  Editor.mainVideo (handler st) = Editor.mainVideo st ->
  Editor.on handler st = handler st.
Proof.
  intros Hm. unfold Editor.on, Editor.main_id. rewrite Hm.
  now rewrite dep_eqb_refl.
Qed.

(** C6 (counterexample): switching the cropping editor to merge mode
    keeps its crop region. *)
Lemma merge_mode_keeps_crop_region :
  Editor.cropArea Sample.cropping = Some Sample.region /\
  Editor.cropArea (Editor.on (Editor.handleModeChange merge) Sample.cropping)
    = Some Sample.region /\
  Editor.cropArea (Editor.on (Editor.handleModeChange merge) Sample.cropping)
    <> None.
Proof.
  repeat split; try reflexivity. discriminate.
Qed.

(** C6 (amended): switching to merge mode leaves the crop region, the
    selected secondary and the overlay placement as they are; switching to
    crop mode clears the selected secondary and the overlay placement and,
    when a primary is loaded and no crop region exists yet, creates the
    full-frame crop region; an existing crop region is kept. *)
Theorem mode_change_effects (st : Editor.State) :
  let to_merge := Editor.on (Editor.handleModeChange merge) st in
  let to_crop := Editor.on (Editor.handleModeChange crop) st in
  (Editor.mode to_merge = merge /\
   Editor.cropArea to_merge = Editor.cropArea st /\
   Editor.selectedMaterial to_merge = Editor.selectedMaterial st /\
   Editor.overlayPosition to_merge = Editor.overlayPosition st) /\
  (Editor.mode to_crop = crop /\
   Editor.selectedMaterial to_crop = None /\
   Editor.overlayPosition to_crop = None) /\
  (forall m, Editor.mainVideo st = Some m -> Editor.cropArea st = None ->
     Editor.cropArea to_crop
       = Some {| x := 0; y := 0; width := vwidth m; height := vheight m |}) /\
  (forall a, Editor.cropArea st = Some a -> Editor.cropArea to_crop = Some a).
Proof.
  cbv zeta.
  rewrite !on_same_primary by reflexivity.
  repeat split; simpl.
  - intros m Hm Hc. rewrite Hm, Hc. reflexivity.
  - intros a Hc. rewrite Hc. destruct (Editor.mainVideo st); reflexivity.
Qed.

(** From merge mode with a secondary placed and no crop region, back to
    crop mode. *)
Lemma mode_change_effects_witness :
  let st := Editor.setCropArea None
              (Editor.handleMaterialSelect Sample.secondary
                 (Editor.handleModeChange merge Sample.cropping)) in
  Editor.selectedMaterial st = Some Sample.secondary /\
  Editor.cropArea (Editor.on (Editor.handleModeChange crop) st)
    = Some {| x := 0; y := 0; width := 1920; height := 1080 |}.
Proof.
  cbv zeta. split; [reflexivity|].
  match goal with
  | |- Editor.cropArea (Editor.on _ ?st) = _ =>
      destruct (mode_change_effects st) as (_ & _ & Hfull & _);
      apply (Hfull Sample.primary); reflexivity
  end.
Defined.

Lemma mainVideoEffect_frame (st : Editor.State) :
  Editor.allVideos (Editor.mainVideoEffect st) = Editor.allVideos st /\
  Editor.mainVideo (Editor.mainVideoEffect st) = Editor.mainVideo st.
Proof.
  unfold Editor.mainVideoEffect.
  destruct (Editor.mainVideo st) eqn:E; simpl; auto.
Qed.

(** Effects after a handler touch neither the library nor the primary. *)
Lemma on_frame (handler : Editor.State -> Editor.State) (st : Editor.State) :
  Editor.allVideos (Editor.on handler st) = Editor.allVideos (handler st) /\
  Editor.mainVideo (Editor.on handler st) = Editor.mainVideo (handler st).
Proof.
  unfold Editor.on. destruct (Editor.dep_eqb _ _).
  - auto.
  - apply mainVideoEffect_frame.
Qed.

(** ** The job poll *)

Lemma or_number_nonzero (v d : number) : ~ v == 0 -> or_number v d = v.
Proof.
  intros Hv. unfold or_number.
  destruct (Qeq_bool v 0) eqn:E; [|reflexivity].
  apply Qeq_bool_iff in E. contradiction.
Qed.

(** While the job is pending or processing the poll records the task and
    re-arms itself after one second; a failed job exports nothing. *)
Lemma poll_in_flight
  (fileNameOf : SourceType -> number -> number -> number -> string -> string)
  (p : PropertyPanel.Submitted) (taskId format : string) (kind : SourceType)
  (d : ProcessTask) (r : PropertyPanel.ApiResponse) :
  PropertyPanel.success r = true -> PropertyPanel.data r = Some d ->
  status d = pending \/ status d = processing ->
  PropertyPanel.pollTaskStatus fileNameOf p taskId format kind (Some r)
    = [PropertyPanel.SetTask (Some d); PropertyPanel.SetTimeout 1000].
Proof.
  intros Hs Hd Hst. unfold PropertyPanel.pollTaskStatus. rewrite Hs, Hd.
  destruct Hst as [-> | ->]; reflexivity.
Qed.

(** What a completed poll builds, for either kind of job: a new asset
    with duration = endTime - startTime, the width and height of the
    panel's crop region if one is set (its sides being non-zero) and the
    primary's otherwise, frameCount = round(duration * primary fps), the
    format the poll was started with, the job kind as provenance and the
    primary's id as parent; [onVideoExported] appends it to the library,
    and the primary and every earlier library entry stay. *)
Theorem completed_poll_exports_asset
  (fileNameOf : SourceType -> number -> number -> number -> string -> string)
  (p : PropertyPanel.Submitted) (m : VideoFile) (taskId format : string)
  (kind : SourceType) (d : ProcessTask) (r : PropertyPanel.ApiResponse)
  (st : Editor.State) :
  PropertyPanel.mainVideo p = Some m ->
  PropertyPanel.success r = true -> PropertyPanel.data r = Some d ->
  status d = completed ->
  (forall a, PropertyPanel.cropArea p = Some a ->
             ~ width a == 0 /\ ~ height a == 0) ->
  exists v,
    PropertyPanel.pollTaskStatus fileNameOf p taskId format kind (Some r)
      = [PropertyPanel.SetTask (Some d); PropertyPanel.SetProcessing false;
         PropertyPanel.OnVideoExported v;
         PropertyPanel.SetTask None; PropertyPanel.MessageSuccess] /\
    duration v = PropertyPanel.endTime p - PropertyPanel.startTime p /\
    (forall a, PropertyPanel.cropArea p = Some a ->
               vwidth v = width a /\ vheight v = height a) /\
    (PropertyPanel.cropArea p = None ->
     vwidth v = vwidth m /\ vheight v = vheight m) /\
    frameCount v = Math_round (duration v * fps m) /\
    Video.format v = format /\
    sourceType v = Some kind /\
    parentId v = Some (id m) /\
    let st' := Editor.on (Editor.handleVideoExported v) st in
    Editor.allVideos st' = Editor.allVideos st ++ [v] /\
    Editor.mainVideo st' = Editor.mainVideo st /\
    (forall u, In u (Editor.allVideos st) -> In u (Editor.allVideos st')).
Proof.
  intros Hm Hs Hd Hst Hcrop.
  eexists. split.
  { unfold PropertyPanel.pollTaskStatus. rewrite Hs, Hd, Hst, Hm. reflexivity. }
  unfold PropertyPanel.newVideo; simpl.
  split; [reflexivity|].
  split.
  { intros a Ha. rewrite Ha.
    split; apply or_number_nonzero; now apply (Hcrop a). }
  split.
  { intros Ha. rewrite Ha. split; reflexivity. }
  do 4 (split; [reflexivity|]).
  rewrite on_same_primary by reflexivity. simpl.
  split; [reflexivity|]. split; [reflexivity|].
  intros u Hu. apply in_or_app. now left.
Qed.

(** The crop job of the sample region over 10 s .. 25 s, completed with
    result reference r1. *)
Lemma completed_poll_exports_asset_witness :
  let p := {| PropertyPanel.mainVideo := Some Sample.primary;
              PropertyPanel.startTime := 10; PropertyPanel.endTime := 25;
              PropertyPanel.cropArea := Some Sample.region;
              PropertyPanel.overlayPosition := None |} in
  let d := {| taskId := "t1"; status := completed; progress := 100;
              resultFileId := Some "r1"%string; error := None |} in
  let r := {| PropertyPanel.success := true; PropertyPanel.data := Some d;
              PropertyPanel.resp_error := None |} in
  exists v,
    PropertyPanel.pollTaskStatus (fun _ _ _ _ _ => "out.mp4"%string) p "t1" "mp4"
      crop_src (Some r)
      = [PropertyPanel.SetTask (Some d); PropertyPanel.SetProcessing false;
         PropertyPanel.OnVideoExported v;
         PropertyPanel.SetTask None; PropertyPanel.MessageSuccess] /\
    id v = "r1"%string /\
    duration v = 25 - 10 /\
    vwidth v = 1000 /\ vheight v = 500 /\
    sourceType v = Some crop_src /\ parentId v = Some "main"%string /\
    Editor.allVideos (Editor.on (Editor.handleVideoExported v) Sample.cropping)
      = [Sample.secondary; Sample.primary; v].
Proof.
  cbv zeta.
  match goal with
  | |- exists v, PropertyPanel.pollTaskStatus ?f ?p ?t ?fmt ?k (Some ?r) = _ /\ _ =>
      destruct (completed_poll_exports_asset f p Sample.primary t fmt k
                  (mkTask "t1" completed 100 (Some "r1"%string) None) r
                  Sample.cropping eq_refl eq_refl eq_refl eq_refl)
        as (v & Hrun & Hdur & Hdims & _ & _ & _ & Hsrc & Hpar & Hlib & _)
  end.
  - intros a [= <-]. split; discriminate.
  - exists v.
    split; [exact Hrun|].
    split; [injection Hrun as <-; reflexivity|].
    split; [exact Hdur|].
    destruct (Hdims Sample.region eq_refl) as [Hw Hh].
    repeat split; assumption.
Defined.

(** A job polled as processing at 40 and 75 percent, then completed with
    result reference r1: two timers, then one asset of provenance crop
    whose parent is the primary. *)
Lemma poll_scenario :
  let p := {| PropertyPanel.mainVideo := Some Sample.primary;
              PropertyPanel.startTime := 10; PropertyPanel.endTime := 25;
              PropertyPanel.cropArea := None;
              PropertyPanel.overlayPosition := None |} in
  let answer st pr res :=
    Some {| PropertyPanel.success := true;
            PropertyPanel.data := Some (mkTask "t1" st pr res None);
            PropertyPanel.resp_error := None |} in
  exists v,
    PropertyPanel.pollLoop (fun _ _ _ _ _ => "out.mp4"%string) p "t1" "mp4" crop_src
      [answer processing 40 None; answer processing 75 None;
       answer completed 100 (Some "r1"%string)]
    = [PropertyPanel.SetTask (Some (mkTask "t1" processing 40 None None));
       PropertyPanel.SetTimeout 1000;
       PropertyPanel.SetTask (Some (mkTask "t1" processing 75 None None));
       PropertyPanel.SetTimeout 1000;
       PropertyPanel.SetTask (Some (mkTask "t1" completed 100 (Some "r1"%string) None));
       PropertyPanel.SetProcessing false;
       PropertyPanel.OnVideoExported v;
       PropertyPanel.SetTask None; PropertyPanel.MessageSuccess] /\
    id v = "r1"%string /\ sourceType v = Some crop_src /\
    parentId v = Some "main"%string /\ duration v = 25 - 10 /\
    vwidth v = 1920 /\ vheight v = 1080.
Proof.
  cbv zeta. eexists. split; [reflexivity|]. repeat split.
Qed.

(** C7 (the code at the failing input).  The editor crops the sample
    region, is switched to merge mode, which keeps the crop region, and
    the secondary is selected.  The merge request carries the two ids and
    the placement and no crop region; when its poll returns completed,
    the exported asset of provenance merge gets the 1000 x 500 of the
    crop region left over from crop mode, not the 1920 x 1080 of the
    primary; its duration, frame count, format and parent are as for any
    job. *)
Theorem merge_export_takes_leftover_crop_size
  (fileNameOf : SourceType -> number -> number -> number -> string -> string) :
  let st := Editor.on (Editor.handleMaterialSelect Sample.secondary)
              (Editor.on (Editor.handleModeChange merge) Sample.cropping) in
  let p := Editor.panelProps st in
  let d := mkTask "t2" completed 100 (Some "r2"%string) None in
  let r := PropertyPanel.mkResponse true (Some d) None in
  Editor.mode st = merge /\
  Editor.cropArea st = Some Sample.region /\
  PropertyPanel.handleConfirmOverlay p (Editor.selectedMaterial st)
    = PropertyPanel.SentOverlay
        (PropertyPanel.mkOverlayRequest "main" "sec" 10 25
           {| x := 0; y := 0; width := 480; height := 270 |} (Some "mp4"%string)) /\
  exists v,
    PropertyPanel.pollTaskStatus fileNameOf p "t2" "mp4" merge_src (Some r)
      = [PropertyPanel.SetTask (Some d); PropertyPanel.SetProcessing false;
         PropertyPanel.OnVideoExported v;
         PropertyPanel.SetTask None; PropertyPanel.MessageSuccess] /\
    sourceType v = Some merge_src /\
    vwidth v = 1000 /\ vheight v = 500 /\
    vwidth Sample.primary = 1920 /\ vheight Sample.primary = 1080 /\
    duration v = 25 - 10 /\ frameCount v == 450 /\
    Video.format v = "mp4"%string /\ parentId v = Some "main"%string.
Proof.
  cbv zeta. split; [reflexivity|]. split; [reflexivity|].
  split; [vm_compute; reflexivity|].
  eexists. split; [reflexivity|].
  repeat split; vm_compute; reflexivity.
Qed.

(** ** Upload validation *)

(** What the code accepts: an allowed declared type or one of the seven
    extensions of the pattern, and at most 500 MiB. *)
Lemma validateFile_accepts (formatFileSize : number -> string) (file : Upload.File) :
  Upload.validateFile formatFileSize file = None <->
  (Upload.includes Upload.ALLOWED_TYPES (Upload.file_type file) = true \/
   Upload.matches_extension (Upload.file_name file) = true) /\
  Upload.file_size file <= Upload.MAX_SIZE.
Proof.
  unfold Upload.validateFile.
  destruct (Upload.includes _ _) eqn:Ht;
    destruct (Upload.matches_extension _) eqn:Hx; simpl.
  4: { split; [discriminate|]. intros [[?|?] _]; discriminate. }
  all: destruct (gt _ _) eqn:Hg;
    [apply gt_true in Hg | apply gt_false in Hg].
  all: split; [intros Hv | intros [_ Hle]].
  all: try discriminate; try reflexivity; try lra.
  all: split; [auto | exact Hg].
Qed.

(** A rejected file gets its message at once and no request is sent, in
    both upload handlers. *)
Lemma rejected_upload_stays_local (formatFileSize : number -> string)
  (file : Upload.File) :
  Upload.validateFile formatFileSize file <> None ->
  (exists msg, Upload.handleUpload formatFileSize file = [Upload.MessageError msg]) /\
  (exists msg, Upload.handleFileChange formatFileSize (Some file)
               = [Upload.MessageError msg]) /\
  existsb Upload.is_network (Upload.handleUpload formatFileSize file) = false /\
  existsb Upload.is_network (Upload.handleFileChange formatFileSize (Some file)) = false.
Proof.
  unfold Upload.handleUpload, Upload.handleFileChange, Upload.validateFile.
  destruct (negb _ && negb _); [intros _; repeat split; eauto|].
  destruct (gt _ _); [intros _; repeat split; eauto|].
  intros H. now contradiction H.
Qed.

(** C8 (the code at the failing input): a file named clip.flv of declared
    type video/x-flv and 1024 bytes has neither an allowed type nor one of
    the five extensions mp4, mov, avi, webm, mkv that the rejection
    message names, yet [validateFile] accepts it and both handlers go on
    to upload it. *)
Theorem flv_extension_is_uploaded (formatFileSize : number -> string) :
  let file := {| Upload.file_name := "clip.flv";
                 Upload.file_type := "video/x-flv";
                 Upload.file_size := 1024 |} in
  Upload.includes Upload.ALLOWED_TYPES (Upload.file_type file) = false /\
  existsb (fun ext => Upload.ends_with ("." ++ ext) (Upload.lower (Upload.file_name file)))
          Upload.documented_extensions = false /\
  Upload.validateFile formatFileSize file = None /\
  Upload.handleUpload formatFileSize file
    = [Upload.SetUploading true; Upload.SetProgress 0 1024 0; Upload.UploadVideo file] /\
  Upload.handleFileChange formatFileSize (Some file)
    = [Upload.SetUploading true; Upload.SetProgress 0 1024 0; Upload.UploadVideo file].
Proof.
  cbv zeta. repeat split; reflexivity.
Qed.

(** ** Uploads into the session *)

Lemma find_id_some (video : VideoFile) (l : list VideoFile) :
  (exists v, In v l /\ id v = id video) ->
  exists v, find (fun v => String.eqb (id v) (id video)) l = Some v.
Proof.
  intros (v & Hin & Hid).
  destruct (find _ l) as [u|] eqn:E; [eauto|].
  apply (find_none _ _ E) in Hin. rewrite Hid, String.eqb_refl in Hin.
  discriminate.
Qed.

Lemma find_id_none (video : VideoFile) (l : list VideoFile) :
  (forall v, In v l -> id v <> id video) ->
  find (fun v => String.eqb (id v) (id video)) l = None.
Proof.
  intros Hfresh.
  destruct (find _ l) as [u|] eqn:E; [|reflexivity].
  apply find_some in E as [Hin Heq].
  apply String.eqb_eq in Heq. now apply Hfresh in Hin.
Qed.

(** An upload that began with a primary in place: an asset whose id is
    already in the library leaves the library unchanged; nothing but the
    library changes, to which a new asset is prepended: primary, edit
    range, crop region, overlay placement, selected secondary and every
    other field stay.  An upload that began without a primary makes the
    uploaded asset the primary. *)
Lemma upload_frame (seen : option VideoFile) (video : VideoFile) (st : Editor.State) :
  let st' := Editor.on (Editor.handleMainVideoUpload seen video) st in
  ((exists v, In v (Editor.allVideos st) /\ id v = id video) ->
   Editor.allVideos st' = Editor.allVideos st) /\
  (seen <> None ->
     Editor.mainVideo st' = Editor.mainVideo st /\
     Editor.startTime st' = Editor.startTime st /\
     Editor.endTime st' = Editor.endTime st /\
     Editor.cropArea st' = Editor.cropArea st /\
     Editor.overlayPosition st' = Editor.overlayPosition st /\
     Editor.selectedMaterial st' = Editor.selectedMaterial st /\
     Editor.mode st' = Editor.mode st /\
     Editor.previewVideo st' = Editor.previewVideo st /\
     Editor.duration st' = Editor.duration st /\
     Editor.currentTime st' = Editor.currentTime st /\
     Editor.videoDisplaySize st' = Editor.videoDisplaySize st /\
     ((forall v, In v (Editor.allVideos st) -> id v <> id video) ->
      Editor.allVideos st' = video :: Editor.allVideos st)) /\
  (seen = None -> Editor.mainVideo st' = Some video).
Proof.
  cbv zeta. split; [|split].
  - intros Hdup.
    destruct (on_frame (Editor.handleMainVideoUpload seen video) st) as [-> _].
    simpl. destruct (find_id_some video _ Hdup) as [u ->]. reflexivity.
  - intros Hseen. destruct seen as [c|]; [|contradiction].
    rewrite on_same_primary by reflexivity.
    simpl. repeat split.
    intros Hfresh. now rewrite find_id_none.
  - intros ->.
    destruct (on_frame (Editor.handleMainVideoUpload None video) st) as [_ ->].
    reflexivity.
Qed.

(** C10 (the code at the failing input).  Two uploads begin in the empty
    editor, so both closures of [handleMainVideoUpload] have seen no
    primary.  The first to finish makes its asset the primary; the range
    10 s .. 25 s and a crop region are set.  When the second finishes, a
    primary exists, yet the upload replaces it, and the effect of the new
    primary resets the range and clears the crop region. *)
Theorem late_upload_replaces_primary :
  let first := Editor.on (Editor.handleMainVideoUpload None Sample.primary)
                 Editor.initial in
  let edited := Editor.on (Editor.setCropArea (Some Sample.region))
                  (Editor.on (Editor.setEndTime 25)
                     (Editor.on (Editor.setStartTime 10) first)) in
  let second := Editor.on (Editor.handleMainVideoUpload None Sample.clip) edited in
  (Editor.mainVideo edited = Some Sample.primary /\
   Editor.startTime edited = 10 /\ Editor.endTime edited = 25 /\
   Editor.cropArea edited = Some Sample.region) /\
  Editor.allVideos second = [Sample.clip; Sample.primary] /\
  Editor.mainVideo second = Some Sample.clip /\
  Editor.startTime second = 0 /\ Editor.endTime second = 3 /\
  Editor.cropArea second = None /\
  Editor.previewVideo second = Some Sample.clip.
Proof.
  cbv zeta. split; [repeat split|].
  repeat split.
Qed.

(** * Further properties of the components *)

(** ** Whole pixels *)

Lemma integral_round (v : number) : integral (Math_round v).
Proof. exists (Qfloor (v + (1 # 2))). reflexivity. Qed.

Lemma integral_comp (a b : number) : a == b -> integral a -> integral b.
Proof. intros E [k Hk]. exists k. rewrite <- E. exact Hk. Qed.

Lemma integral_max (a b : number) : integral a -> integral b -> integral (Math_max a b).
Proof.
  intros Ha Hb. unfold Math_max.
  destruct (Q.max_spec a b) as [[_ E]|[_ E]];
    [apply (integral_comp b) | apply (integral_comp a)];
    solve [symmetry; exact E | assumption].
Qed.

Lemma integral_min (a b : number) : integral a -> integral b -> integral (Math_min a b).
Proof.
  intros Ha Hb. unfold Math_min.
  destruct (Q.min_spec a b) as [[_ E]|[_ E]];
    [apply (integral_comp a) | apply (integral_comp b)];
    solve [symmetry; exact E | assumption].
Qed.

Lemma integral_sub (a b : number) : integral a -> integral b -> integral (a - b).
Proof.
  intros [k Hk] [j Hj]. exists (k - j)%Z.
  rewrite Hk, Hj. unfold Qeq; simpl; lia.
Qed.

Lemma integral_num (k : Z) : integral (inject_Z k).
Proof. exists k. reflexivity. Qed.

(** An integer below [v + 1/2] is at most the rounding of [v]. *)
Lemma Math_round_lower (k : Z) (v : number) :
  inject_Z k <= v + (1 # 2) -> inject_Z k <= Math_round v.
Proof.
  intros Hk. unfold Math_round. rewrite <- Zle_Qle.
  rewrite <- (Qfloor_Z k). now apply Qfloor_resp_le.
Qed.

Lemma clampArea_integral (videoWidth videoHeight : number) (a : CropArea) :
  integral videoWidth -> integral videoHeight ->
  let r := CropOverlay.clampArea videoWidth videoHeight a in
  integral (x r) /\ integral (y r) /\ integral (width r) /\ integral (height r).
Proof.
  intros HW HH. unfold CropOverlay.clampArea, CropOverlay.minSize; simpl.
  assert (Hw : integral (Math_max 20 (Math_min (Math_round (width a)) videoWidth))).
  { apply integral_max; [apply (integral_num 20)|].
    apply integral_min; [apply integral_round | exact HW]. }
  assert (Hh : integral (Math_max 20 (Math_min (Math_round (height a)) videoHeight))).
  { apply integral_max; [apply (integral_num 20)|].
    apply integral_min; [apply integral_round | exact HH]. }
  repeat split; try assumption.
  - apply integral_max; [apply (integral_num 0)|].
    apply integral_min; [apply integral_round|]. now apply integral_sub.
  - apply integral_max; [apply (integral_num 0)|].
    apply integral_min; [apply integral_round|]. now apply integral_sub.
Qed.

(** The clamp sees only the values of the fields. *)
Lemma clampArea_comp (videoWidth videoHeight : number) (a b : CropArea) :
  area_eq a b ->
  CropOverlay.clampArea videoWidth videoHeight a
  = CropOverlay.clampArea videoWidth videoHeight b.
Proof.
  intros (Ex & Ey & Ew & Eh). unfold CropOverlay.clampArea.
  now rewrite (Math_round_comp _ _ Ex), (Math_round_comp _ _ Ey),
              (Math_round_comp _ _ Ew), (Math_round_comp _ _ Eh).
Qed.

(** A region of whole pixels inside the frame is a fixed point of the
    clamp. *)
Lemma clampArea_fixed (videoWidth videoHeight : number) (a : CropArea) :
  pixel_region videoWidth videoHeight a ->
  area_eq (CropOverlay.clampArea videoWidth videoHeight a) a.
Proof.
  intros (Hb & Hx & Hy & Hw & Hh).
  apply Math_round_integral in Hx, Hy, Hw, Hh.
  revert Hb Hx Hy Hw Hh.
  unfold within_bounds, area_eq, CropOverlay.clampArea, CropOverlay.minSize; simpl.
  generalize (Math_round (x a)) (Math_round (y a))
             (Math_round (width a)) (Math_round (height a)).
  intros rx ry rw rh Hb Hx Hy Hw Hh.
  repeat split; minmax.
Qed.

(** X1: whatever rectangle it is given, [clampArea] returns one that
    satisfies the Rectangle invariant of a frame at least [minSize] wide
    and high, and one of whole pixels when the frame's sides are
    integers. *)
Theorem clampArea_establishes_region (videoWidth videoHeight : number) (a : CropArea) :
  CropOverlay.minSize <= videoWidth -> CropOverlay.minSize <= videoHeight ->
  within_bounds videoWidth videoHeight
    (CropOverlay.clampArea videoWidth videoHeight a) /\
  (integral videoWidth -> integral videoHeight ->
   pixel_region videoWidth videoHeight
     (CropOverlay.clampArea videoWidth videoHeight a)).
Proof.
  intros HW HH.
  pose proof (clampArea_within_bounds videoWidth videoHeight a HW HH) as Hb.
  split; [exact Hb|].
  intros IW IH. split; [exact Hb|].
  now apply clampArea_integral.
Qed.

(** A rectangle far outside and of fractional sides, clamped into the
    1920 x 1080 frame. *)
Lemma clampArea_establishes_region_witness :
  pixel_region 1920 1080
    (CropOverlay.clampArea 1920 1080
       {| x := - (7 # 2); y := 5000; width := 33 # 4; height := 99999 |}).
Proof.
  apply (clampArea_establishes_region 1920 1080);
    first [ discriminate | apply (integral_num 1920) | apply (integral_num 1080) ].
Defined.

(** X2: in a frame with integer sides, clamping twice gives what clamping
    once gives. *)
Theorem clampArea_idempotent (videoWidth videoHeight : number) (a : CropArea) :
  integral videoWidth -> integral videoHeight ->
  area_eq
    (CropOverlay.clampArea videoWidth videoHeight
       (CropOverlay.clampArea videoWidth videoHeight a))
    (CropOverlay.clampArea videoWidth videoHeight a).
Proof.
  intros IW IH.
  destruct (clampArea_integral videoWidth videoHeight a IW IH)
    as (Hx & Hy & Hw & Hh).
  apply Math_round_integral in Hx, Hy, Hw, Hh.
  revert Hx Hy Hw Hh.
  unfold area_eq, CropOverlay.clampArea, CropOverlay.minSize.
  cbv zeta. cbn [x y width height].
  generalize (Math_round (x a)) (Math_round (y a))
             (Math_round (width a)) (Math_round (height a)).
  intros rx ry rw rh.
  set (w1 := Math_max 20 (Math_min rw videoWidth)).
  set (h1 := Math_max 20 (Math_min rh videoHeight)).
  set (x1 := Math_max 0 (Math_min rx (videoWidth - w1))).
  set (y1 := Math_max 0 (Math_min ry (videoHeight - h1))).
  generalize (Math_round x1) (Math_round y1) (Math_round w1) (Math_round h1).
  intros qx qy qw qh Hx Hy Hw Hh.
  subst x1 y1 w1 h1.
  repeat split; minmax.
Qed.

(** The 1920 x 1080 frame. *)
Lemma clampArea_idempotent_witness :
  area_eq
    (CropOverlay.clampArea 1920 1080
       (CropOverlay.clampArea 1920 1080
          {| x := 1900; y := - (1 # 2); width := 700 # 3; height := 10 |}))
    (CropOverlay.clampArea 1920 1080
       {| x := 1900; y := - (1 # 2); width := 700 # 3; height := 10 |}).
Proof.
  apply (clampArea_idempotent 1920 1080);
    [apply (integral_num 1920) | apply (integral_num 1080)].
Defined.

(** ** Gestures on the crop box *)

Lemma pointer_delta (l : CropOverlay.Layout) (a b : number) :
  0 < CropOverlay.scale l ->
  (a - b) /? CropOverlay.scale l = Some ((a - b) / CropOverlay.scale l).
Proof. intros Hs. now apply div_pos. Qed.

Lemma handleMouseMove_defined (videoWidth videoHeight : number)
  (l : CropOverlay.Layout) (g : CropOverlay.Gesture) (clientX clientY : number) :
  0 < CropOverlay.scale l ->
  CropOverlay.initialArea g <> None ->
  CropOverlay.handleMouseMove videoWidth videoHeight l g clientX clientY
  = Some (CropOverlay.updateGesture videoWidth videoHeight g
            ((clientX - fst (CropOverlay.dragStart g)) / CropOverlay.scale l)
            ((clientY - snd (CropOverlay.dragStart g)) / CropOverlay.scale l)).
Proof.
  intros Hs Ha. unfold CropOverlay.handleMouseMove.
  destruct (CropOverlay.initialArea g); [|contradiction].
  rewrite !(pointer_delta l _ _ Hs). reflexivity.
Qed.

(** X3: moving a whole-pixel region that lies inside the frame never
    resizes it: the reported rectangle has the width and height of the
    one the gesture began with, and lies inside the frame. *)
Theorem crop_move_keeps_size (videoWidth videoHeight : number)
  (l : CropOverlay.Layout) (g : CropOverlay.Gesture) (a : CropArea)
  (clientX clientY : number) :
  0 < CropOverlay.scale l ->
  CropOverlay.initialArea g = Some a -> CropOverlay.dragging g = true ->
  pixel_region videoWidth videoHeight a ->
  exists r,
    CropOverlay.handleMouseMove videoWidth videoHeight l g clientX clientY
      = Some (Some r) /\
    width r == width a /\ height r == height a /\
    within_bounds videoWidth videoHeight r.
Proof.
  intros Hs Ha Hd (Hb & _ & _ & Hw & Hh).
  rewrite (handleMouseMove_defined _ _ _ _ _ _ Hs) by (rewrite Ha; discriminate).
  unfold CropOverlay.updateGesture. rewrite Ha, Hd.
  eexists. split; [reflexivity|].
  apply Math_round_integral in Hw, Hh.
  revert Hb Hw Hh.
  unfold within_bounds, CropOverlay.clampArea, CropOverlay.minSize.
  cbv zeta. cbn [x y width height].
  generalize (Math_round (width a)) (Math_round (height a)).
  generalize (Math_round (x a + (clientX - fst (CropOverlay.dragStart g))
                                / CropOverlay.scale l)).
  generalize (Math_round (y a + (clientY - snd (CropOverlay.dragStart g))
                                / CropOverlay.scale l)).
  intros ry rx rw rh Hb Hw Hh.
  repeat split; minmax.
Qed.

Lemma sample_region_pixels : pixel_region 1920 1080 Sample.region.
Proof.
  split.
  - unfold within_bounds, CropOverlay.minSize; simpl. repeat split; lra.
  - repeat split;
      first [ apply (integral_num 100) | apply (integral_num 0)
            | apply (integral_num 1000) | apply (integral_num 500) ].
Qed.

(** The sample region dragged far to the right at half scale. *)
Lemma crop_move_keeps_size_witness :
  exists r,
    CropOverlay.handleMouseMove 1920 1080 Sample.half_scale Sample.move_gesture
      2000 300 = Some (Some r) /\
    width r == 1000 /\ height r == 500 /\ within_bounds 1920 1080 r.
Proof.
  apply (crop_move_keeps_size 1920 1080 _ _ Sample.region);
    try reflexivity.
  exact sample_region_pixels.
Defined.

(** X4: a resize by the [e], [s] or [se] handle whose requested size, once
    rounded, is at least [minSize] and still fits between the region's
    corner and the frame's far edges keeps the corner where it is and
    gives exactly the rounded requested size. *)
Theorem crop_resize_keeps_corner (videoWidth videoHeight : number)
  (l : CropOverlay.Layout) (g : CropOverlay.Gesture) (a : CropArea)
  (h : CropOverlay.ResizeHandle) (clientX clientY : number) :
  let dx := (clientX - fst (CropOverlay.dragStart g)) / CropOverlay.scale l in
  let dy := (clientY - snd (CropOverlay.dragStart g)) / CropOverlay.scale l in
  let requested := CropOverlay.resizeBy h a dx dy in
  0 < CropOverlay.scale l ->
  CropOverlay.initialArea g = Some a -> CropOverlay.dragging g = false ->
  CropOverlay.resizing g = Some h ->
  h = CropOverlay.e \/ h = CropOverlay.s \/ h = CropOverlay.se ->
  integral (x a) -> integral (y a) -> 0 <= x a -> 0 <= y a ->
  CropOverlay.minSize <= Math_round (width requested) ->
  Math_round (width requested) <= videoWidth - x a ->
  CropOverlay.minSize <= Math_round (height requested) ->
  Math_round (height requested) <= videoHeight - y a ->
  exists r,
    CropOverlay.handleMouseMove videoWidth videoHeight l g clientX clientY
      = Some (Some r) /\
    x r == x a /\ y r == y a /\
    width r == Math_round (width requested) /\
    height r == Math_round (height requested).
Proof.
  intros dx dy requested Hs Ha Hd Hr Hh Ix Iy Hx0 Hy0 Hw1 Hw2 Hh1 Hh2.
  rewrite (handleMouseMove_defined _ _ _ _ _ _ Hs) by (rewrite Ha; discriminate).
  unfold CropOverlay.updateGesture. rewrite Ha, Hd, Hr.
  fold dx dy. fold requested.
  eexists. split; [reflexivity|].
  assert (Ex : x requested = x a) by (destruct Hh as [->|[->| ->]]; reflexivity).
  assert (Ey : y requested = y a) by (destruct Hh as [->|[->| ->]]; reflexivity).
  apply Math_round_integral in Ix, Iy.
  revert Hw1 Hw2 Hh1 Hh2.
  unfold CropOverlay.clampArea, CropOverlay.minSize.
  cbv zeta. cbn [x y width height]. rewrite Ex, Ey.
  revert Ix Iy.
  generalize (Math_round (x a)) (Math_round (y a))
             (Math_round (width requested)) (Math_round (height requested)).
  intros rx ry rw rh Ix Iy Hw1 Hw2 Hh1 Hh2.
  repeat split; minmax.
Qed.

(** The sample region resized by its [se] handle, 100 viewport pixels to
    the right and 50 down at half scale: 1200 x 600 at the same corner. *)
Lemma crop_resize_keeps_corner_witness :
  exists r,
    CropOverlay.handleMouseMove 1920 1080 Sample.half_scale Sample.se_gesture
      700 350 = Some (Some r) /\
    x r == 100 /\ y r == 0 /\ width r == 1200 /\ height r == 600.
Proof.
  destruct (crop_resize_keeps_corner 1920 1080 Sample.half_scale Sample.se_gesture
              Sample.region CropOverlay.se 700 350)
    as (r & Hr & Hx & Hy & Hw & Hh);
    try reflexivity; try discriminate.
  - right; right; reflexivity.
  - apply (integral_num 100).
  - apply (integral_num 0).
  - exists r. split; [exact Hr|].
    split; [exact Hx|]. split; [exact Hy|].
    split; [rewrite Hw | rewrite Hh]; vm_compute; reflexivity.
Defined.

Lemma resizeBy_zero (h : CropOverlay.ResizeHandle) (a : CropArea) (dx dy : number) :
  dx == 0 -> dy == 0 -> area_eq (CropOverlay.resizeBy h a dx dy) a.
Proof.
  intros Ex Ey. unfold area_eq.
  destruct h; simpl; repeat split; lra.
Qed.

Lemma zero_delta (l : CropOverlay.Layout) (c : number) :
  0 < CropOverlay.scale l -> (c - c) / CropOverlay.scale l == 0.
Proof. intros Hs. field. lra. Qed.

(** X5: pressing the pointer on the box or on one of its handles and
    moving it to where it was pressed reports the region unchanged, when
    the region is one of whole pixels inside the frame; and once the
    pointer is released, pointer moves report nothing. *)
Theorem crop_gesture_lifecycle (videoWidth videoHeight : number)
  (l : CropOverlay.Layout) (g0 : CropOverlay.Gesture) (a : CropArea)
  (handle : option CropOverlay.ResizeHandle) (clientX clientY : number) :
  0 < CropOverlay.scale l ->
  pixel_region videoWidth videoHeight a ->
  let pressed :=
    CropOverlay.handleMouseDown true (Some a) clientX clientY handle g0 in
  (exists r,
     CropOverlay.handleMouseMove videoWidth videoHeight l pressed clientX clientY
       = Some (Some r) /\ area_eq r a) /\
  (forall moveX moveY,
     CropOverlay.handleMouseMove videoWidth videoHeight l
       (CropOverlay.handleMouseUp pressed) moveX moveY = Some None).
Proof.
  intros Hs Ha pressed. split; [|reflexivity].
  assert (Hfix : forall b, area_eq b a ->
            area_eq (CropOverlay.clampArea videoWidth videoHeight b) a).
  { intros b Hb. rewrite (clampArea_comp _ _ _ _ Hb). now apply clampArea_fixed. }
  rewrite (handleMouseMove_defined _ _ _ _ _ _ Hs)
    by (subst pressed; destruct handle; discriminate).
  pose proof (zero_delta l clientX Hs) as Zx.
  pose proof (zero_delta l clientY Hs) as Zy.
  unfold CropOverlay.updateGesture.
  subst pressed. destruct handle as [h|]; cbn [CropOverlay.handleMouseDown
    CropOverlay.initialArea CropOverlay.dragging CropOverlay.resizing
    CropOverlay.dragStart fst snd].
  - destruct (CropOverlay.dragging g0).
    + eexists. split; [reflexivity|]. apply Hfix.
      unfold area_eq; cbn [x y width height]. repeat split; lra.
    + eexists. split; [reflexivity|]. apply Hfix.
      now apply resizeBy_zero.
  - eexists. split; [reflexivity|]. apply Hfix.
    unfold area_eq; cbn [x y width height]. repeat split; lra.
Qed.

(** The sample region pressed on its [nw] handle. *)
Lemma crop_gesture_lifecycle_witness :
  exists r,
    CropOverlay.handleMouseMove 1920 1080 Sample.half_scale
      (CropOverlay.handleMouseDown true (Some Sample.region) 50 0
         (Some CropOverlay.nw) Sample.move_gesture) 50 0 = Some (Some r) /\
    area_eq r Sample.region.
Proof.
  apply (crop_gesture_lifecycle 1920 1080 Sample.half_scale Sample.move_gesture
           Sample.region (Some CropOverlay.nw) 50 0).
  - reflexivity.
  - exact sample_region_pixels.
Defined.

(** X6: with no region yet, a click inside the rendered frame creates a
    region that satisfies the Rectangle invariant whenever the frame is at
    least 39 pixels wide and high; a click outside the rendered frame, a
    click while a region exists and a click on a disabled overlay create
    nothing. *)
Theorem click_creates_region (videoWidth videoHeight : number)
  (l : CropOverlay.Layout) (clickX clickY : number) :
  39 <= videoWidth -> 39 <= videoHeight ->
  (CropOverlay.offsetX l <= clickX <= CropOverlay.offsetX l + CropOverlay.displayWidth l ->
   CropOverlay.offsetY l <= clickY <= CropOverlay.offsetY l + CropOverlay.displayHeight l ->
   exists r,
     CropOverlay.handleOverlayClick true None videoWidth videoHeight l clickX clickY
       = Some r /\
     within_bounds videoWidth videoHeight r /\
     width r = Math_round (videoWidth / 2) /\
     height r = Math_round (videoHeight / 2)) /\
  (clickX < CropOverlay.offsetX l \/
   CropOverlay.offsetX l + CropOverlay.displayWidth l < clickX \/
   clickY < CropOverlay.offsetY l \/
   CropOverlay.offsetY l + CropOverlay.displayHeight l < clickY ->
   CropOverlay.handleOverlayClick true None videoWidth videoHeight l clickX clickY
     = None) /\
  (forall enabled a,
     CropOverlay.handleOverlayClick enabled (Some a) videoWidth videoHeight l
       clickX clickY = None) /\
  (forall cropArea,
     CropOverlay.handleOverlayClick false cropArea videoWidth videoHeight l
       clickX clickY = None).
Proof.
  intros HW HH. split; [|split; [|split]].
  - intros [Hx1 Hx2] [Hy1 Hy2].
    unfold CropOverlay.handleOverlayClick. cbn [negb orb].
    assert (E1 : lt clickX (CropOverlay.offsetX l) = false)
      by (apply (gt_false (CropOverlay.offsetX l) clickX); exact Hx1).
    assert (E2 : gt clickX (CropOverlay.offsetX l + CropOverlay.displayWidth l) = false)
      by (apply gt_false; exact Hx2).
    assert (E3 : lt clickY (CropOverlay.offsetY l) = false)
      by (apply (gt_false (CropOverlay.offsetY l) clickY); exact Hy1).
    assert (E4 : gt clickY (CropOverlay.offsetY l + CropOverlay.displayHeight l) = false)
      by (apply gt_false; exact Hy2).
    rewrite E1, E2, E3, E4. cbn [orb].
    eexists. split; [reflexivity|].
    split; [|split; reflexivity].
    unfold within_bounds, CropOverlay.minSize. cbn [x y width height].
    pose proof (Math_round_lower 20 (videoWidth / 2)) as Lw.
    pose proof (Math_round_lower 20 (videoHeight / 2)) as Lh.
    pose proof (Math_round_lower 0 ((videoWidth - videoWidth / 2) / 2)) as Lx.
    pose proof (Math_round_lower 0 ((videoHeight - videoHeight / 2) / 2)) as Ly.
    pose proof (Math_round_near (videoWidth / 2)) as [_ Uw].
    pose proof (Math_round_near (videoHeight / 2)) as [_ Uh].
    pose proof (Math_round_near ((videoWidth - videoWidth / 2) / 2)) as [_ Ux].
    pose proof (Math_round_near ((videoHeight - videoHeight / 2) / 2)) as [_ Uy].
    change (inject_Z 20) with 20 in *. change (inject_Z 0) with 0 in *.
    revert Lw Lh Lx Ly Uw Uh Ux Uy.
    generalize (Math_round (videoWidth / 2)) (Math_round (videoHeight / 2))
               (Math_round ((videoWidth - videoWidth / 2) / 2))
               (Math_round ((videoHeight - videoHeight / 2) / 2)).
    intros rw rh rx ry Lw Lh Lx Ly Uw Uh Ux Uy.
    assert (Ew : videoWidth / 2 == videoWidth * (1 # 2)) by (field).
    assert (Eh : videoHeight / 2 == videoHeight * (1 # 2)) by (field).
    assert (Ex : (videoWidth - videoWidth / 2) / 2 == videoWidth * (1 # 4)) by (field).
    assert (Ey : (videoHeight - videoHeight / 2) / 2 == videoHeight * (1 # 4)) by (field).
    rewrite Ew in Lw, Uw. rewrite Eh in Lh, Uh.
    rewrite Ex in Lx, Ux. rewrite Ey in Ly, Uy.
    repeat split; lra.
  - intros Hout. unfold CropOverlay.handleOverlayClick. cbn [negb orb].
    destruct Hout as [H|[H|[H|H]]].
    + apply lt_true in H. rewrite H. reflexivity.
    + apply gt_true in H. rewrite H. now rewrite orb_true_r.
    + apply lt_true in H. rewrite H. now rewrite !orb_true_r.
    + apply gt_true in H. rewrite H. now rewrite !orb_true_r.
  - intros enabled a. unfold CropOverlay.handleOverlayClick.
    now rewrite orb_true_r.
  - intros cropArea. reflexivity.
Qed.

(** A click in the middle of the 1920 x 1080 frame at half scale: the
    region 960 x 540 at (480, 270). *)
Lemma click_creates_region_witness :
  exists r,
    CropOverlay.handleOverlayClick true None 1920 1080 Sample.half_scale 480 270
      = Some r /\
    within_bounds 1920 1080 r /\ width r == 960 /\ height r == 540.
Proof.
  destruct (click_creates_region 1920 1080 Sample.half_scale 480 270)
    as (Hin & _); try discriminate.
  destruct Hin as (r & Hr & Hb & Hw & Hh);
    try (split; discriminate).
  exists r. split; [exact Hr|]. split; [exact Hb|].
  rewrite Hw, Hh. split; vm_compute; reflexivity.
Defined.

(** ** Sequences of crop edits *)

Lemma handleCropInputBlur_integral (m : VideoFile) (a r : CropArea)
  (field : PropertyPanel.Field) (input : option string) :
  integral (vwidth m) -> integral (vheight m) ->
  integral (x a) -> integral (y a) -> integral (width a) -> integral (height a) ->
  PropertyPanel.handleCropInputBlur (Some a) (Some m) field input = Some r ->
  integral (x r) /\ integral (y r) /\ integral (width r) /\ integral (height r).
Proof.
  intros IW IH Ix Iy Iw Ih. unfold PropertyPanel.handleCropInputBlur.
  destruct input as [[|c str]|]; try discriminate.
  destruct (PropertyPanel.parseInt _) as [parsed|]; [|discriminate].
  intros [= <-].
  destruct field; cbn [x y width height]; repeat split; try assumption;
    (apply integral_max;
     [first [apply (integral_num 0) | apply (integral_num 20)]
     | apply integral_min; [apply integral_round | now apply integral_sub]]).
Qed.

(** X7: starting from a region of whole pixels inside the primary's frame,
    any sequence of pointer updates of crop gestures and of committed
    numeric fields leaves a region of whole pixels inside the frame, the
    frame having integer sides of at least [minSize]. *)
Theorem crop_edits_keep_pixel_region (m : VideoFile) (eds : list CropEdit)
  (a : CropArea) :
  integral (vwidth m) -> integral (vheight m) ->
  CropOverlay.minSize <= vwidth m -> CropOverlay.minSize <= vheight m ->
  pixel_region (vwidth m) (vheight m) a ->
  pixel_region (vwidth m) (vheight m) (fold_left (crop_edit m) eds a).
Proof.
  intros IW IH HW HH. revert a.
  induction eds as [|ed eds IHeds]; intros a Ha; [exact Ha|].
  cbn [fold_left]. apply IHeds.
  destruct Ha as (Hb & Ix & Iy & Iw & Ih).
  split; [now apply crop_edit_within_bounds|].
  destruct ed as [g dx dy|field input]; cbn [crop_edit].
  - unfold CropOverlay.updateGesture.
    destruct (CropOverlay.initialArea g) as [a0|]; [|now repeat split].
    destruct (CropOverlay.dragging g);
      [now apply clampArea_integral|].
    destruct (CropOverlay.resizing g); [now apply clampArea_integral|].
    now repeat split.
  - destruct (PropertyPanel.handleCropInputBlur _ _ _ _) as [r|] eqn:E;
      [|now repeat split].
    eapply handleCropInputBlur_integral; eauto.
Qed.

(** The sample region resized past the right edge, then given the width
    5000 and the x position -3 in the panel. *)
Lemma crop_edits_keep_pixel_region_witness :
  pixel_region 1920 1080
    (fold_left (crop_edit Sample.primary)
       [PointerUpdate Sample.se_gesture 900 (7 # 3);
        FieldCommit PropertyPanel.fwidth "5000";
        FieldCommit PropertyPanel.fx "-3"]
       Sample.region).
Proof.
  apply (crop_edits_keep_pixel_region Sample.primary);
    first [ apply (integral_num 1920) | apply (integral_num 1080)
          | discriminate | exact sample_region_pixels ].
Defined.

(** ** Typed numbers *)

Lemma digits_seen (d : Decimal.uint) (acc : Z) :
  PropertyPanel.digits (NilEmpty.string_of_uint d) true acc
  = Some (digits_value d acc).
Proof.
  revert acc. induction d; intros acc; cbn [NilEmpty.string_of_uint digits_value];
    try reflexivity;
    (etransitivity; [|apply IHd]); reflexivity.
Qed.

Lemma digits_first (d : Decimal.uint) (acc : Z) :
  d <> Decimal.Nil ->
  PropertyPanel.digits (NilEmpty.string_of_uint d) false acc
  = Some (digits_value d acc).
Proof.
  intros Hd. destruct d; [contradiction|..];
    cbn [NilEmpty.string_of_uint digits_value];
    (etransitivity; [|apply digits_seen]); reflexivity.
Qed.

Lemma digits_value_spec (d : Decimal.uint) (acc : Z) :
  digits_value d acc
  = (Z.of_N (DecimalPos.Unsigned.of_lu (Decimal.rev d))
     + acc * 10 ^ Z.of_N (DecimalPos.Unsigned.usize d))%Z.
Proof.
  revert acc.
  induction d; intros acc;
    [cbn; lia|..];
    cbn [digits_value DecimalPos.Unsigned.usize]; rewrite IHd;
    unfold Decimal.rev at 2; cbn [Decimal.revapp];
    rewrite DecimalPos.Unsigned.of_lu_revapp;
    rewrite N2Z.inj_add, N2Z.inj_mul, N2Z.inj_pow, N2Z.inj_succ;
    rewrite Z.pow_succ_r by apply N2Z.is_nonneg;
    cbn [DecimalPos.Unsigned.of_lu];
    change (Z.of_N 10) with 10%Z;
    generalize (10 ^ Z.of_N (DecimalPos.Unsigned.usize d))%Z; intros P;
    generalize (Z.of_N (DecimalPos.Unsigned.of_lu (Decimal.rev d))); intros R;
    match goal with
    | |- context [Z.of_N ?n] =>
        let v := eval vm_compute in (Z.of_N n) in change (Z.of_N n) with v
    end;
    ring.
Qed.

Lemma to_uint_nonnil (k : N) : N.to_uint k <> Decimal.Nil.
Proof.
  destruct k; [discriminate|]. apply DecimalPos.Unsigned.to_uint_nonnil.
Qed.

Lemma parseInt_String (k : N) :
  PropertyPanel.parseInt (PropertyPanel.String_of_N k) = Some (inject_Z (Z.of_N k)).
Proof.
  unfold PropertyPanel.String_of_N.
  pose proof (to_uint_nonnil k) as Hd.
  assert (E : PropertyPanel.parseInt (NilEmpty.string_of_uint (N.to_uint k))
              = option_map inject_Z
                  (PropertyPanel.digits (NilEmpty.string_of_uint (N.to_uint k))
                     false 0%Z))
    by (destruct (N.to_uint k); reflexivity).
  rewrite E, (digits_first _ _ Hd), digits_value_spec. cbn [option_map].
  rewrite Z.mul_0_l, Z.add_0_r, <- DecimalPos.Unsigned.of_uint_alt.
  change (Pos.of_uint (N.to_uint k)) with (N.of_uint (N.to_uint k)).
  now rewrite DecimalN.Unsigned.of_to.
Qed.

Lemma String_nonempty (k : N) : PropertyPanel.String_of_N k <> EmptyString.
Proof.
  unfold PropertyPanel.String_of_N. pose proof (to_uint_nonnil k) as Hd.
  destruct (N.to_uint k); [contradiction|..]; discriminate.
Qed.

(** X8: the text of a natural number below 2^53, as the panel keeps it
    while a crop field is edited, parses back to that number; committing
    it sets the field to the number clamped into the field's range and
    keeps the three other fields. *)
Theorem crop_field_commit_round_trip (m : VideoFile) (a : CropArea)
  (field : PropertyPanel.Field) (k : N) :
  (k < 2 ^ 53)%N ->
  PropertyPanel.parseInt (PropertyPanel.String_of_N k) = Some (inject_Z (Z.of_N k)) /\
  PropertyPanel.handleCropInputBlur (Some a) (Some m) field
    (Some (PropertyPanel.String_of_N k))
  = Some (PropertyPanel.set_field field
            (Math_max (fst (crop_field_range m a field))
               (Math_min (inject_Z (Z.of_N k)) (snd (crop_field_range m a field))))
            a).
Proof.
  intros _. split; [apply parseInt_String|].
  unfold PropertyPanel.handleCropInputBlur.
  pose proof (String_nonempty k) as Hne.
  destruct (PropertyPanel.String_of_N k) as [|c str] eqn:Es; [contradiction|].
  rewrite <- Es, parseInt_String, Math_round_int.
  destruct field; reflexivity.
Qed.

(** The width 5000 typed for the sample region: clamped to 1820. *)
Lemma crop_field_commit_round_trip_witness :
  PropertyPanel.String_of_N 5000 = "5000"%string /\
  exists r,
    PropertyPanel.handleCropInputBlur (Some Sample.region) (Some Sample.primary)
      PropertyPanel.fwidth (Some (PropertyPanel.String_of_N 5000)) = Some r /\
    width r == 1820 /\ x r = 100.
Proof.
  split; [reflexivity|].
  destruct (crop_field_commit_round_trip Sample.primary Sample.region
              PropertyPanel.fwidth 5000 eq_refl) as [_ Hc].
  eexists. split; [exact Hc|]. split; vm_compute; reflexivity.
Defined.

(** ** The edit range *)

(** The clamp of a parsed value between two finite bounds, case by case:
    only NaN gets through it. *)
Lemma clamp_cases (lo hi : number) (parsed : xnumber) :
  xMath_max (Fin lo) (xMath_min parsed (Fin hi))
  = match parsed with
    | Fin v => Fin (Math_max lo (Math_min v hi))
    | PosInfinity => Fin (Math_max lo hi)
    | NegInfinity => Fin lo
    | NaN => NaN
    end.
Proof. destruct parsed; reflexivity. Qed.

(** X9: with a primary loaded, a start field whose text parses to
    anything but NaN commits a start in [0, endTime), the end time being
    positive, and an end field commits an end after the start time and,
    when the start time leaves room, not after the primary's end; a text
    that parses to NaN commits NaN as the start, or as the end.  A
    duration field whose text does not parse to a value above 0 (NaN
    included) changes nothing; otherwise it sets only the end, at most to
    the primary's end and after the start when the start is before
    that. *)
Theorem crop_time_commits (p : PropertyPanel.TimeProps) (m : VideoFile)
  (parsed : xnumber) :
  PropertyPanel.tp_mainVideo p = Some m ->
  (parsed <> NaN -> 0 < PropertyPanel.tp_endTime p ->
   exists t,
     PropertyPanel.handleStartTimeBlur p parsed
       = PropertyPanel.mkTimeChange (Some (Fin t)) None /\
     0 <= t /\ t < PropertyPanel.tp_endTime p) /\
  (parsed <> NaN ->
   exists t,
     PropertyPanel.handleEndTimeBlur p parsed
       = PropertyPanel.mkTimeChange None (Some (Fin t)) /\
     PropertyPanel.tp_startTime p < t /\
     (PropertyPanel.tp_startTime p + PropertyPanel.minGap <= duration m ->
      t <= duration m)) /\
  (PropertyPanel.handleStartTimeBlur p NaN
     = PropertyPanel.mkTimeChange (Some NaN) None /\
   PropertyPanel.handleEndTimeBlur p NaN
     = PropertyPanel.mkTimeChange None (Some NaN)) /\
  (xgt parsed (Fin 0) = false ->
   PropertyPanel.handleDurationBlur p parsed = PropertyPanel.noTimeChange) /\
  (xgt parsed (Fin 0) = true ->
   exists t,
     PropertyPanel.handleDurationBlur p parsed
       = PropertyPanel.mkTimeChange None (Some (Fin t)) /\
     t <= duration m /\
     (PropertyPanel.tp_startTime p < duration m -> PropertyPanel.tp_startTime p < t)).
Proof.
  intros Hm. split; [|split; [|split; [|split]]].
  - intros Hnan Hend. unfold PropertyPanel.handleStartTimeBlur.
    rewrite Hm, clamp_cases. unfold PropertyPanel.minGap.
    destruct parsed as [v| | |]; [| | |contradiction];
      eexists; (split; [reflexivity|]); split; minmax.
  - intros Hnan. unfold PropertyPanel.handleEndTimeBlur.
    rewrite Hm, clamp_cases. unfold PropertyPanel.minGap.
    destruct parsed as [v| | |]; [| | |contradiction];
      eexists; (split; [reflexivity|]); (split; [|intros Hroom]); minmax.
  - unfold PropertyPanel.handleStartTimeBlur, PropertyPanel.handleEndTimeBlur.
    rewrite Hm. split; reflexivity.
  - intros Hp. unfold PropertyPanel.handleDurationBlur. now rewrite Hm, Hp.
  - intros Hp. unfold PropertyPanel.handleDurationBlur. rewrite Hm, Hp.
    destruct parsed as [v| | |]; try discriminate;
      cbn [xadd xMath_min]; eexists; (split; [reflexivity|]).
    + cbn [xgt] in Hp. apply gt_true in Hp. split; [|intros Hroom]; minmax.
    + split; [lra | intros Hroom; exact Hroom].
Qed.

(** The range 10 s .. 25 s of the two-minute primary: a start typed as
    300 s is put at 24.9 s. *)
Lemma crop_time_commits_witness :
  exists t,
    PropertyPanel.handleStartTimeBlur
      (PropertyPanel.mkTimeProps (Some Sample.primary) None 10 25) (Fin 300)
      = PropertyPanel.mkTimeChange (Some (Fin t)) None /\
    0 <= t /\ t < 25.
Proof.
  destruct (crop_time_commits
              (PropertyPanel.mkTimeProps (Some Sample.primary) None 10 25)
              Sample.primary (Fin 300) eq_refl) as (Hstart & _).
  apply Hstart; [discriminate | reflexivity].
Defined.

(** X10: in merge mode, with a primary and a selected secondary of
    positive durations, a blank start field changes nothing; a text that
    parses to anything but NaN puts the start in [0, primary duration)
    and the end at min(start + secondary duration, primary duration),
    which lies after the start and not after the primary's end; a text
    that parses to NaN commits NaN as the start and as the end. *)
Theorem merge_start_commit (p : PropertyPanel.TimeProps) (m sel : VideoFile)
  (parsed : xnumber) :
  PropertyPanel.tp_mainVideo p = Some m ->
  PropertyPanel.tp_selectedMaterial p = Some sel ->
  0 < duration m -> 0 < duration sel ->
  PropertyPanel.handleMergeStartTimeBlur p true parsed = PropertyPanel.noTimeChange /\
  (parsed <> NaN ->
   exists s e,
     PropertyPanel.handleMergeStartTimeBlur p false parsed
       = PropertyPanel.mkTimeChange (Some (Fin s)) (Some (Fin e)) /\
     0 <= s /\ s < e /\ e <= duration m /\
     e == Qmin (s + duration sel) (duration m)) /\
  PropertyPanel.handleMergeStartTimeBlur p false NaN
    = PropertyPanel.mkTimeChange (Some NaN) (Some NaN).
Proof.
  intros Hm Hsel Hdm Hds.
  unfold PropertyPanel.handleMergeStartTimeBlur. rewrite Hm.
  split; [reflexivity|].
  assert (Hod : PropertyPanel.overlayDuration p = duration sel).
  { unfold PropertyPanel.overlayDuration. rewrite Hsel.
    apply or_number_nonzero. lra. }
  rewrite Hod.
  pose proof Hds as Hg. apply gt_true in Hg. rewrite Hg.
  split; [|reflexivity].
  intros Hnan. rewrite clamp_cases. unfold PropertyPanel.minGap.
  destruct parsed as [v| | |]; [| | |contradiction];
    cbn [xadd xMath_min]; eexists; eexists; (split; [reflexivity|]);
    repeat split; try reflexivity; minmax.
Qed.

(** The 15 s secondary on the two-minute primary, start typed as 110 s. *)
Lemma merge_start_commit_witness :
  exists s e,
    PropertyPanel.handleMergeStartTimeBlur
      (PropertyPanel.mkTimeProps (Some Sample.primary) (Some Sample.secondary) 10 25)
      false (Fin 110)
      = PropertyPanel.mkTimeChange (Some (Fin s)) (Some (Fin e)) /\
    0 <= s /\ s < e /\ e <= 120 /\ e == Qmin (s + 15) 120.
Proof.
  destruct (merge_start_commit
              (PropertyPanel.mkTimeProps (Some Sample.primary)
                 (Some Sample.secondary) 10 25)
              Sample.primary Sample.secondary (Fin 110)
              eq_refl eq_refl eq_refl eq_refl)
    as (_ & H & _).
  apply H. discriminate.
Defined.

(** X11: for a primary of at least 0.1 s, the S key puts the start of the
    range at the play position clamped into [0, primary duration - 0.1];
    in merge mode with a secondary of positive duration it also sets the
    end to min(start + secondary duration, primary duration), after the
    start.  The E key, in crop mode only, moves the end and leaves the
    start: the new end is not after the primary's end, and after the
    start when the start is before the primary's end; in merge mode it
    changes nothing.  A key typed into an input changes nothing. *)
Theorem range_shortcuts (st : Editor.State) (m : VideoFile) :
  Editor.mainVideo st = Some m ->
  (1 # 10) <= duration m ->
  let s := Editor.handleKeyDown false Editor.KeyS st in
  let e := Editor.handleKeyDown false Editor.KeyE st in
  (0 <= Editor.startTime s /\ Editor.startTime s <= duration m - (1 # 10)) /\
  (forall sel, Editor.mode st = merge -> Editor.selectedMaterial st = Some sel ->
     0 < duration sel ->
     Editor.startTime s < Editor.endTime s /\ Editor.endTime s <= duration m /\
     Editor.endTime s == Qmin (Editor.startTime s + duration sel) (duration m)) /\
  (Editor.mode st = crop ->
     Editor.startTime e = Editor.startTime st /\
     Editor.endTime e <= duration m /\
     (Editor.startTime st < duration m -> Editor.startTime e < Editor.endTime e)) /\
  (Editor.mode st = merge -> e = st) /\
  (forall code, Editor.handleKeyDown true code st = st).
Proof.
  intros Hm Hdur s e. subst s e.
  unfold Editor.handleKeyDown. rewrite Hm. cbn [negb].
  split; [|split; [|split; [|split]]].
  - destruct (Editor.mode st); [|destruct (Editor.selectedMaterial st)];
      cbn [Editor.setStartTime Editor.setEndTime Editor.startTime];
      split; minmax.
  - intros sel Hmode Hsel Hds. rewrite Hmode, Hsel.
    cbn [Editor.setStartTime Editor.setEndTime Editor.startTime Editor.endTime].
    repeat split; try reflexivity; minmax.
  - intros Hmode. rewrite Hmode. cbn [Editor.is_crop].
    cbn [Editor.setEndTime Editor.startTime Editor.endTime].
    split; [reflexivity|]. split; [|intros Hroom]; minmax.
  - intros Hmode. rewrite Hmode. reflexivity.
  - reflexivity.
Qed.

(** The sample editor at play position 10 s. *)
Lemma range_shortcuts_witness :
  let s := Editor.handleKeyDown false Editor.KeyS Sample.cropping in
  0 <= Editor.startTime s /\ Editor.startTime s <= 120 - (1 # 10).
Proof.
  apply (range_shortcuts Sample.cropping Sample.primary eq_refl).
  discriminate.
Defined.

(** X12: when the player reports the duration of the loaded video, the
    page stores it and the end of the range is never left beyond it: an
    end of zero or beyond the duration becomes the duration, any other
    end is kept; the start is not touched. *)
Theorem reported_duration_bounds_range (dur : number) (st : Editor.State) :
  let st' := Editor.handleDurationChange dur st in
  Editor.duration st' = dur /\
  Editor.endTime st' <= Editor.duration st' /\
  (Editor.endTime st == 0 \/ dur < Editor.endTime st ->
   Editor.endTime st' = dur) /\
  (~ Editor.endTime st == 0 -> Editor.endTime st <= dur ->
   Editor.endTime st' = Editor.endTime st) /\
  Editor.startTime st' = Editor.startTime st.
Proof.
  cbv zeta. unfold Editor.handleDurationChange.
  cbn [Editor.duration Editor.endTime Editor.startTime].
  split; [reflexivity|]. split; [|split; [|split; [|reflexivity]]].
  - destruct (Qeq_bool (Editor.endTime st) 0); cbn [orb]; [lra|].
    destruct (gt (Editor.endTime st) dur) eqn:Hg; [lra|].
    now apply gt_false in Hg.
  - intros [Hz|Hbig].
    + apply Qeq_bool_iff in Hz. now rewrite Hz.
    + apply gt_true in Hbig. rewrite Hbig. now rewrite orb_true_r.
  - intros Hnz Hle.
    destruct (Qeq_bool (Editor.endTime st) 0) eqn:Hz.
    + apply Qeq_bool_iff in Hz. contradiction.
    + cbn [orb]. apply gt_false in Hle. now rewrite Hle.
Qed.

(** The sample editor told that the video lasts 20 s: its end of 25 s is
    pulled back. *)
Lemma reported_duration_bounds_range_witness :
  Editor.endTime (Editor.handleDurationChange 20 Sample.cropping) = 20 /\
  Editor.endTime (Editor.handleDurationChange 200 Sample.cropping) = 25.
Proof.
  pose proof (reported_duration_bounds_range 20 Sample.cropping) as Hpull.
  pose proof (reported_duration_bounds_range 200 Sample.cropping) as Hkeep.
  cbv zeta in Hpull, Hkeep.
  destruct Hpull as (_ & _ & Hpull & _). destruct Hkeep as (_ & _ & _ & Hkeep & _).
  split.
  - apply Hpull. right. reflexivity.
  - apply Hkeep; discriminate.
Defined.

(** ** The library and the primary *)

Lemma on_delete (video : VideoFile) (st : Editor.State) :
  Editor.on (Editor.handleDeleteVideo video) st = Editor.handleDeleteVideo video st.
Proof.
  unfold Editor.on.
  destruct (Editor.dep_eqb _ _) eqn:E; [reflexivity|].
  unfold Editor.mainVideoEffect.
  cbn [Editor.handleDeleteVideo Editor.mainVideo].
  destruct (Editor.same_id (Editor.mainVideo st) video) eqn:Es; [reflexivity|].
  exfalso. revert E. unfold Editor.main_id.
  cbn [Editor.handleDeleteVideo Editor.mainVideo]. rewrite Es.
  now rewrite dep_eqb_refl.
Qed.

Lemma filter_fresh (video : VideoFile) (l : list VideoFile) :
  (forall u, In u l -> id u <> id video) ->
  filter (fun u => negb (String.eqb (id u) (id video))) l = l.
Proof.
  induction l as [|u l IH]; intros Hfresh; [reflexivity|].
  cbn [filter].
  destruct (String.eqb (id u) (id video)) eqn:E.
  - apply String.eqb_eq in E. exfalso. apply (Hfresh u); [now left | exact E].
  - cbn [negb]. f_equal. apply IH. intros w Hw. apply Hfresh. now right.
Qed.

(** X13: deleting an asset removes exactly the library entries of its id,
    clears the primary when it is the primary and the overlay state when
    it is the selected secondary, and touches neither the range nor the
    crop region.  Deleting an asset of fresh id right after its upload
    gives back the state before the upload when the upload began with a
    primary in place; when it began without one while a primary of
    another id is loaded by now, the two leave the page without a
    primary. *)
Theorem delete_removes_asset (video : VideoFile) (st : Editor.State) :
  let st' := Editor.on (Editor.handleDeleteVideo video) st in
  (forall u, In u (Editor.allVideos st') <->
             In u (Editor.allVideos st) /\ id u <> id video) /\
  (Editor.same_id (Editor.mainVideo st) video = true -> Editor.mainVideo st' = None) /\
  (Editor.same_id (Editor.mainVideo st) video = false ->
   Editor.mainVideo st' = Editor.mainVideo st) /\
  (Editor.same_id (Editor.selectedMaterial st) video = true ->
   Editor.selectedMaterial st' = None /\ Editor.overlayPosition st' = None) /\
  (Editor.startTime st' = Editor.startTime st /\
   Editor.endTime st' = Editor.endTime st /\
   Editor.cropArea st' = Editor.cropArea st) /\
  (forall seen, seen <> None ->
     (forall u, In u (Editor.allVideos st) -> id u <> id video) ->
     Editor.same_id (Editor.mainVideo st) video = false ->
     Editor.same_id (Editor.previewVideo st) video = false ->
     Editor.same_id (Editor.selectedMaterial st) video = false ->
     Editor.on (Editor.handleDeleteVideo video)
       (Editor.on (Editor.handleMainVideoUpload seen video) st) = st) /\
  (forall m, Editor.mainVideo st = Some m -> id m <> id video ->
     Editor.mainVideo
       (Editor.on (Editor.handleDeleteVideo video)
          (Editor.on (Editor.handleMainVideoUpload None video) st)) = None).
Proof.
  cbv zeta. rewrite on_delete.
  split; [|split; [|split; [|split; [|split; [|split]]]]].
  - intros u. cbn [Editor.handleDeleteVideo Editor.allVideos].
    rewrite filter_In, negb_true_iff.
    split; intros [Hin Hid]; split; try exact Hin.
    + intros E. rewrite E, String.eqb_refl in Hid. discriminate.
    + destruct (String.eqb (id u) (id video)) eqn:E; [|reflexivity].
      apply String.eqb_eq in E. contradiction.
  - intros E. cbn [Editor.handleDeleteVideo Editor.mainVideo]. now rewrite E.
  - intros E. cbn [Editor.handleDeleteVideo Editor.mainVideo]. now rewrite E.
  - intros E.
    cbn [Editor.handleDeleteVideo Editor.selectedMaterial Editor.overlayPosition].
    now rewrite E.
  - repeat split.
  - intros seen Hseen Hfresh Hmain Hprev Hsel.
    destruct seen as [c|]; [|contradiction].
    rewrite on_delete.
    rewrite on_same_primary by reflexivity.
    unfold Editor.handleDeleteVideo.
    cbn [Editor.handleMainVideoUpload Editor.allVideos Editor.mainVideo
         Editor.previewVideo Editor.selectedMaterial Editor.mode Editor.duration
         Editor.startTime Editor.endTime Editor.currentTime Editor.cropArea
         Editor.overlayPosition Editor.videoDisplaySize].
    rewrite (find_id_none video _ Hfresh), Hmain, Hprev, Hsel.
    cbn [filter]. rewrite String.eqb_refl. cbn [negb].
    rewrite (filter_fresh video _ Hfresh).
    destruct st; reflexivity.
  - intros m Hm Hid. rewrite on_delete.
    cbn [Editor.handleDeleteVideo Editor.mainVideo].
    destruct (on_frame (Editor.handleMainVideoUpload None video) st) as [_ ->].
    cbn [Editor.handleMainVideoUpload Editor.mainVideo Editor.same_id].
    now rewrite String.eqb_refl.
Qed.

(** A clip uploaded into the sample editor and deleted again. *)
Lemma delete_removes_asset_witness :
  Editor.on (Editor.handleDeleteVideo Sample.clip)
    (Editor.on (Editor.handleMainVideoUpload (Some Sample.primary) Sample.clip)
       Sample.cropping)
  = Sample.cropping.
Proof.
  destruct (delete_removes_asset Sample.clip Sample.cropping)
    as (_ & _ & _ & _ & _ & H & _).
  apply (H (Some Sample.primary)); try reflexivity; try discriminate.
  intros u [<-|[<-|[]]]; discriminate.
Defined.

(** X14: making an asset of another id the primary resets the range to
    the whole of it, clears crop region, overlay placement and selected
    secondary and previews it, leaving library and mode alone; replacing
    the primary by an asset of the same id resets nothing. *)
Theorem switching_primary_resets (video : VideoFile) (st : Editor.State) :
  let st' := Editor.on (Editor.handleSetMainVideo video) st in
  Editor.mainVideo st' = Some video /\
  Editor.allVideos st' = Editor.allVideos st /\
  Editor.mode st' = Editor.mode st /\
  (Editor.same_id (Editor.mainVideo st) video = false ->
   Editor.startTime st' = 0 /\ Editor.endTime st' = duration video /\
   Editor.duration st' = duration video /\
   Editor.cropArea st' = None /\ Editor.overlayPosition st' = None /\
   Editor.selectedMaterial st' = None /\ Editor.previewVideo st' = Some video) /\
  (Editor.same_id (Editor.mainVideo st) video = true ->
   st' = Editor.handleSetMainVideo video st).
Proof.
  cbv zeta. unfold Editor.on, Editor.main_id.
  cbn [Editor.handleSetMainVideo Editor.mainVideo option_map].
  destruct (Editor.mainVideo st) as [m|] eqn:Hm;
    cbn [option_map Editor.dep_eqb Editor.same_id].
  - destruct (String.eqb (id m) (id video)) eqn:E.
    + repeat split; discriminate.
    + unfold Editor.mainVideoEffect. cbn. repeat split; discriminate.
  - unfold Editor.mainVideoEffect. cbn. repeat split; discriminate.
Qed.

(** The secondary made primary of the sample editor. *)
Lemma switching_primary_resets_witness :
  let st' := Editor.on (Editor.handleSetMainVideo Sample.secondary) Sample.cropping in
  Editor.startTime st' = 0 /\ Editor.endTime st' = 15 /\
  Editor.cropArea st' = None /\ Editor.previewVideo st' = Some Sample.secondary.
Proof.
  cbv zeta.
  destruct (switching_primary_resets Sample.secondary Sample.cropping)
    as (_ & _ & _ & Hreset & _).
  destruct (Hreset eq_refl) as (Hs & He & _ & Hc & _ & _ & Hp).
  repeat split; assumption.
Defined.

(** ** What every state of the page satisfies *)

Lemma invariant_core (st : Editor.State) :
  session_invariant st <-> session_core st /\ secondary_is_not_primary st.
Proof. unfold session_invariant, session_core. tauto. Qed.

Lemma same_overlay_state_refl (st : Editor.State) : same_overlay_state st st.
Proof. repeat split. Qed.

Lemma same_overlay_state_invariant (st st' : Editor.State) :
  same_overlay_state st st' -> session_invariant st -> session_invariant st'.
Proof.
  intros (Hm & Hv & Hs & Ho & Ht).
  unfold session_invariant, overlay_state_only_in_merge, placement_has_secondary,
    secondary_is_not_primary.
  rewrite Hm, Hv, Hs, Ho, Ht. tauto.
Qed.

(** The effect of a changed primary re-establishes the whole invariant
    from its core. *)
Lemma mainVideoEffect_invariant (st : Editor.State) :
  session_core st ->
  session_invariant (Editor.mainVideoEffect st).
Proof.
  intros (H1 & H2 & H3). unfold Editor.mainVideoEffect.
  destruct (Editor.mainVideo st) as [m|] eqn:Hm.
  - unfold session_invariant, overlay_state_only_in_merge, placement_has_secondary,
      secondary_is_not_primary. cbn.
    split; [intros _; split; reflexivity|].
    split; [intros H; now contradiction H|].
    split; [intros m' sel _ Hsel; discriminate | lra].
  - split; [exact H1|]. split; [exact H2|]. split; [|exact H3].
    intros m sel Hm'. congruence.
Qed.

Lemma on_invariant (handler : Editor.State -> Editor.State) (st : Editor.State) :
  session_core (handler st) ->
  (Editor.dep_eqb (Editor.main_id st) (Editor.main_id (handler st)) = true ->
   secondary_is_not_primary (handler st)) ->
  session_invariant (Editor.on handler st).
Proof.
  intros Hc H3. unfold Editor.on.
  destruct (Editor.dep_eqb _ _).
  - apply invariant_core. split; [exact Hc | now apply H3].
  - now apply mainVideoEffect_invariant.
Qed.

Lemma on_same_overlay_state (handler : Editor.State -> Editor.State)
  (st : Editor.State) :
  same_overlay_state st (handler st) -> session_invariant st ->
  session_invariant (Editor.on handler st).
Proof.
  intros Hsame Hinv.
  pose proof (same_overlay_state_invariant _ _ Hsame Hinv) as Hinv'.
  rewrite on_same_primary by apply Hsame. exact Hinv'.
Qed.

Lemma setCropArea_same (a : option CropArea) (st : Editor.State) :
  same_overlay_state st (Editor.setCropArea a st).
Proof. repeat split. Qed.

Lemma setEndTime_same (t : number) (st : Editor.State) :
  same_overlay_state st (Editor.setEndTime t st).
Proof. repeat split. Qed.

Lemma handleDrop_merge (mode : EditorMode) (video : option VideoFile)
  (videoId : string) (dropX dropY : number) (sz : number * number)
  (draggedVideo : option VideoFile) (dv : VideoFile) (pos : OverlayPosition) :
  VideoPlayer.handleDrop mode video videoId dropX dropY sz draggedVideo
    = Some (Some (dv, pos)) ->
  mode = merge.
Proof.
  unfold VideoPlayer.handleDrop. destruct mode; [|reflexivity].
  discriminate.
Qed.

Lemma fold_setOverlayPosition (l : list OverlayPosition) (st : Editor.State) :
  let st' := fold_left (fun s q => Editor.setOverlayPosition (Some q) s) l st in
  Editor.mode st' = Editor.mode st /\
  Editor.mainVideo st' = Editor.mainVideo st /\
  Editor.selectedMaterial st' = Editor.selectedMaterial st /\
  Editor.startTime st' = Editor.startTime st /\
  (Editor.overlayPosition st <> None -> Editor.overlayPosition st' <> None).
Proof.
  cbv zeta. revert st. induction l as [|q l IH]; intros st; cbn [fold_left].
  - repeat split. auto.
  - destruct (IH (Editor.setOverlayPosition (Some q) st)) as (H1 & H2 & H3 & H4 & H5).
    rewrite H1, H2, H3, H4. repeat split.
    intros _. apply H5. discriminate.
Qed.

Lemma string_neq_sym (a b : string) : String.eqb a b = false -> b <> a.
Proof. intros E H. subst. rewrite String.eqb_refl in E. discriminate. Qed.

Lemma on_keep_primary (handler : Editor.State -> Editor.State) (st : Editor.State) :
  Editor.mainVideo (handler st) = Editor.mainVideo st ->
  overlay_state_only_in_merge (handler st) ->
  placement_has_secondary (handler st) ->
  (forall m sel, Editor.mainVideo st = Some m ->
                 Editor.selectedMaterial (handler st) = Some sel -> id sel <> id m) ->
  0 <= Editor.startTime (handler st) ->
  session_invariant (Editor.on handler st).
Proof.
  intros Hm H1 H2 H3 H4. rewrite on_same_primary by exact Hm.
  split; [exact H1|]. split; [exact H2|]. split; [|exact H4].
  intros m sel Hm'. rewrite Hm in Hm'. now apply H3.
Qed.

Ltac invariant_parts H :=
  destruct H as (Hcrop & Hplace & Hself & Hstart);
  unfold overlay_state_only_in_merge, placement_has_secondary,
    secondary_is_not_primary in *.

(** Read the fields of a state a handler has just built. *)
Ltac fields :=
  cbn [Editor.mode Editor.mainVideo Editor.selectedMaterial
       Editor.overlayPosition Editor.startTime Editor.endTime
       Editor.handleMainVideoUpload Editor.handleSetMainVideo
       Editor.handleVideoExported Editor.handleModeChange
       Editor.handleOverlayRemove Editor.setCropArea Editor.setOverlayPosition
       Editor.setStartTime Editor.setEndTime Editor.setCurrentTime
       Editor.setVideoDisplaySize Editor.handleDurationChange
       Editor.handlePreviewVideo Editor.handleDeleteVideo] in *.

Ltac core_goal :=
  unfold session_core, overlay_state_only_in_merge, placement_has_secondary;
  cbv beta; fields.

Lemma upload_invariant (seen : option VideoFile) (v : VideoFile)
  (st : Editor.State) :
  session_invariant st ->
  session_invariant (Editor.on (Editor.handleMainVideoUpload seen v) st).
Proof.
  intros Hinv. apply on_invariant.
  - invariant_parts Hinv. core_goal. tauto.
  - unfold Editor.main_id.
    cbn [Editor.handleMainVideoUpload Editor.mainVideo].
    invariant_parts Hinv.
    destruct seen as [c|].
    + intros _ m' sel. cbn [Editor.handleMainVideoUpload Editor.mainVideo
                            Editor.selectedMaterial].
      apply Hself.
    + destruct (Editor.mainVideo st) as [m|] eqn:Hm; [|discriminate].
      cbn [option_map Editor.dep_eqb]. intros E. apply String.eqb_eq in E.
      intros m' sel. cbn [Editor.handleMainVideoUpload Editor.mainVideo
                          Editor.selectedMaterial].
      intros [= <-] Hsel. rewrite <- E. now apply (Hself m sel).
Qed.

Lemma setMain_invariant (v : VideoFile) (st : Editor.State) :
  session_invariant st ->
  session_invariant (Editor.on (Editor.handleSetMainVideo v) st).
Proof.
  intros Hinv. apply on_invariant.
  - invariant_parts Hinv. core_goal. tauto.
  - unfold Editor.main_id.
    cbn [Editor.handleSetMainVideo Editor.mainVideo option_map].
    invariant_parts Hinv.
    destruct (Editor.mainVideo st) as [m|] eqn:Hm; [|discriminate].
    cbn [option_map Editor.dep_eqb]. intros E. apply String.eqb_eq in E.
    intros m' sel. cbn [Editor.handleSetMainVideo Editor.mainVideo
                        Editor.selectedMaterial].
    intros [= <-] Hsel. rewrite <- E. now apply (Hself m sel).
Qed.

Lemma select_invariant (v : VideoFile) (pos : option OverlayPosition)
  (st st' : Editor.State) :
  session_invariant st ->
  Editor.mode st = merge ->
  Editor.same_id (Editor.mainVideo st) v = false ->
  Editor.mode st' = Editor.mode st -> Editor.mainVideo st' = Editor.mainVideo st ->
  Editor.startTime st' = Editor.startTime st ->
  Editor.selectedMaterial st' = Some v ->
  session_invariant st'.
Proof.
  intros Hinv Hmerge Hid Hmode Hmain Hstart' Hsel.
  invariant_parts Hinv.
  split; [|split; [|split]].
  - unfold overlay_state_only_in_merge. rewrite Hmode, Hmerge. discriminate.
  - unfold placement_has_secondary. rewrite Hsel. discriminate.
  - unfold secondary_is_not_primary. rewrite Hmain, Hsel.
    intros m sel Hm [= <-]. rewrite Hm in Hid. cbn in Hid.
    now apply string_neq_sym.
  - now rewrite Hstart'.
Qed.

Lemma handleMaterialSelect_primary (v : VideoFile) (st : Editor.State) :
  Editor.mainVideo (Editor.handleMaterialSelect v st) = Editor.mainVideo st.
Proof.
  unfold Editor.handleMaterialSelect.
  destruct (negb _ && negb _); reflexivity.
Qed.

Lemma delete_invariant (v : VideoFile) (st : Editor.State) :
  session_invariant st ->
  session_invariant (Editor.on (Editor.handleDeleteVideo v) st).
Proof.
  intros Hinv. rewrite on_delete. invariant_parts Hinv.
  unfold session_invariant, overlay_state_only_in_merge, placement_has_secondary,
    secondary_is_not_primary.
  cbn [Editor.handleDeleteVideo Editor.mode Editor.mainVideo
       Editor.selectedMaterial Editor.overlayPosition Editor.startTime].
  destruct (Editor.same_id (Editor.selectedMaterial st) v);
    destruct (Editor.same_id (Editor.mainVideo st) v);
    repeat split; try assumption; try discriminate; try tauto;
    try (intros; now apply Hcrop); eauto.
Qed.

(** A stored time change leaves everything but the range, and the start
    it stores is the finite one the handler passed. *)
Lemma applyTimeChange_fields (c : PropertyPanel.TimeChange) (st st' : Editor.State) :
  Session.applyTimeChange c st = Some st' ->
  Editor.mode st' = Editor.mode st /\
  Editor.mainVideo st' = Editor.mainVideo st /\
  Editor.selectedMaterial st' = Editor.selectedMaterial st /\
  Editor.overlayPosition st' = Editor.overlayPosition st /\
  (Editor.startTime st' = Editor.startTime st \/
   PropertyPanel.newStartTime c = Some (Fin (Editor.startTime st'))).
Proof.
  unfold Session.applyTimeChange, Session.storeStartTime, Session.storeEndTime.
  destruct (PropertyPanel.newStartTime c) as [[t| | |]|];
    destruct (PropertyPanel.newEndTime c) as [[u| | |]|];
    cbn [bind Monad_option]; try discriminate; intros [= <-];
    repeat split; auto.
Qed.

(** A handler that only moves the start of the range, and not before 0. *)
Lemma start_update_invariant (st st' : Editor.State) :
  session_invariant st ->
  Editor.mode st' = Editor.mode st -> Editor.mainVideo st' = Editor.mainVideo st ->
  Editor.selectedMaterial st' = Editor.selectedMaterial st ->
  Editor.overlayPosition st' = Editor.overlayPosition st ->
  0 <= Editor.startTime st' ->
  session_invariant st'.
Proof.
  intros Hinv Hm Hv Hs Ho Ht. invariant_parts Hinv.
  unfold session_invariant, overlay_state_only_in_merge, placement_has_secondary,
    secondary_is_not_primary.
  rewrite Hm, Hv, Hs, Ho. tauto.
Qed.

Lemma time_change_invariant (c : PropertyPanel.TimeChange) (st st' : Editor.State) :
  session_invariant st ->
  (forall t, PropertyPanel.newStartTime c = Some (Fin t) -> 0 <= t) ->
  Session.applyTimeChange c st = Some st' ->
  session_invariant st'.
Proof.
  intros Hinv Hc Happ.
  destruct (applyTimeChange_fields c st st' Happ) as (Hm & Hv & Hs & Ho & Ht).
  apply (start_update_invariant st); try assumption.
  destruct Ht as [-> | Ht]; [apply Hinv | now apply Hc].
Qed.

(** No time handler passes a finite start below 0. *)
Lemma time_handlers_start (p : PropertyPanel.TimeProps) (blank : bool)
  (parsed : xnumber) (t : number) :
  (PropertyPanel.newStartTime (PropertyPanel.handleStartTimeBlur p parsed)
     = Some (Fin t) -> 0 <= t) /\
  (PropertyPanel.newStartTime (PropertyPanel.handleEndTimeBlur p parsed)
     = Some (Fin t) -> 0 <= t) /\
  (PropertyPanel.newStartTime (PropertyPanel.handleDurationBlur p parsed)
     = Some (Fin t) -> 0 <= t) /\
  (PropertyPanel.newStartTime
     (PropertyPanel.handleMergeStartTimeBlur p blank parsed) = Some (Fin t) ->
   0 <= t).
Proof.
  unfold PropertyPanel.handleStartTimeBlur, PropertyPanel.handleEndTimeBlur,
    PropertyPanel.handleDurationBlur, PropertyPanel.handleMergeStartTimeBlur.
  destruct (PropertyPanel.tp_mainVideo p) as [m|];
    [|repeat split; discriminate].
  split; [|split; [|split]].
  - cbn [PropertyPanel.newStartTime]. rewrite clamp_cases.
    destruct parsed; intros [= <-]; minmax.
  - discriminate.
  - destruct (xgt parsed (Fin 0)); discriminate.
  - destruct blank; [discriminate|].
    cbn [PropertyPanel.newStartTime]. rewrite clamp_cases.
    destruct parsed; intros [= <-]; minmax.
Qed.

Lemma overlay_set_invariant (q : OverlayPosition) (st : Editor.State) :
  session_invariant st ->
  Editor.mode st = merge -> Editor.selectedMaterial st <> None ->
  session_invariant (Editor.setOverlayPosition (Some q) st).
Proof.
  intros Hinv Hmode Hsel. invariant_parts Hinv.
  unfold session_invariant, overlay_state_only_in_merge, placement_has_secondary,
    secondary_is_not_primary. fields.
  rewrite Hmode. repeat split; try discriminate; try assumption.
  intros _. exact Hsel.
Qed.

Lemma handleKeyDown_invariant (inInput : bool) (code : Editor.KeyCode)
  (st : Editor.State) :
  session_invariant st -> session_invariant (Editor.handleKeyDown inInput code st).
Proof.
  intros Hinv. unfold Editor.handleKeyDown.
  destruct inInput; [exact Hinv|].
  destruct (Editor.mainVideo st) as [m|] eqn:Hm; [|exact Hinv].
  destruct code; [| |exact Hinv].
  - destruct (Editor.mode st) eqn:Hmode;
      [|destruct (Editor.selectedMaterial st) eqn:Hsel];
      apply (start_update_invariant st); fields; try assumption;
      try reflexivity; minmax.
  - destruct (Editor.is_crop (Editor.mode st)); [|exact Hinv].
    apply (same_overlay_state_invariant st); [apply setEndTime_same | exact Hinv].
Qed.

Lemma handleKeyDown_primary (inInput : bool) (code : Editor.KeyCode)
  (st : Editor.State) :
  Editor.mainVideo (Editor.handleKeyDown inInput code st) = Editor.mainVideo st.
Proof.
  unfold Editor.handleKeyDown.
  destruct inInput; [reflexivity|].
  destruct (Editor.mainVideo st) as [m|] eqn:Hm; [|now rewrite Hm].
  destruct code; [| |exact Hm].
  - destruct (Editor.mode st); [|destruct (Editor.selectedMaterial st)]; exact Hm.
  - destruct (Editor.is_crop (Editor.mode st)); exact Hm.
Qed.

(** Read the outcome [H : ... = Some st'] of a handler: take its tests
    apart, outermost first, and name the state it returns. *)
Ltac outcome H :=
  cbn [bind ret Monad_option] in H;
  repeat (first
    [ discriminate H
    | match type of H with
      | (match ?c with _ => _ end) = Some _ =>
          destruct c eqn:?; cbn [bind ret Monad_option] in H
      end ]);
  try (injection H as <-).

Lemma handler_primary (ev : Session.Event) (st st' : Editor.State) :
  keeps_primary ev = true ->
  Session.handler ev st = Some st' ->
  Editor.mainVideo st' = Editor.mainVideo st.
Proof.
  destruct ev; try discriminate; intros _ H; unfold Session.handler in H.
  - (* Select *)
    injection H as <-. apply handleMaterialSelect_primary.
  - (* Preview *)
    injection H as <-. reflexivity.
  - (* DurationChange *)
    outcome H; fields; solve [reflexivity | assumption | congruence].
  - (* TimeUpdate *)
    outcome H; fields; solve [reflexivity | assumption | congruence].
  - (* VideoSizeChange *)
    outcome H; fields; solve [reflexivity | assumption | congruence].
  - (* Drop *)
    destruct (Editor.mainVideo st) eqn:Hm; [|now injection H as <-].
    cbn [bind Monad_option] in H.
    destruct (VideoPlayer.handleDrop _ _ _ _ _ _ _) as [[[dv pos]|]|];
      [| |discriminate H]; injection H as <-; [|exact Hm].
    unfold Editor.handleOverlayDrop. destruct (negb _); exact Hm.
  - (* OverlayRemove *)
    outcome H; fields; solve [reflexivity | assumption | congruence].
  - (* OverlayPointer *)
    destruct (Editor.mainVideo st) eqn:Hm; [|now injection H as <-].
    destruct (Editor.displayVideo st); [|now injection H as <-].
    destruct (Editor.mode st); [now injection H as <-|].
    destruct (Editor.selectedMaterial st); [|now injection H as <-].
    destruct (Editor.overlayPosition st); [|now injection H as <-].
    destruct (gt _ _); [|now injection H as <-].
    cbn [bind Monad_option] in H.
    destruct (OverlayVideo.handleMouseMove _ _ _ _ _ _) as [l|]; [|discriminate H].
    injection H as <-. rewrite <- Hm. apply (fold_setOverlayPosition l st).
  - (* CropPointer *)
    outcome H; fields; solve [reflexivity | assumption | congruence].
  - (* CropClick *)
    outcome H; fields; solve [reflexivity | assumption | congruence].
  - (* ModeChange *)
    outcome H; fields; solve [reflexivity | assumption | congruence].
  - (* StartBlur *)
    destruct (Editor.is_crop _); [|now injection H as <-].
    now apply applyTimeChange_fields in H.
  - (* EndBlur *)
    destruct (Editor.is_crop _); [|now injection H as <-].
    now apply applyTimeChange_fields in H.
  - (* DurationBlur *)
    destruct (Editor.is_crop _); [|now injection H as <-].
    now apply applyTimeChange_fields in H.
  - (* MergeStartBlur *)
    destruct (Editor.is_crop _); [now injection H as <-|].
    now apply applyTimeChange_fields in H.
  - (* CropField *)
    outcome H; fields; solve [reflexivity | assumption | congruence].
  - (* CropReset *)
    outcome H; fields; solve [reflexivity | assumption | congruence].
  - (* OverlayField *)
    outcome H; fields; solve [reflexivity | assumption | congruence].
  - (* Exported *)
    injection H as <-. reflexivity.
  - (* KeyDown *)
    injection H as <-. apply handleKeyDown_primary.
Qed.

Lemma handler_invariant (ev : Session.Event) (st st' : Editor.State) :
  keeps_primary ev = true ->
  Session.handler ev st = Some st' ->
  session_invariant st -> session_invariant st'.
Proof.
  destruct ev; try discriminate; intros _ H Hinv; unfold Session.handler in H.
  - (* Select *)
    injection H as <-. unfold Editor.handleMaterialSelect.
    destruct (negb (Editor.is_crop (Editor.mode st))) eqn:Hmode; cbn [andb];
      [|exact Hinv].
    destruct (negb (Editor.same_id (Editor.mainVideo st) v)) eqn:Hid;
      [|exact Hinv].
    apply negb_true_iff in Hid.
    apply (select_invariant v None st); try reflexivity; try assumption.
    destruct (Editor.mode st); [discriminate | reflexivity].
  - (* Preview *)
    injection H as <-. exact Hinv.
  - (* DurationChange *)
    outcome H; exact Hinv.
  - (* TimeUpdate *)
    outcome H; exact Hinv.
  - (* VideoSizeChange *)
    outcome H; exact Hinv.
  - (* Drop *)
    destruct (Editor.mainVideo st) eqn:Hm; [|now injection H as <-].
    cbn [bind Monad_option] in H.
    destruct (VideoPlayer.handleDrop _ _ _ _ _ _ _) as [[[dv pos]|]|] eqn:Hd;
      [| |discriminate H]; injection H as <-; [|exact Hinv].
    apply handleDrop_merge in Hd.
    unfold Editor.handleOverlayDrop.
    destruct (negb (Editor.same_id (Editor.mainVideo st) dv)) eqn:Hid;
      [|exact Hinv].
    apply negb_true_iff in Hid.
    apply (select_invariant dv None st); try reflexivity; assumption.
  - (* OverlayRemove *)
    destruct (Editor.mainVideo st); [|now injection H as <-].
    destruct (Editor.mode st); [now injection H as <-|].
    destruct (Editor.selectedMaterial st); [|now injection H as <-].
    destruct (Editor.overlayPosition st); [|now injection H as <-].
    destruct (gt _ _); injection H as <-; [|exact Hinv].
    invariant_parts Hinv.
    unfold session_invariant, overlay_state_only_in_merge, placement_has_secondary,
      secondary_is_not_primary. fields.
    repeat split; try assumption; try discriminate.
    intros H; now contradiction H.
  - (* OverlayPointer *)
    destruct (Editor.mainVideo st) eqn:Hm; [|now injection H as <-].
    destruct (Editor.displayVideo st); [|now injection H as <-].
    destruct (Editor.mode st) eqn:Hmode; [now injection H as <-|].
    destruct (Editor.selectedMaterial st) eqn:Hsel; [|now injection H as <-].
    destruct (Editor.overlayPosition st) eqn:Hpos; [|now injection H as <-].
    destruct (gt _ _); [|now injection H as <-].
    cbn [bind Monad_option] in H.
    destruct (OverlayVideo.handleMouseMove _ _ _ _ _ _) as [l|]; [|discriminate H].
    injection H as <-.
    destruct (fold_setOverlayPosition l st) as (F1 & F2 & F3 & F4 & F5).
    invariant_parts Hinv.
    unfold session_invariant, overlay_state_only_in_merge, placement_has_secondary,
      secondary_is_not_primary.
    rewrite F1, F2, F3, F4, Hmode, Hsel, Hm.
    repeat split; try discriminate; try assumption.
    intros m sel [= <-] [= <-]. apply (Hself v v1); [exact Hm | exact Hsel].
  - (* CropPointer *)
    outcome H; exact Hinv.
  - (* CropClick *)
    outcome H; exact Hinv.
  - (* ModeChange *)
    destruct (Editor.mainVideo st); injection H as <-; [|exact Hinv].
    invariant_parts Hinv.
    unfold session_invariant, overlay_state_only_in_merge, placement_has_secondary,
      secondary_is_not_primary. fields.
    destruct m; cbn [Editor.is_crop];
      repeat split; try assumption; try discriminate.
    intros H; now contradiction H.
  - (* StartBlur *)
    destruct (Editor.is_crop _); [|now injection H as <-].
    apply (time_change_invariant _ _ _ Hinv) in H; [exact H|].
    intros t. apply (time_handlers_start (Session.timeProps st) false parsed t).
  - (* EndBlur *)
    destruct (Editor.is_crop _); [|now injection H as <-].
    apply (time_change_invariant _ _ _ Hinv) in H; [exact H|].
    intros t. apply (time_handlers_start (Session.timeProps st) false parsed t).
  - (* DurationBlur *)
    destruct (Editor.is_crop _); [|now injection H as <-].
    apply (time_change_invariant _ _ _ Hinv) in H; [exact H|].
    intros t. apply (time_handlers_start (Session.timeProps st) false parsed t).
  - (* MergeStartBlur *)
    destruct (Editor.is_crop _); [now injection H as <-|].
    apply (time_change_invariant _ _ _ Hinv) in H; [exact H|].
    intros t. apply (time_handlers_start (Session.timeProps st) blank parsed t).
  - (* CropField *)
    outcome H; exact Hinv.
  - (* CropReset *)
    outcome H; exact Hinv.
  - (* OverlayField *)
    destruct (Editor.mode st) eqn:Hmode; [now injection H as <-|].
    destruct (Editor.selectedMaterial st) eqn:Hsel; [|now injection H as <-].
    destruct (PropertyPanel.handleOverlayChange _ _ _ _);
      injection H as <-; [|exact Hinv].
    apply overlay_set_invariant; [exact Hinv | exact Hmode |].
    rewrite Hsel. discriminate.
  - (* Exported *)
    injection H as <-. exact Hinv.
  - (* KeyDown *)
    injection H as <-. now apply handleKeyDown_invariant.
Qed.

Lemma initial_invariant : session_invariant Editor.initial.
Proof.
  unfold session_invariant, overlay_state_only_in_merge, placement_has_secondary,
    secondary_is_not_primary. cbn.
  repeat split; try discriminate. intros H; now contradiction H.
Qed.

Lemma step_invariant (st st' : Editor.State) (ev : Session.Event) :
  Session.step st ev = Some st' ->
  session_invariant st -> session_invariant st'.
Proof.
  unfold Session.step. cbn [bind Monad_option].
  destruct (Session.handler ev st) as [h|] eqn:Hh; [|discriminate].
  intros [= <-] Hinv. destruct (keeps_primary ev) eqn:Hk.
  - rewrite on_same_primary by (apply (handler_primary ev); assumption).
    now apply (handler_invariant ev st).
  - destruct ev; try discriminate; cbn [Session.handler] in Hh;
      injection Hh as <-.
    + now apply upload_invariant.
    + now apply setMain_invariant.
    + now apply delete_invariant.
Qed.

(** A run is a fold: what it gives after one more event. *)
Lemma run_snoc (evs : list Session.Event) (ev : Session.Event) :
  Session.run (evs ++ [ev])
  = match Session.run evs with
    | Some st => Session.step st ev
    | None => None
    end.
Proof.
  unfold Session.run. rewrite fold_left_app. reflexivity.
Qed.

(** A time field stores its value unless the text parsed to NaN; the
    duration field stores nothing then. *)
Lemma time_commit_modelled (st : Editor.State) (blank : bool) (parsed : xnumber) :
  (Session.is_NaN parsed = false ->
   (exists st', Session.applyTimeChange
                  (PropertyPanel.handleStartTimeBlur (Session.timeProps st) parsed) st
                = Some st') /\
   (exists st', Session.applyTimeChange
                  (PropertyPanel.handleEndTimeBlur (Session.timeProps st) parsed) st
                = Some st') /\
   (exists st', Session.applyTimeChange
                  (PropertyPanel.handleMergeStartTimeBlur (Session.timeProps st)
                     blank parsed) st
                = Some st')) /\
  (exists st', Session.applyTimeChange
                 (PropertyPanel.handleDurationBlur (Session.timeProps st) parsed) st
               = Some st').
Proof.
  unfold Session.applyTimeChange, PropertyPanel.handleStartTimeBlur,
    PropertyPanel.handleEndTimeBlur, PropertyPanel.handleMergeStartTimeBlur,
    PropertyPanel.handleDurationBlur.
  cbn [Session.timeProps PropertyPanel.tp_mainVideo PropertyPanel.tp_startTime
       PropertyPanel.tp_endTime].
  destruct (Editor.mainVideo st) as [m|];
    [|cbn [PropertyPanel.noTimeChange PropertyPanel.newStartTime
           PropertyPanel.newEndTime bind Monad_option]; repeat split; eauto].
  split.
  - intros Hnan. rewrite !clamp_cases.
    destruct parsed; try discriminate Hnan; destruct blank;
      try destruct (gt (PropertyPanel.overlayDuration _) 0);
      cbn [PropertyPanel.noTimeChange PropertyPanel.newStartTime
           PropertyPanel.newEndTime bind Monad_option
           Session.storeStartTime Session.storeEndTime xadd xMath_min];
      repeat split; eauto.
  - destruct parsed; cbn [xgt]; try destruct (gt _ 0);
      cbn [PropertyPanel.noTimeChange PropertyPanel.newStartTime
           PropertyPanel.newEndTime bind Monad_option
           Session.storeStartTime Session.storeEndTime xadd xMath_min];
      eauto.
Qed.

(** The events that are modelled in every state have an outcome. *)
Lemma step_modelled (st : Editor.State) (ev : Session.Event) :
  Session.always_modelled ev = true -> exists st', Session.step st ev = Some st'.
Proof.
  intros Hev. unfold Session.step.
  assert (Hh : exists h, Session.handler ev st = Some h).
  { destruct ev; try discriminate Hev; cbn [Session.handler];
      try (first [ destruct (time_commit_modelled st blank parsed) as [Hfin Hdur]
                 | destruct (time_commit_modelled st false parsed) as [Hfin Hdur] ];
           try (cbn [Session.always_modelled] in Hev; apply negb_true_iff in Hev;
                destruct (Hfin Hev) as (Hstart & Hend & Hmerge)));
      repeat match goal with
             | |- exists h, (match ?c with _ => _ end) = Some h => destruct c
             end; eauto. }
  destruct Hh as [h ->]. cbn [bind Monad_option]. eauto.
Qed.

(** X15: whenever a run of events from the first render is one the model
    follows (no time field has stored NaN, no gesture has divided by a
    zero size), the page holds a selected secondary and an overlay
    placement in merge mode only, a placement only together with a
    selected secondary, a selected secondary that is never the primary
    itself, and a range that does not start before 0.  A run of events
    that are modelled in every state is always followed. *)
Theorem reachable_states_invariant (evs : list Session.Event) :
  (forall st, Session.run evs = Some st -> session_invariant st) /\
  (forallb Session.always_modelled evs = true ->
   exists st, Session.run evs = Some st).
Proof.
  induction evs as [|ev evs IH] using rev_ind.
  - split.
    + intros st [= <-]. exact initial_invariant.
    + intros _. exists Editor.initial. reflexivity.
  - destruct IH as [IHinv IHdef]. rewrite run_snoc. split.
    + intros st Hrun.
      destruct (Session.run evs) as [st0|]; [|discriminate].
      apply (step_invariant st0 st ev Hrun). now apply IHinv.
    + rewrite forallb_app. cbn [forallb]. rewrite andb_true_r.
      intros Hall. apply andb_true_iff in Hall as [Hevs Hev].
      destruct (IHdef Hevs) as [st0 ->]. now apply step_modelled.
Qed.

(** An upload into the empty editor; the player measured at 960 x 540; a
    click that creates the crop region and a drag of it; in merge mode a
    drop of the secondary, a drag of its box and a start typed as 110 s;
    then the end of a second upload that began in the empty editor. *)
Lemma reachable_states_invariant_witness :
  let evs :=
    [Session.Upload None Sample.primary;
     Session.VideoSizeChange (960, 540);
     Session.CropClick 480 270;
     Session.CropPointer Sample.move_gesture 700 350;
     Session.ModeChange merge;
     Session.Drop "sec" 950 100 (Some Sample.secondary);
     Session.OverlayPointer
       (OverlayVideo.handleMouseDown (Sample.overlay_at 12) false 100 100
          Sample.idle_overlay_gesture) 5000 100;
     Session.MergeStartBlur false (Fin 110);
     Session.Upload None Sample.clip] in
  exists st,
    Session.run evs = Some st /\
    session_invariant st /\
    Editor.mainVideo st = Some Sample.clip /\ Editor.selectedMaterial st = None.
Proof.
  cbv zeta. eexists. split; [vm_compute; reflexivity|].
  split; [|split; reflexivity].
  match goal with
  | |- session_invariant ?st =>
      apply (proj1 (reachable_states_invariant
               [Session.Upload None Sample.primary;
                Session.VideoSizeChange (960, 540);
                Session.CropClick 480 270;
                Session.CropPointer Sample.move_gesture 700 350;
                Session.ModeChange merge;
                Session.Drop "sec" 950 100 (Some Sample.secondary);
                Session.OverlayPointer
                  (OverlayVideo.handleMouseDown (Sample.overlay_at 12) false 100 100
                     Sample.idle_overlay_gesture) 5000 100;
                Session.MergeStartBlur false (Fin 110);
                Session.Upload None Sample.clip]) st)
  end.
  vm_compute. reflexivity.
Defined.

(** ** Seeding the overlay *)

(** X16: selecting a material changes nothing in crop mode or when the
    material is the primary; in merge mode, next to a primary at least one
    pixel wide and high, it selects the material and places it at the
    origin, no larger than the material's native size and inside the
    primary's frame. *)
Theorem select_seeds_placement (video : VideoFile) (st : Editor.State) :
  (Editor.mode st = crop -> Editor.handleMaterialSelect video st = st) /\
  (Editor.same_id (Editor.mainVideo st) video = true ->
   Editor.handleMaterialSelect video st = st) /\
  (forall m, Editor.mode st = merge -> Editor.mainVideo st = Some m ->
     id m <> id video -> 1 <= vwidth m -> 1 <= vheight m ->
     exists pos,
       Editor.selectedMaterial (Editor.handleMaterialSelect video st) = Some video /\
       Editor.overlayPosition (Editor.handleMaterialSelect video st) = Some pos /\
       x pos = 0 /\ y pos = 0 /\
       width pos <= vwidth video /\ height pos <= vheight video /\
       x pos + width pos <= vwidth m /\ y pos + height pos <= vheight m).
Proof.
  unfold Editor.handleMaterialSelect. split; [|split].
  - intros ->. reflexivity.
  - intros ->. now rewrite andb_false_r.
  - intros m Hmode Hm Hid HW HH. rewrite Hmode, Hm. cbn [Editor.is_crop negb andb].
    assert (E : Editor.same_id (Some m) video = false)
      by (cbn; now apply String.eqb_neq).
    rewrite E. cbn [negb].
    eexists. split; [reflexivity|]. split; [reflexivity|].
    cbn [x y width height].
    pose proof (Math_round_near (vwidth m / 4)) as [_ Uw].
    pose proof (Math_round_near (vheight m / 4)) as [_ Uh].
    assert (Ew : vwidth m / 4 == vwidth m * (1 # 4)) by field.
    assert (Eh : vheight m / 4 == vheight m * (1 # 4)) by field.
    revert Uw Uh.
    generalize (Math_round (vwidth m / 4)) (Math_round (vheight m / 4)).
    intros rw rh Uw Uh.
    rewrite Ew in Uw. rewrite Eh in Uh.
    repeat split; minmax.
Qed.

(** The 640 x 360 secondary selected on the 1920 x 1080 primary: placed
    480 x 270 at the origin. *)
Lemma select_seeds_placement_witness :
  let st := Editor.handleModeChange merge Sample.cropping in
  exists pos,
    Editor.overlayPosition (Editor.handleMaterialSelect Sample.secondary st)
      = Some pos /\
    x pos + width pos <= 1920 /\ y pos + height pos <= 1080.
Proof.
  cbv zeta.
  match goal with
  | |- exists pos, Editor.overlayPosition (Editor.handleMaterialSelect _ ?st) = _ /\ _ =>
      destruct (select_seeds_placement Sample.secondary st) as (_ & _ & H);
      destruct (H Sample.primary) as (pos & _ & Hpos & _ & _ & _ & _ & Hx & Hy)
  end; try reflexivity; try discriminate.
  exists pos. repeat split; assumption.
Defined.

(** X17: a drop on the player does nothing outside merge mode, without a
    dragged id or when the dragged asset does not carry that id; otherwise,
    the rendered size being positive, it hands over the dragged asset with
    a placement of the asset's native size which, when the asset is no
    larger than the shown video, lies inside the video's frame.  The page
    then refuses the primary itself as an overlay. *)
Theorem drop_places_overlay (v dv : VideoFile) (videoId : string)
  (dropX dropY : number) (sz : number * number) :
  0 < fst sz -> 0 < snd sz -> videoId <> EmptyString ->
  (forall video draggedVideo,
     VideoPlayer.handleDrop crop video videoId dropX dropY sz draggedVideo
       = Some None) /\
  VideoPlayer.handleDrop merge (Some v) videoId dropX dropY sz None = Some None /\
  (id dv <> videoId ->
   VideoPlayer.handleDrop merge (Some v) videoId dropX dropY sz (Some dv)
     = Some None) /\
  (id dv = videoId ->
   exists pos,
     VideoPlayer.handleDrop merge (Some v) videoId dropX dropY sz (Some dv)
       = Some (Some (dv, pos)) /\
     width pos = vwidth dv /\ height pos = vheight dv /\
     (vwidth dv <= vwidth v -> 0 <= x pos /\ x pos + width pos <= vwidth v) /\
     (vheight dv <= vheight v -> 0 <= y pos /\ y pos + height pos <= vheight v)) /\
  (forall pos st, Editor.same_id (Editor.mainVideo st) dv = true ->
     Editor.handleOverlayDrop dv pos st = st).
Proof.
  intros Hw Hh Hid. split; [reflexivity|].
  unfold VideoPlayer.handleDrop.
  destruct videoId as [|c rest]; [contradiction|].
  rewrite (div_pos _ _ Hw), (div_pos _ _ Hh). cbn [bind ret Monad_option].
  split; [reflexivity|]. split; [|split].
  - intros Hne. apply String.eqb_neq in Hne. now rewrite Hne.
  - intros He. apply String.eqb_eq in He. rewrite He.
    eexists. split; [reflexivity|]. cbn [x y width height].
    split; [reflexivity|]. split; [reflexivity|].
    generalize (Math_round (dropX * (vwidth v / fst sz)))
               (Math_round (dropY * (vheight v / snd sz))).
    intros vx vy.
    assert (Ew : vwidth dv / 2 == vwidth dv * (1 # 2)) by field.
    assert (Eh : vheight dv / 2 == vheight dv * (1 # 2)) by field.
    split; intros Hfit; split; minmax.
  - intros pos st E. unfold Editor.handleOverlayDrop. now rewrite E.
Qed.

(** The secondary dropped near the right edge of the primary shown at
    960 x 540. *)
Lemma drop_places_overlay_witness :
  exists pos,
    VideoPlayer.handleDrop merge (Some Sample.primary) "sec" 950 100 (960, 540)
      (Some Sample.secondary) = Some (Some (Sample.secondary, pos)) /\
    0 <= x pos /\ x pos + width pos <= 1920.
Proof.
  destruct (drop_places_overlay Sample.primary Sample.secondary "sec" 950 100
              (960, 540)) as (_ & _ & _ & H & _);
    try reflexivity; try discriminate.
  destruct (H eq_refl) as (pos & Hpos & _ & _ & Hx & _).
  exists pos. split; [exact Hpos|]. apply Hx. discriminate.
Defined.

(** ** More on the synchroniser *)

(** X18: running the sync effect again on the same props and the same
    play flag of the overlay ([isPlaying], the component's own state, set
    by [play] and [pause] of its handle) leaves the element as the first
    run left it; while that flag is set or the overlay is hidden the
    second run makes no call on the element at all. *)
Theorem sync_effect_idempotent (p : OverlayVideo.Props) (isPlaying : bool)
  (el : OverlayVideo.VideoEl) :
  let el' := OverlayVideo.run (OverlayVideo.syncOps p isPlaying el) el in
  OverlayVideo.run (OverlayVideo.syncOps p isPlaying el') el' = el' /\
  (isPlaying = true \/ OverlayVideo.shouldShow p = false ->
   OverlayVideo.syncOps p isPlaying el' = []).
Proof.
  cbv zeta. unfold OverlayVideo.syncOps.
  destruct (OverlayVideo.shouldShow p) eqn:Hs.
  - generalize (OverlayVideo.mainVideoTime p - OverlayVideo.overlayStartTime p).
    intros expected.
    assert (Hzero : gt (Math_abs (expected - expected)) OverlayVideo.tolerance = false).
    { apply gt_false. unfold Math_abs. apply Qabs_Qle_condition.
      unfold OverlayVideo.tolerance. lra. }
    destruct isPlaying; cbn [negb].
    + destruct (gt (Math_abs (OverlayVideo.currentTime el - expected))
                   OverlayVideo.tolerance) eqn:Hg;
        destruct el as [t [|]];
        cbn [OverlayVideo.run fold_left app OverlayVideo.apply_op
             OverlayVideo.currentTime OverlayVideo.paused andb negb] in *;
        rewrite ?Hzero, ?Hg;
        cbn [OverlayVideo.run fold_left app OverlayVideo.apply_op
             OverlayVideo.currentTime OverlayVideo.paused andb negb];
        split; try reflexivity; intros _; reflexivity.
    + destruct el as [t [|]];
        cbn [OverlayVideo.run fold_left app OverlayVideo.apply_op
             OverlayVideo.currentTime OverlayVideo.paused andb negb];
        (split; [reflexivity|]); intros [H|H]; discriminate.
  - destruct el as [t [|]];
      cbn [OverlayVideo.run fold_left app OverlayVideo.apply_op
           OverlayVideo.currentTime OverlayVideo.paused andb negb];
      split; reflexivity.
Qed.

(** The flag set at 24.9 s with the secondary a whole second late: the
    first run seeks and starts it, the second has nothing left to do. *)
Lemma sync_effect_idempotent_witness :
  let el := {| OverlayVideo.currentTime := 139 # 10; OverlayVideo.paused := true |} in
  let el' := OverlayVideo.run
               (OverlayVideo.syncOps (Sample.overlay_at (249 # 10)) true el) el in
  OverlayVideo.syncOps (Sample.overlay_at (249 # 10)) true el <> [] /\
  OverlayVideo.syncOps (Sample.overlay_at (249 # 10)) true el' = [].
Proof.
  cbv zeta. split; [vm_compute; discriminate|].
  apply (sync_effect_idempotent (Sample.overlay_at (249 # 10)) true
           {| OverlayVideo.currentTime := 139 # 10; OverlayVideo.paused := true |}).
  left. reflexivity.
Defined.

(** X19: after the sync effect has run on a mounted element, the element
    is paused exactly when the overlay is hidden or the overlay's own
    play flag ([isPlaying], set by [play] and [pause] of its handle) is
    cleared; while the overlay is shown its position is the expected one
    when the flag is cleared and within 0.3 s of it when the flag is
    set; while hidden its position is not touched. *)
Theorem sync_effect_postcondition (p : OverlayVideo.Props) (isPlaying : bool)
  (ref : option OverlayVideo.VideoEl) (el : OverlayVideo.VideoEl) :
  ref = Some el ->
  exists el',
    OverlayVideo.syncEffect p isPlaying ref = Some el' /\
    OverlayVideo.paused el' = negb (OverlayVideo.shouldShow p && isPlaying) /\
    (OverlayVideo.shouldShow p = true -> isPlaying = false ->
     OverlayVideo.currentTime el'
     = OverlayVideo.mainVideoTime p - OverlayVideo.overlayStartTime p) /\
    (OverlayVideo.shouldShow p = true -> isPlaying = true ->
     Qabs (OverlayVideo.currentTime el'
           - (OverlayVideo.mainVideoTime p - OverlayVideo.overlayStartTime p))
     <= OverlayVideo.tolerance) /\
    (OverlayVideo.shouldShow p = false ->
     OverlayVideo.currentTime el' = OverlayVideo.currentTime el).
Proof.
  intros ->. eexists. split; [reflexivity|].
  split; [|split; [|split]].
  - unfold OverlayVideo.syncOps.
    destruct (OverlayVideo.shouldShow p), isPlaying; cbn [andb negb];
      try destruct (gt _ _);
      destruct el as [t [|]]; reflexivity.
  - intros Hs ->. unfold OverlayVideo.syncOps. rewrite Hs.
    destruct el as [t [|]]; reflexivity.
  - intros Hs ->. now apply playing_within_tolerance.
  - intros Hs. unfold OverlayVideo.syncOps. rewrite Hs.
    destruct el as [t [|]]; reflexivity.
Qed.

(** The flag set at 24.9 s with the secondary paused and a whole second
    late: it is started and brought back within the tolerance. *)
Lemma sync_effect_postcondition_witness :
  exists el',
    OverlayVideo.syncEffect (Sample.overlay_at (249 # 10)) true
      (Some {| OverlayVideo.currentTime := 139 # 10; OverlayVideo.paused := true |})
    = Some el' /\
    OverlayVideo.paused el' = false /\
    Qabs (OverlayVideo.currentTime el' - ((249 # 10) - 10))
    <= OverlayVideo.tolerance.
Proof.
  destruct (sync_effect_postcondition (Sample.overlay_at (249 # 10)) true
              (Some {| OverlayVideo.currentTime := 139 # 10;
                       OverlayVideo.paused := true |})
              {| OverlayVideo.currentTime := 139 # 10; OverlayVideo.paused := true |}
              eq_refl) as (el' & He & Hp & _ & Ht & _).
  exists el'. split; [exact He|]. split; [exact Hp|].
  apply Ht; reflexivity.
Defined.

(** ** Gestures on the overlay box *)

Lemma overlay_scales (p : OverlayVideo.Props) (containerWidth containerHeight : number) :
  0 < containerWidth -> 0 < containerHeight ->
  0 < OverlayVideo.mainVideoWidth p -> 0 < OverlayVideo.mainVideoHeight p ->
  containerWidth /? OverlayVideo.mainVideoWidth p
    = Some (containerWidth / OverlayVideo.mainVideoWidth p) /\
  containerHeight /? OverlayVideo.mainVideoHeight p
    = Some (containerHeight / OverlayVideo.mainVideoHeight p) /\
  0 < containerWidth / OverlayVideo.mainVideoWidth p /\
  0 < containerHeight / OverlayVideo.mainVideoHeight p.
Proof.
  intros Hcw Hch HW HH.
  repeat split; first [now apply div_pos | now apply Qdiv_pos].
Qed.

(** X20: with a positive rendered size and a positive frame, every
    placement a pointer move on the overlay box reports satisfies the
    Rectangle invariant when the current placement does; a move during a
    drag keeps the size, a move during a resize keeps the position, and a
    move outside a gesture reports nothing. *)
Theorem overlay_gesture_keeps_bounds (p : OverlayVideo.Props)
  (containerWidth containerHeight : number) (g : OverlayVideo.Gesture)
  (clientX clientY : number) :
  0 < containerWidth -> 0 < containerHeight ->
  0 < OverlayVideo.mainVideoWidth p -> 0 < OverlayVideo.mainVideoHeight p ->
  within_bounds (OverlayVideo.mainVideoWidth p) (OverlayVideo.mainVideoHeight p)
    (OverlayVideo.position p) ->
  exists l,
    OverlayVideo.handleMouseMove p containerWidth containerHeight g clientX clientY
      = Some l /\
    (forall q, In q l ->
       within_bounds (OverlayVideo.mainVideoWidth p) (OverlayVideo.mainVideoHeight p) q) /\
    (OverlayVideo.isResizing g = false -> forall q, In q l ->
       width q = width (OverlayVideo.position p) /\
       height q = height (OverlayVideo.position p)) /\
    (OverlayVideo.isDragging g = false -> forall q, In q l ->
       x q = x (OverlayVideo.position p) /\ y q = y (OverlayVideo.position p)) /\
    (OverlayVideo.isDragging g = false -> OverlayVideo.isResizing g = false ->
     l = []).
Proof.
  intros Hcw Hch HW HH Hb.
  destruct (overlay_scales p _ _ Hcw Hch HW HH) as (Ex & Ey & Sx & Sy).
  unfold OverlayVideo.handleMouseMove. rewrite Ex, Ey.
  cbn [bind ret Monad_option].
  pose proof (dragTo_within_bounds p) as Hdrag. cbv zeta in Hdrag.
  pose proof (resizeTo_within_bounds p) as Hres. cbv zeta in Hres.
  destruct (OverlayVideo.isDragging g), (OverlayVideo.isResizing g);
    rewrite ?(div_pos _ _ Sx), ?(div_pos _ _ Sy); cbn [bind ret Monad_option app];
    eexists; (split; [reflexivity|]).
  - split; [|split; [|split]]; try discriminate.
    intros q [<-|[<-|[]]]; [now apply Hdrag | now apply Hres].
  - split; [|split; [|split]]; try discriminate.
    + intros q [<-|[]]. now apply Hdrag.
    + intros _ q [<-|[]]. split; reflexivity.
  - split; [|split; [|split]]; try discriminate.
    + intros q [<-|[]]. now apply Hres.
    + intros _ q [<-|[]]. split; reflexivity.
  - split; [|split; [|split]].
    + intros q [].
    + intros _ q [].
    + intros _ q [].
    + reflexivity.
Qed.

Lemma sample_placement_bounds : within_bounds 1920 1080 Sample.placement.
Proof.
  unfold within_bounds, CropOverlay.minSize; simpl. repeat split; lra.
Qed.

(** The sample placement dragged far beyond the right edge at half scale:
    it stops at x = 1440. *)
Lemma overlay_gesture_keeps_bounds_witness :
  exists l,
    OverlayVideo.handleMouseMove (Sample.overlay_at 12) 960 540
      (OverlayVideo.handleMouseDown (Sample.overlay_at 12) false 100 100
         Sample.idle_overlay_gesture) 5000 100 = Some l /\
    forall q, In q l -> within_bounds 1920 1080 q.
Proof.
  destruct (overlay_gesture_keeps_bounds (Sample.overlay_at 12) 960 540
              (OverlayVideo.handleMouseDown (Sample.overlay_at 12) false 100 100
                 Sample.idle_overlay_gesture) 5000 100)
    as (l & Hl & Hb & _); try reflexivity.
  - exact sample_placement_bounds.
  - exists l. split; [exact Hl | exact Hb].
Defined.

(** ** More on the job poll *)

Lemma timer_in_flight
  (fileNameOf : SourceType -> number -> number -> number -> string -> string)
  (p : PropertyPanel.Submitted) (taskId format : string) (kind : SourceType)
  (answer : option PropertyPanel.ApiResponse) :
  existsb PropertyPanel.is_timer
    (PropertyPanel.pollTaskStatus fileNameOf p taskId format kind answer)
  = in_flight answer.
Proof.
  unfold PropertyPanel.pollTaskStatus, in_flight.
  destruct answer as [r|]; [|reflexivity].
  destruct (PropertyPanel.success r); [|destruct (PropertyPanel.data r); reflexivity].
  destruct (PropertyPanel.data r) as [d|]; [|reflexivity].
  destruct (status d); try reflexivity.
  destruct (PropertyPanel.mainVideo p); reflexivity.
Qed.

Lemma export_count
  (fileNameOf : SourceType -> number -> number -> number -> string -> string)
  (p : PropertyPanel.Submitted) (taskId format : string) (kind : SourceType)
  (answer : option PropertyPanel.ApiResponse) :
  (in_flight answer = true ->
   filter is_export
     (PropertyPanel.pollTaskStatus fileNameOf p taskId format kind answer) = []) /\
  (length (filter is_export
     (PropertyPanel.pollTaskStatus fileNameOf p taskId format kind answer)) <= 1)%nat.
Proof.
  unfold PropertyPanel.pollTaskStatus, in_flight.
  destruct answer as [r|]; [|split; [discriminate | cbn; lia]].
  destruct (PropertyPanel.success r);
    [|destruct (PropertyPanel.data r); split; try discriminate; cbn; lia].
  destruct (PropertyPanel.data r) as [d|]; [|split; [discriminate | cbn; lia]].
  destruct (status d); try (split; [reflexivity || discriminate | cbn; lia]).
  destruct (PropertyPanel.mainVideo p); split; try discriminate; cbn; lia.
Qed.

(** X21: whatever the service answers, one poll re-arms its timer exactly
    when the answer is a successful response with a pending or processing
    task, and exports an asset only when it is a successful response with
    a completed task; it never does both, a failed task and a lost or
    unsuccessful response export nothing, and the latter two set no
    timer either. *)
Theorem poll_outcomes
  (fileNameOf : SourceType -> number -> number -> number -> string -> string)
  (p : PropertyPanel.Submitted) (taskId format : string) (kind : SourceType)
  (answer : option PropertyPanel.ApiResponse) :
  let efs := PropertyPanel.pollTaskStatus fileNameOf p taskId format kind answer in
  existsb PropertyPanel.is_timer efs = in_flight answer /\
  (forall v, In (PropertyPanel.OnVideoExported v) efs ->
     exists r d, answer = Some r /\ PropertyPanel.success r = true /\
                 PropertyPanel.data r = Some d /\ status d = completed) /\
  (existsb PropertyPanel.is_timer efs = true -> existsb is_export efs = false) /\
  (answer = None ->
   efs = [PropertyPanel.ConsoleError; PropertyPanel.SetProcessing false;
          PropertyPanel.SetTask None]) /\
  (forall r, answer = Some r -> PropertyPanel.success r = false ->
     efs = [PropertyPanel.ConsoleError]).
Proof.
  cbv zeta. split; [apply timer_in_flight|].
  split; [|split; [|split]].
  - intros v. unfold PropertyPanel.pollTaskStatus.
    destruct answer as [r|]; [|intros [H|[H|[H|[]]]]; discriminate].
    destruct (PropertyPanel.success r) eqn:Hs;
      [|destruct (PropertyPanel.data r); intros [H|[]]; discriminate].
    destruct (PropertyPanel.data r) as [d|] eqn:Hd;
      [|intros [H|[]]; discriminate].
    destruct (status d) eqn:Hst.
    + intros [H|[H|[]]]; discriminate.
    + intros [H|[H|[]]]; discriminate.
    + intros _. exists r, d. repeat split; assumption.
    + intros [H|[H|[H|[H|[]]]]]; discriminate.
  - rewrite timer_in_flight. intros Hin.
    destruct (export_count fileNameOf p taskId format kind answer) as [Hnone _].
    specialize (Hnone Hin).
    destruct (existsb is_export _) eqn:E; [|reflexivity].
    apply existsb_exists in E as (ef & Hef & Hex).
    assert (Hf : In ef (filter is_export
              (PropertyPanel.pollTaskStatus fileNameOf p taskId format kind answer)))
      by (apply filter_In; now split).
    rewrite Hnone in Hf. destruct Hf.
  - intros ->. reflexivity.
  - intros r -> Hs. unfold PropertyPanel.pollTaskStatus. rewrite Hs.
    destruct (PropertyPanel.data r); reflexivity.
Qed.

(** X22: the polling of a job stops at the first answer that is not in
    flight, whatever the service would answer afterwards, and over any
    sequence of answers it exports at most one asset. *)
Theorem polling_stops_and_exports_once
  (fileNameOf : SourceType -> number -> number -> number -> string -> string)
  (p : PropertyPanel.Submitted) (taskId format : string) (kind : SourceType)
  (before later : list (option PropertyPanel.ApiResponse))
  (answer : option PropertyPanel.ApiResponse) :
  (in_flight answer = false ->
   PropertyPanel.pollLoop fileNameOf p taskId format kind (before ++ answer :: later)
   = PropertyPanel.pollLoop fileNameOf p taskId format kind (before ++ [answer])) /\
  (length (filter is_export
     (PropertyPanel.pollLoop fileNameOf p taskId format kind before)) <= 1)%nat.
Proof.
  split.
  - intros Hterm. induction before as [|a before IH]; cbn [app PropertyPanel.pollLoop].
    + rewrite timer_in_flight, Hterm. reflexivity.
    + now rewrite IH.
  - induction before as [|a before IH]; cbn [PropertyPanel.pollLoop]; [cbn; lia|].
    rewrite timer_in_flight, filter_app, length_app.
    destruct (export_count fileNameOf p taskId format kind a) as [Hnone Hone].
    destruct (in_flight a).
    + rewrite (Hnone eq_refl). cbn [length]. lia.
    + cbn [filter length]. lia.
Qed.

(** A job that fails after one processing answer: the completed answer
    that follows is never read. *)
Lemma polling_stops_and_exports_once_witness :
  let answer st :=
    Some {| PropertyPanel.success := true;
            PropertyPanel.data := Some (mkTask "t1" st 50 None (Some "boom"%string));
            PropertyPanel.resp_error := None |} in
  let p := {| PropertyPanel.mainVideo := Some Sample.primary;
              PropertyPanel.startTime := 10; PropertyPanel.endTime := 25;
              PropertyPanel.cropArea := None;
              PropertyPanel.overlayPosition := None |} in
  PropertyPanel.pollLoop (fun _ _ _ _ _ => "out.mp4"%string) p "t1" "mp4" crop_src
    ([answer processing] ++ answer failed :: [answer completed])
  = PropertyPanel.pollLoop (fun _ _ _ _ _ => "out.mp4"%string) p "t1" "mp4" crop_src
    ([answer processing] ++ [answer failed]).
Proof.
  cbv zeta.
  apply (polling_stops_and_exports_once (fun _ _ _ _ _ => "out.mp4"%string)).
  reflexivity.
Defined.

(** A lost response: the loop stops with the processing flag cleared. *)
Lemma poll_outcomes_witness :
  PropertyPanel.pollTaskStatus (fun _ _ _ _ _ => "out.mp4"%string)
    {| PropertyPanel.mainVideo := Some Sample.primary;
       PropertyPanel.startTime := 10; PropertyPanel.endTime := 25;
       PropertyPanel.cropArea := None; PropertyPanel.overlayPosition := None |}
    "t1" "mp4" crop_src None
  = [PropertyPanel.ConsoleError; PropertyPanel.SetProcessing false;
     PropertyPanel.SetTask None].
Proof.
  apply (poll_outcomes (fun _ _ _ _ _ => "out.mp4"%string)). reflexivity.
Defined.

(** X23: a crop is submitted for the primary with the range, the crop
    region and the primary's format; when the service accepts it, the
    first poll is started for the returned task with that format, so that
    the asset exported on completion has the request's file as parent and
    the request's output format; when the service rejects it, no poll is
    started.  A merge is submitted only with a selected secondary and a
    placement; otherwise only a warning is shown. *)
Theorem submission_and_result
  (fileNameOf : SourceType -> number -> number -> number -> string -> string)
  (p : PropertyPanel.Submitted) (m : VideoFile) :
  PropertyPanel.mainVideo p = Some m ->
  (exists req,
     PropertyPanel.handleConfirmCrop p = PropertyPanel.SentCrop req /\
     PropertyPanel.file_id req = id m /\
     PropertyPanel.start_time req = PropertyPanel.startTime p /\
     PropertyPanel.end_time req = PropertyPanel.endTime p /\
     PropertyPanel.crop_area req = PropertyPanel.cropArea p /\
     PropertyPanel.output_format req = Some (format m) /\
     forall accepted answer d v,
       PropertyPanel.success accepted = true ->
       PropertyPanel.data accepted = Some d ->
       exists tid fmt,
         snd (PropertyPanel.afterSubmit m crop_src accepted)
           = Some (tid, fmt, crop_src) /\
         tid = taskId d /\
         (In (PropertyPanel.OnVideoExported v)
             (PropertyPanel.pollTaskStatus fileNameOf p tid fmt crop_src answer) ->
          parentId v = Some (PropertyPanel.file_id req) /\
          Some (format v) = PropertyPanel.output_format req /\
          sourceType v = Some crop_src)) /\
  (forall rejected kind, PropertyPanel.success rejected = false ->
     snd (PropertyPanel.afterSubmit m kind rejected) = None) /\
  (forall sel,
     PropertyPanel.overlayPosition p = None ->
     PropertyPanel.handleConfirmOverlay p sel = PropertyPanel.Warned) /\
  PropertyPanel.handleConfirmOverlay p None = PropertyPanel.Warned /\
  (forall sel pos, PropertyPanel.overlayPosition p = Some pos ->
     exists req,
       PropertyPanel.handleConfirmOverlay p (Some sel) = PropertyPanel.SentOverlay req /\
       PropertyPanel.main_file_id req = id m /\
       PropertyPanel.overlay_file_id req = id sel /\
       PropertyPanel.o_position req = pos).
Proof.
  intros Hm. split; [|split; [|split; [|split]]].
  - unfold PropertyPanel.handleConfirmCrop. rewrite Hm.
    eexists. split; [reflexivity|]. cbn.
    do 5 (split; [reflexivity|]).
    intros accepted answer d v Hs Hd.
    unfold PropertyPanel.afterSubmit. rewrite Hs, Hd. cbn [snd].
    eexists. eexists. split; [reflexivity|]. split; [reflexivity|].
    unfold PropertyPanel.pollTaskStatus.
    destruct answer as [r|]; [|intros [H|[H|[H|[]]]]; discriminate].
    destruct (PropertyPanel.success r);
      [|destruct (PropertyPanel.data r); intros [H|[]]; discriminate].
    destruct (PropertyPanel.data r) as [d'|]; [|intros [H|[]]; discriminate].
    destruct (status d').
    + intros [H|[H|[]]]; discriminate.
    + intros [H|[H|[]]]; discriminate.
    + rewrite Hm. intros [H|[H|[H|[H|[H|[]]]]]]; try discriminate.
      injection H as <-. repeat split.
    + intros [H|[H|[H|[H|[]]]]]; discriminate.
  - intros rejected kind Hs. unfold PropertyPanel.afterSubmit. now rewrite Hs.
  - intros sel Hpos. unfold PropertyPanel.handleConfirmOverlay.
    rewrite Hm, Hpos. destruct sel; reflexivity.
  - unfold PropertyPanel.handleConfirmOverlay. now rewrite Hm.
  - intros sel pos Hpos. unfold PropertyPanel.handleConfirmOverlay.
    rewrite Hm, Hpos. eexists. split; [reflexivity|]. repeat split.
Qed.

(** The crop of the sample region. *)
Lemma submission_and_result_witness :
  exists req,
    PropertyPanel.handleConfirmCrop
      {| PropertyPanel.mainVideo := Some Sample.primary;
         PropertyPanel.startTime := 10; PropertyPanel.endTime := 25;
         PropertyPanel.cropArea := Some Sample.region;
         PropertyPanel.overlayPosition := None |}
      = PropertyPanel.SentCrop req /\
    PropertyPanel.file_id req = "main"%string /\
    PropertyPanel.output_format req = Some "mp4"%string.
Proof.
  destruct (submission_and_result (fun _ _ _ _ _ => "out.mp4"%string)
              {| PropertyPanel.mainVideo := Some Sample.primary;
                 PropertyPanel.startTime := 10; PropertyPanel.endTime := 25;
                 PropertyPanel.cropArea := Some Sample.region;
                 PropertyPanel.overlayPosition := None |}
              Sample.primary eq_refl)
    as ((req & Hreq & Hid & _ & _ & _ & Hfmt & _) & _).
  exists req. repeat split; assumption.
Defined.

(** ** More on uploads *)

(** X24: the two upload handlers treat every file alike: each sends it
    exactly when [validateFile] accepts it, and otherwise shows exactly one
    message and sends nothing.  A file larger than 500 MiB is always
    rejected, and a file of an allowed declared type within the limit is
    accepted whatever its name. *)
Theorem uploaders_agree (formatFileSize : number -> string) (file : Upload.File) :
  let main := Upload.handleUpload formatFileSize file in
  let panel := Upload.handleFileChange formatFileSize (Some file) in
  (Upload.validateFile formatFileSize file = None ->
   main = [Upload.SetUploading true; Upload.SetProgress 0 (Upload.file_size file) 0;
           Upload.UploadVideo file] /\ panel = main) /\
  (Upload.validateFile formatFileSize file <> None ->
   (exists msg, main = [Upload.MessageError msg]) /\
   (exists msg, panel = [Upload.MessageError msg])) /\
  (Upload.MAX_SIZE < Upload.file_size file ->
   Upload.validateFile formatFileSize file <> None) /\
  (Upload.includes Upload.ALLOWED_TYPES (Upload.file_type file) = true ->
   Upload.file_size file <= Upload.MAX_SIZE ->
   Upload.validateFile formatFileSize file = None) /\
  Upload.handleFileChange formatFileSize None = [].
Proof.
  cbv zeta.
  unfold Upload.handleUpload, Upload.handleFileChange, Upload.validateFile.
  split; [|split; [|split; [|split]]].
  - destruct (negb _ && negb _); [discriminate|].
    destruct (gt _ _); [discriminate|]. intros _. split; reflexivity.
  - destruct (negb _ && negb _); [intros _; split; eauto|].
    destruct (gt _ _); [intros _; split; eauto|].
    intros H. now contradiction H.
  - intros Hbig. apply gt_true in Hbig. rewrite Hbig.
    destruct (negb _ && negb _); discriminate.
  - intros Ht Hle. rewrite Ht. cbn [negb andb].
    apply gt_false in Hle. now rewrite Hle.
  - reflexivity.
Qed.

(** A file of 600 MiB named like a video. *)
Lemma uploaders_agree_witness :
  let file := {| Upload.file_name := "film.mp4"; Upload.file_type := "video/mp4";
                 Upload.file_size := 600 * 1024 * 1024 |} in
  exists msg,
    Upload.handleFileChange (fun _ => "500 MB"%string) (Some file)
      = [Upload.MessageError msg].
Proof.
  cbv zeta.
  match goal with
  | |- exists msg, Upload.handleFileChange ?f (Some ?file) = _ =>
      destruct (uploaders_agree f file) as (_ & Hrej & Hbig & _);
      apply Hrej; apply Hbig; reflexivity
  end.
Defined.

(** X25: for a computable progress event with 0 <= loaded <= total and a
    positive total, the reported percentage is an integer between 0 and
    100; an event that is not computable is not reported. *)
Theorem progress_percent (ev : Upload.ProgressEvent) :
  (Upload.lengthComputable ev = false -> Upload.onProgress ev = Some None) /\
  (Upload.lengthComputable ev = true ->
   0 <= Upload.loaded ev -> Upload.loaded ev <= Upload.total ev ->
   0 < Upload.total ev ->
   exists percent,
     Upload.onProgress ev = Some (Some (Upload.loaded ev, Upload.total ev, percent)) /\
     integral percent /\ 0 <= percent /\ percent <= 100).
Proof.
  unfold Upload.onProgress. split.
  - intros ->. reflexivity.
  - intros -> Hl Hle Ht. rewrite (div_pos _ _ Ht). cbn [bind ret Monad_option].
    eexists. split; [reflexivity|].
    split; [apply integral_round|].
    assert (Hr0 : 0 <= Upload.loaded ev / Upload.total ev).
    { apply Qle_shift_div_l; [exact Ht | lra]. }
    assert (Hr1 : Upload.loaded ev / Upload.total ev <= 1).
    { apply Qle_shift_div_r; [exact Ht | lra]. }
    pose proof (Math_round_lower 0 (Upload.loaded ev / Upload.total ev * 100)) as Lo.
    pose proof (Math_round_int 100) as R100.
    split.
    + apply Lo. change (inject_Z 0) with 0. lra.
    + change 100 with (inject_Z 100) at 2. rewrite <- R100.
      unfold Math_round. rewrite <- Zle_Qle. apply Qfloor_resp_le.
      change (inject_Z 100) with 100. lra.
Qed.

(** A third of 3000 bytes sent. *)
Lemma progress_percent_witness :
  exists percent,
    Upload.onProgress (Upload.mkProgressEvent true 1000 3000)
      = Some (Some (1000, 3000, percent)) /\
    integral percent /\ 0 <= percent /\ percent <= 100.
Proof.
  apply (progress_percent (Upload.mkProgressEvent true 1000 3000));
    first [reflexivity | discriminate].
Defined.

(** ** The player *)

(** X26: toggling play on a mounted player flips its play flag, leaves
    the primary element paused exactly when the player is not playing and
    gives the overlay, when one is mounted, the same play flag as the
    player; starting from the end of a video of non-zero duration rewinds
    the primary and the overlay element to 0; toggling twice gives back
    the play flag. *)
Theorem togglePlay_mirrors (pl : VideoPlayer.Player) (el : OverlayVideo.VideoEl) :
  VideoPlayer.videoRef pl = Some el ->
  let pl' := VideoPlayer.togglePlay pl in
  VideoPlayer.playing pl' = negb (VideoPlayer.playing pl) /\
  (exists el', VideoPlayer.videoRef pl' = Some el' /\
               OverlayVideo.paused el' = negb (VideoPlayer.playing pl')) /\
  (forall h, VideoPlayer.overlayVideoRef pl = Some h ->
     exists h', VideoPlayer.overlayVideoRef pl' = Some h' /\
                OverlayVideo.isPlaying h' = VideoPlayer.playing pl') /\
  (VideoPlayer.playing pl = false -> ~ VideoPlayer.duration pl == 0 ->
   VideoPlayer.duration pl <= OverlayVideo.currentTime el ->
   (exists el', VideoPlayer.videoRef pl' = Some el' /\
                OverlayVideo.currentTime el' = 0) /\
   (forall h oel, VideoPlayer.overlayVideoRef pl = Some h ->
      OverlayVideo.element h = Some oel ->
      exists h' oel', VideoPlayer.overlayVideoRef pl' = Some h' /\
                      OverlayVideo.element h' = Some oel' /\
                      OverlayVideo.currentTime oel' = 0)) /\
  VideoPlayer.playing (VideoPlayer.togglePlay pl') = VideoPlayer.playing pl.
Proof.
  intros Hel. cbv zeta.
  assert (Hm : forall q, VideoPlayer.videoRef q <> None ->
             VideoPlayer.playing (VideoPlayer.togglePlay q)
             = negb (VideoPlayer.playing q) /\
             VideoPlayer.videoRef (VideoPlayer.togglePlay q) <> None).
  { intros q Hq. unfold VideoPlayer.togglePlay.
    destruct (VideoPlayer.videoRef q); [|contradiction].
    destruct (VideoPlayer.playing q); split; try reflexivity; discriminate. }
  destruct (Hm pl) as [Hp Hr]; [rewrite Hel; discriminate|].
  split; [exact Hp|].
  split; [|split; [|split]].
  - unfold VideoPlayer.togglePlay. rewrite Hel.
    destruct (VideoPlayer.playing pl); cbn;
      eexists; split; reflexivity.
  - intros h Hh. unfold VideoPlayer.togglePlay. rewrite Hel, Hh.
    destruct (VideoPlayer.playing pl); cbn.
    + eexists; split; reflexivity.
    + destruct (_ || _); eexists; split; reflexivity.
  - intros Hplay Hdur Hend. unfold VideoPlayer.togglePlay.
    rewrite Hel, Hplay.
    assert (Hrew : lt (OverlayVideo.currentTime el) VideoPlayer.effectiveStartTime
                   || VideoPlayer.truthy (VideoPlayer.effectiveEndTime pl)
                      && ge (OverlayVideo.currentTime el)
                            (VideoPlayer.effectiveEndTime pl) = true).
    { unfold VideoPlayer.truthy, VideoPlayer.effectiveEndTime.
      apply Qeq_bool_neq in Hdur || idtac.
      destruct (Qeq_bool (VideoPlayer.duration pl) 0) eqn:E.
      - apply Qeq_bool_iff in E. contradiction.
      - cbn [negb andb]. apply ge_true in Hend. rewrite Hend.
        now rewrite orb_true_r. }
    rewrite Hrew. cbn. split.
    + eexists. split; reflexivity.
    + intros h oel Hh Ho. rewrite Hh. cbn.
      eexists. eexists. split; [reflexivity|].
      cbn. rewrite Ho. split; reflexivity.
  - destruct (Hm (VideoPlayer.togglePlay pl) Hr) as [Hp2 _].
    rewrite Hp2, Hp. apply negb_involutive.
Qed.

(** A paused player at the end of its 120 s video, with the overlay
    mounted. *)
Lemma togglePlay_mirrors_witness :
  let pl := {| VideoPlayer.playing := false; VideoPlayer.currentTime := 120;
               VideoPlayer.duration := 120; VideoPlayer.videoSize := (960, 540);
               VideoPlayer.videoRef := Some (OverlayVideo.mkEl 120 true);
               VideoPlayer.overlayVideoRef :=
                 Some (OverlayVideo.mkHandle false
                         (Some (OverlayVideo.mkEl 15 true))) |} in
  VideoPlayer.playing (VideoPlayer.togglePlay pl) = true /\
  exists el', VideoPlayer.videoRef (VideoPlayer.togglePlay pl) = Some el' /\
              OverlayVideo.currentTime el' = 0.
Proof.
  cbv zeta.
  match goal with
  | |- VideoPlayer.playing (VideoPlayer.togglePlay ?pl) = _ /\ _ =>
      destruct (togglePlay_mirrors pl (OverlayVideo.mkEl 120 true) eq_refl)
        as (Hp & _ & _ & Hrew & _)
  end.
  split; [exact Hp|].
  destruct Hrew as [Hr _]; [reflexivity | intros E; discriminate E
                           | intros E; discriminate E | exact Hr].
Defined.

(** X27: a frame step leaves the player not playing, with the primary
    element and the shown time at the same position, which lies within
    [0, duration] when the position before did; a step on a playing
    player pauses the primary and the overlay.  A progress frame at or
    past the end of a video of non-zero duration stops the player,
    rewinds the primary to 0, pauses it, stops and rewinds the overlay
    and requests no further frame; before the end it reports the time
    and requests the next frame. *)
Theorem stepping_and_end_of_playback (pl : VideoPlayer.Player)
  (el : OverlayVideo.VideoEl) (direction : VideoPlayer.Direction) :
  VideoPlayer.videoRef pl = Some el ->
  (let pl' := VideoPlayer.stepFrame direction pl in
   VideoPlayer.playing pl' = false /\
   (exists el', VideoPlayer.videoRef pl' = Some el' /\
                OverlayVideo.currentTime el' = VideoPlayer.currentTime pl' /\
                (VideoPlayer.playing pl = true -> OverlayVideo.paused el' = true)) /\
   (0 <= OverlayVideo.currentTime el ->
    OverlayVideo.currentTime el <= VideoPlayer.duration pl ->
    0 <= VideoPlayer.currentTime pl' /\
    VideoPlayer.currentTime pl' <= VideoPlayer.duration pl) /\
   (VideoPlayer.playing pl = true ->
    forall h, VideoPlayer.overlayVideoRef pl = Some h ->
      exists h', VideoPlayer.overlayVideoRef pl' = Some h' /\
                 OverlayVideo.isPlaying h' = false)) /\
  (VideoPlayer.playing pl = true -> ~ VideoPlayer.duration pl == 0 ->
   VideoPlayer.duration pl <= OverlayVideo.currentTime el ->
   exists pl',
     VideoPlayer.updateProgress pl
       = (pl', Some (OverlayVideo.currentTime el), false) /\
     VideoPlayer.playing pl' = false /\
     VideoPlayer.videoRef pl' = Some (OverlayVideo.mkEl 0 true) /\
     (forall h, VideoPlayer.overlayVideoRef pl = Some h ->
        exists h', VideoPlayer.overlayVideoRef pl' = Some h' /\
                   OverlayVideo.isPlaying h' = false /\
                   (forall oel, OverlayVideo.element h = Some oel ->
                      exists oel', OverlayVideo.element h' = Some oel' /\
                                   OverlayVideo.currentTime oel' = 0))) /\
  (VideoPlayer.playing pl = true ->
   OverlayVideo.currentTime el < VideoPlayer.duration pl ->
   exists pl',
     VideoPlayer.updateProgress pl
       = (pl', Some (OverlayVideo.currentTime el), true) /\
     VideoPlayer.playing pl' = true /\
     VideoPlayer.videoRef pl' = VideoPlayer.videoRef pl /\
     VideoPlayer.overlayVideoRef pl' = VideoPlayer.overlayVideoRef pl) /\
  (VideoPlayer.playing pl = false ->
   VideoPlayer.updateProgress pl = (pl, None, false)).
Proof.
  intros Hel. split; [|split; [|split]].
  - cbv zeta. unfold VideoPlayer.stepFrame. rewrite Hel.
    cbn [VideoPlayer.playing VideoPlayer.videoRef VideoPlayer.currentTime
         VideoPlayer.overlayVideoRef].
    split; [reflexivity|]. split; [|split].
    + eexists. split; [reflexivity|]. split; [reflexivity|].
      intros ->. reflexivity.
    + intros H0 Hd.
      assert (Et : OverlayVideo.currentTime
                     (if VideoPlayer.playing pl
                      then OverlayVideo.apply_op el OverlayVideo.Pause else el)
                   = OverlayVideo.currentTime el)
        by (destruct (VideoPlayer.playing pl); reflexivity).
      rewrite Et.
      assert (Eo : or_number (VideoPlayer.effectiveEndTime pl) (VideoPlayer.duration pl)
                   == VideoPlayer.duration pl).
      { unfold or_number, VideoPlayer.effectiveEndTime.
        destruct (Qeq_bool _ 0); reflexivity. }
      revert Eo.
      generalize (or_number (VideoPlayer.effectiveEndTime pl) (VideoPlayer.duration pl)).
      intros lim Eo.
      unfold VideoPlayer.frameTime, VideoPlayer.effectiveStartTime.
      destruct direction; split; minmax.
    + intros -> h ->. cbn. eexists. split; reflexivity.
  - intros Hplay Hdur Hend. unfold VideoPlayer.updateProgress.
    rewrite Hel, Hplay.
    assert (Hstop : VideoPlayer.truthy (VideoPlayer.effectiveEndTime pl)
                    && ge (OverlayVideo.currentTime el)
                          (VideoPlayer.effectiveEndTime pl) = true).
    { unfold VideoPlayer.truthy, VideoPlayer.effectiveEndTime.
      destruct (Qeq_bool (VideoPlayer.duration pl) 0) eqn:E.
      - apply Qeq_bool_iff in E. contradiction.
      - cbn [negb andb]. now apply ge_true. }
    rewrite Hstop. eexists. split; [reflexivity|].
    cbn [VideoPlayer.playing VideoPlayer.videoRef VideoPlayer.overlayVideoRef].
    split; [reflexivity|]. split; [reflexivity|].
    intros h ->. cbn [option_map]. eexists. split; [reflexivity|].
    split; [reflexivity|].
    intros oel Ho. eexists. cbn. rewrite Ho. split; reflexivity.
  - intros Hplay Hbefore. unfold VideoPlayer.updateProgress.
    rewrite Hel, Hplay.
    assert (Hgo : ge (OverlayVideo.currentTime el) (VideoPlayer.effectiveEndTime pl)
                  = false).
    { unfold ge, VideoPlayer.effectiveEndTime.
      destruct (Qle_bool _ _) eqn:E; [|reflexivity].
      apply Qle_bool_iff in E. lra. }
    rewrite Hgo, andb_false_r. eexists. split; [reflexivity|].
    repeat split.
  - intros Hplay. unfold VideoPlayer.updateProgress. rewrite Hel, Hplay.
    reflexivity.
Qed.

(** A playing player stepped forward near the end of its 120 s video. *)
Lemma stepping_and_end_of_playback_witness :
  let pl := {| VideoPlayer.playing := true; VideoPlayer.currentTime := 119;
               VideoPlayer.duration := 120; VideoPlayer.videoSize := (960, 540);
               VideoPlayer.videoRef := Some (OverlayVideo.mkEl (11999 # 100) false);
               VideoPlayer.overlayVideoRef := None |} in
  0 <= VideoPlayer.currentTime (VideoPlayer.stepFrame VideoPlayer.forward pl) /\
  VideoPlayer.currentTime (VideoPlayer.stepFrame VideoPlayer.forward pl) <= 120.
Proof.
  cbv zeta.
  match goal with
  | |- 0 <= VideoPlayer.currentTime (VideoPlayer.stepFrame _ ?pl) /\ _ =>
      destruct (stepping_and_end_of_playback pl
                  (OverlayVideo.mkEl (11999 # 100) false) VideoPlayer.forward eq_refl)
        as ((_ & _ & Hb & _) & _)
  end.
  apply Hb; discriminate.
Defined.
